(** * BVDU-Bank: trading and portfolio accounting engine

    A shallow embedding of the trading core of [bvdu_bank.c]: the price
    catalog with its market-hours window and price ticks, the FX
    conversion, the holdings book, portfolio valuation and the
    buy / sell operations; and of the account code around it: login,
    deposit, withdrawal, transfers, UPI validation, account creation, the
    mini statement and the administrator's actions.

    Conventions of the embedding.
    - A C [double] is read as an exact rational ([Q]); the literals
      [0.0001] and [0.000001] are the rationals 1/10000 and 1/1000000.
      Rounding is outside the model, and so are the infinities and NaN as
      stored values: the operations take a typed number that is finite.
      What the test of a typed quantity does with the other values
      [atof] can return is written out apart, on [atof_value].
    - A C [int] is a [Z]; the one addition that can leave the range of
      [int], in [next_account_no], wraps.  The fixed [char] buffers are
      [string]s; the one place where the source leaves a buffer without
      its terminator, the local [Holding] of [buy_asset_loggedin], takes
      what follows on the stack as an argument ([StackJunk]).
    - The global arrays [accounts], [holdings], [prices] with their
      counters [acc_count], [hold_count], [price_count] are lists (the
      counter is the length); the global [fx] is a record.  All four are
      fields of one explicit [State] threaded through every operation.
    - The wall clock is an argument: [hour] for [tm_hour], [ts] for the
      string written by [get_timestamp].
    - [rand()] is a stream of raw draws with a cursor.
    - Console input is an argument: the line read by [fgets] is an
      [option string] (None when [fgets] fails), the number read by
      [safe_read_double] an [option Q].
    - Writes to the data files, the audit log and notifications do not
      feed back into any value modelled here and are left out. *)

From Stdlib Require Import ZArith QArith Qfield Lia Lqa String Ascii Bool DecimalString.
From stdpp Require Import base list.

Open Scope Q_scope.

(** ** Configuration *)

Definition MAX_HOLDINGS : nat := 2000.

(** ** Data structures *)

Record Account := mkAccount {
  acc_no : Z;
  name : string;
  acc_type : string;
  pin : Z;
  balance : Q;
  loan : Q;
  active : Z;
  frozen : Z;
  failed_attempts : Z;
  upi : string;
  last_login : string
}.

Record Holding := mkHolding {
  h_acc_no : Z;
  h_asset_id : string;
  h_asset_name : string;
  qty : Q;
  avg_price : Q;
  h_market : string
}.

Record PriceRec := mkPriceRec {
  asset_id : string;
  asset_name : string;
  price : Q;
  vol : Q;
  market : string;
  last_update : string;
  open_hour : Z;
  close_hour : Z
}.

Record FXRates := mkFXRates {
  inr_per_usd : Q;
  inr_per_eur : Q;
  fx_last_update : string
}.

Record State := mkState {
  accounts : list Account;
  holdings : list Holding;
  prices : list PriceRec;
  fx : FXRates
}.

(** Field updates written in the source as assignments through a pointer. *)

Definition set_balance (a : Account) (b : Q) : Account :=
  mkAccount (acc_no a) (name a) (acc_type a) (pin a) b (loan a)
            (active a) (frozen a) (failed_attempts a) (upi a) (last_login a).

Definition set_qty (h : Holding) (q : Q) : Holding :=
  mkHolding (h_acc_no h) (h_asset_id h) (h_asset_name h) q (avg_price h) (h_market h).

Definition set_avg_price (h : Holding) (a : Q) : Holding :=
  mkHolding (h_acc_no h) (h_asset_id h) (h_asset_name h) (qty h) a (h_market h).

Definition set_price (p : PriceRec) (x : Q) : PriceRec :=
  mkPriceRec (asset_id p) (asset_name p) x (vol p) (market p) (last_update p)
             (open_hour p) (close_hour p).

Definition set_last_update (p : PriceRec) (ts : string) : PriceRec :=
  mkPriceRec (asset_id p) (asset_name p) (price p) (vol p) (market p) ts
             (open_hour p) (close_hour p).

Definition set_accounts (st : State) (l : list Account) : State :=
  mkState l (holdings st) (prices st) (fx st).

Definition set_holdings (st : State) (l : list Holding) : State :=
  mkState (accounts st) l (prices st) (fx st).

Definition set_prices (st : State) (l : list PriceRec) : State :=
  mkState (accounts st) (holdings st) l (fx st).

(** Comparison of doubles: [x < y]. *)
Definition Qlt_bool (x y : Q) : bool := negb (Qle_bool y x).

(** ** Market hours *)

(** [market_is_open]: the hour read from the clock is the argument [hour]. *)
Definition market_is_open (hour : Z) (p : PriceRec) : bool :=
  if (open_hour p <=? close_hour p)%Z
  then (hour >=? open_hour p)%Z && (hour <? close_hour p)%Z
  else (hour >=? open_hour p)%Z || (hour <? close_hour p)%Z.

(** ** Helper finders

    The source returns the index, or [-1] when nothing matches; here the
    result is [Some i] or [None].  [strcmp(a, b) == 0] is [String.eqb]. *)

Fixpoint find_price_index (ps : list PriceRec) (id : string) : option nat :=
  match ps with
  | [] => None
  | p :: ps' =>
      if String.eqb (asset_id p) id then Some O
      else option_map S (find_price_index ps' id)
  end.

Fixpoint find_holding_index (hs : list Holding) (acc : Z) (id : string) : option nat :=
  match hs with
  | [] => None
  | h :: hs' =>
      if (h_acc_no h =? acc)%Z && String.eqb (h_asset_id h) id then Some O
      else option_map S (find_holding_index hs' acc id)
  end.

(** The entry [h] is the one for account [acc] and asset [id]: what the
    test in the loop of [find_holding_index] decides. *)
Definition holding_key_is (acc : Z) (id : string) (h : Holding) : Prop :=
  h_acc_no h = acc /\ h_asset_id h = id.

(** ** Random draws *)

Record Rng := mkRng { draws : nat -> Z; cursor : nat }.

(** [rand()]: the next raw draw, and the generator advanced by one. *)
Definition rand (g : Rng) : Z * Rng :=
  (draws g (cursor g), mkRng (draws g) (S (cursor g))).

Section Tick.

(** [RAND_MAX] comes from [<stdlib.h>]. *)
Variable RAND_MAX : Z.

(** [rand_minus1_1]: [((double)rand() / RAND_MAX) * 2.0 - 1.0]. *)
Definition rand_minus1_1 (g : Rng) : Q * Rng :=
  let '(r, g') := rand g in
  ((inject_Z r / inject_Z RAND_MAX) * 2 - 1, g').

(** The floor applied after a price move: [if (p->price < 0.0001) p->price = 0.0001]. *)
Definition clamp_price (p : PriceRec) : PriceRec :=
  if Qlt_bool (price p) (1 # 10000) then set_price p (1 # 10000) else p.

(** Body of the loop of [tick_market_once] for one record. *)
Definition tick_one (hour : Z) (ts : string) (p : PriceRec) (g : Rng) : PriceRec * Rng :=
  if market_is_open hour p then
    let '(r, g') := rand_minus1_1 g in
    let change_pct := r * vol p in
    let p1 := set_price p (price p * (1 + change_pct)) in
    (set_last_update (clamp_price p1) ts, g')
  else (p, g).

Fixpoint tick_prices (hour : Z) (ts : string) (ps : list PriceRec) (g : Rng)
  : list PriceRec * Rng :=
  match ps with
  | [] => ([], g)
  | p :: ps' =>
      let '(p', g1) := tick_one hour ts p g in
      let '(rest, g2) := tick_prices hour ts ps' g1 in
      (p' :: rest, g2)
  end.

(** [tick_market_once]: one pass over the catalog at clock reading
    ([hour], [ts]). *)
Definition tick_market_once (hour : Z) (ts : string) (st : State) (g : Rng) : State * Rng :=
  let '(ps, g') := tick_prices hour ts (prices st) g in
  (set_prices st ps, g').

(** Body of the loop of [admin_randomize_all_prices] for one record. *)
Definition randomize_one (ts : string) (p : PriceRec) (g : Rng) : PriceRec * Rng :=
  let '(r, g') := rand_minus1_1 g in
  let change_pct := r * vol p * 5 in
  let p1 := set_price p (price p * (1 + change_pct)) in
  (set_last_update (clamp_price p1) ts, g').

Fixpoint randomize_prices (ts : string) (ps : list PriceRec) (g : Rng)
  : list PriceRec * Rng :=
  match ps with
  | [] => ([], g)
  | p :: ps' =>
      let '(p', g1) := randomize_one ts p g in
      let '(rest, g2) := randomize_prices ts ps' g1 in
      (p' :: rest, g2)
  end.

(** [admin_randomize_all_prices]: [seeded] is the generator as
    [srand((unsigned)time(NULL))] leaves it. *)
Definition admin_randomize_all_prices (ts : string) (st : State) (seeded : Rng)
  : State * Rng :=
  let '(ps, g') := randomize_prices ts (prices st) seeded in
  (set_prices st ps, g').

End Tick.

(** ** Portfolio valuation *)

(** [price_in_inr]: the catalog price of [p] in INR. *)
Definition price_in_inr (f : FXRates) (p : PriceRec) : Q :=
  if String.eqb (market p) "IN" then price p
  else if String.eqb (market p) "US" then price p * inr_per_usd f
  else if String.eqb (market p) "EU" then price p * inr_per_eur f
  else price p.

(** The price per unit that [compute_portfolio_value_inr] gives holding [h].
    [find_price_index] returns an index inside the catalog, so the inner
    [None] is never reached. *)
Definition holding_cur_price (st : State) (h : Holding) : Q :=
  match find_price_index (prices st) (h_asset_id h) with
  | Some pidx =>
      match prices st !! pidx with
      | Some p => price_in_inr (fx st) p
      | None => 0
      end
  | None =>
      avg_price h * (if String.eqb (h_market h) "US" then inr_per_usd (fx st) else 1)
  end.

(** [compute_portfolio_value_inr]: the loop adds to [tot], from [0.0], in
    array order. *)
Definition compute_portfolio_value_inr (st : State) (acc : Z) : Q :=
  fold_left
    (fun tot h =>
       if negb (h_acc_no h =? acc)%Z then tot
       else tot + qty h * holding_cur_price st h)
    (holdings st) 0.

(** The three quantities [compute_unrealized_pl_inr] computes for one holding. *)
Definition holding_cur_native (st : State) (h : Holding) : Q :=
  match find_price_index (prices st) (h_asset_id h) with
  | Some pidx =>
      match prices st !! pidx with
      | Some p => price p
      | None => 0
      end
  | None => avg_price h
  end.

Definition holding_cur_inr (st : State) (h : Holding) : Q :=
  let cur_price_native := holding_cur_native st h in
  if String.eqb (h_market h) "IN" then cur_price_native
  else if String.eqb (h_market h) "US" then cur_price_native * inr_per_usd (fx st)
  else if String.eqb (h_market h) "EU" then cur_price_native * inr_per_eur (fx st)
  else cur_price_native.

Definition holding_avg_inr (st : State) (h : Holding) : Q :=
  avg_price h *
  (if String.eqb (h_market h) "US" then inr_per_usd (fx st)
   else if String.eqb (h_market h) "EU" then inr_per_eur (fx st)
   else 1).

(** What one holding adds to [pl]. *)
Definition holding_pl_inr (st : State) (h : Holding) : Q :=
  qty h * (holding_cur_inr st h - holding_avg_inr st h).

(** [compute_unrealized_pl_inr]. *)
Definition compute_unrealized_pl_inr (st : State) (acc : Z) : Q :=
  fold_left
    (fun pl h =>
       if negb (h_acc_no h =? acc)%Z then pl
       else pl + holding_pl_inr st h)
    (holdings st) 0.

(** ** Trading: seeding, buy, sell *)

(** The six records [ensure_default_prices] writes, all stamped [ts]. *)
Definition default_prices (ts : string) : list PriceRec :=
  [ mkPriceRec "INFY" "Infosys Ltd" 1500 (1 # 100) "IN" ts 9 15;
    mkPriceRec "TCS" "TCS" 3200 (8 # 1000) "IN" ts 9 15;
    mkPriceRec "AAPL" "Apple Inc" 190 (2 # 100) "US" ts 9 17;
    mkPriceRec "NVDA" "NVIDIA Corp" 190 (3 # 100) "US" ts 9 17;
    mkPriceRec "BTC" "Bitcoin" 35000 (5 # 100) "US" ts 0 24;
    mkPriceRec "SIE" "Siemens" 120 (18 # 1000) "EU" ts 8 18 ].

(** [ensure_default_prices]: [if (price_count > 0) return;]. *)
Definition ensure_default_prices (ts : string) (st : State) : State :=
  if (0 <? length (prices st))%nat then st
  else set_prices st (default_prices ts).

(** [cost_in_inr_for_purchase]: native cost of [q] units of [p], in INR. *)
Definition cost_in_inr_for_purchase (f : FXRates) (p : PriceRec) (q : Q) : Q :=
  let cost_native := price p * q in
  if String.eqb (market p) "IN" then cost_native
  else if String.eqb (market p) "US" then cost_native * inr_per_usd f
  else if String.eqb (market p) "EU" then cost_native * inr_per_eur f
  else cost_native.

(** [safe_read_double]: [-1.0] when [fgets] fails, else the number read,
    taken to be finite (for the other values of [atof] see [atof_value]
    below). *)
Definition safe_read_double (num : option Q) : Q :=
  match num with
  | None => - (1)
  | Some x => x
  end.

(** How a call of [buy_asset_loggedin] or [sell_asset_loggedin] ends:
    one constructor per [return] of the source, named after the message
    printed there. *)
Inductive TradeResult :=
  | NotLoggedIn       (* acc_idx < 0 *)
  | NoInput           (* fgets failed *)
  | AssetNotFound     (* "Asset not found." / "Asset unknown." *)
  | MarketClosed      (* "Market for ... is currently closed" *)
  | InvalidQuantity   (* "Invalid quantity." *)
  | InsufficientCash  (* "Insufficient cash" *)
  | HoldingsLimit     (* "Holdings limit reached." *)
  | NotOwned          (* "You do not own this asset." *)
  | Bought            (* "Bought ..." *)
  | Sold.             (* "Sold ..." *)

(** The local [Holding h] of [buy_asset_loggedin] is declared without an
    initialiser and its three text fields are filled by
    [strncpy(h.f, src, sizeof h.f - 1)] with no terminator written after
    (the other [strncpy] calls of the source are followed by
    [f[sizeof f - 1] = 0]).  A source shorter than the count is copied
    with its terminator and zero padding.  A source that fills the count
    leaves the last byte of the field as the stack had it, so that reading
    the field as a string runs on into whatever follows (that byte, then
    the next field), up to the first zero byte.  [StackJunk] is that
    content of the stack: the characters read after the 15 of [asset_id],
    the 63 of [asset_name] and the 7 of [market]; each is empty when the
    byte that follows happens to be zero.  The text of a field is kept as
    it reads when the entry is stored. *)
Record StackJunk := mkStackJunk {
  after_id : string;
  after_name : string;
  after_market : string
}.

(** The string read back from a field of [n + 1] uninitialised bytes after
    [strncpy(field, src, n)]. *)
Definition strncpy_unterminated (n : nat) (junk src : string) : string :=
  if (String.length src <? n)%nat then src
  else (substring 0 n src ++ junk)%string.

(** [buy_asset_loggedin].  The source guards [acc_idx < 0] only and then
    indexes [accounts[acc_idx]]; its callers pass the index of the
    logged-in account.  An index past the end of [accounts] has no
    defined behaviour in C and ends here as [NotLoggedIn], like the two
    branches where a found index is looked up again, which cannot be
    reached.  [stack] is what the uninitialised local [h] holds. *)
Definition buy_asset_loggedin (stack : StackJunk) (hour : Z) (ts : string)
    (acc_idx : Z) (line : option string) (num : option Q) (st0 : State)
    : TradeResult * State :=
  if (acc_idx <? 0)%Z then (NotLoggedIn, st0) else
  let st := ensure_default_prices ts st0 in
  match line with
  | None => (NoInput, st)
  | Some buf =>
  match find_price_index (prices st) buf with
  | None => (AssetNotFound, st)
  | Some pidx =>
  match prices st !! pidx with
  | None => (AssetNotFound, st)
  | Some pr =>
  if negb (market_is_open hour pr) then (MarketClosed, st) else
  let q := safe_read_double num in
  if Qle_bool q 0 then (InvalidQuantity, st) else
  let cost_inr := cost_in_inr_for_purchase (fx st) pr q in
  match accounts st !! Z.to_nat acc_idx with
  | None => (NotLoggedIn, st)
  | Some a =>
  if Qlt_bool (balance a) cost_inr then (InsufficientCash, st) else
  (* deduct cash *)
  let a' := set_balance a (balance a - cost_inr) in
  let st1 := set_accounts st (<[Z.to_nat acc_idx := a']> (accounts st)) in
  (* update or add holding *)
  match find_holding_index (holdings st1) (acc_no a') (asset_id pr) with
  | None =>
      if (MAX_HOLDINGS <=? length (holdings st1))%nat then (HoldingsLimit, st1)
      else
        let h := mkHolding (acc_no a')
                   (strncpy_unterminated 15 (after_id stack) (asset_id pr))
                   (strncpy_unterminated 63 (after_name stack) (asset_name pr))
                   q (price pr)
                   (strncpy_unterminated 7 (after_market stack) (market pr)) in
        (Bought, set_holdings st1 (holdings st1 ++ [h]))
  | Some hidx =>
      match holdings st1 !! hidx with
      | None => (NotLoggedIn, st1)
      | Some h =>
          let total_old := avg_price h * qty h in
          let total_new := price pr * q in
          let h1 := set_qty h (qty h + q) in
          let h2 := if Qlt_bool 0 (qty h1)
                    then set_avg_price h1 ((total_old + total_new) / qty h1)
                    else h1 in
          (Bought, set_holdings st1 (<[hidx := h2]> (holdings st1)))
      end
  end
  end
  end
  end
  end.

(** [sell_asset_loggedin].  The source never reads the hour here.  The
    last branch (a found index that is not in the array) cannot be
    reached. *)
Definition sell_asset_loggedin (ts : string) (acc_idx : Z)
    (line : option string) (num : option Q) (st0 : State) : TradeResult * State :=
  if (acc_idx <? 0)%Z then (NotLoggedIn, st0) else
  let st := ensure_default_prices ts st0 in
  match line with
  | None => (NoInput, st)
  | Some buf =>
  match find_price_index (prices st) buf with
  | None => (AssetNotFound, st)
  | Some pidx =>
  match accounts st !! Z.to_nat acc_idx with
  | None => (NotLoggedIn, st)
  | Some a =>
  match find_holding_index (holdings st) (acc_no a) buf with
  | None => (NotOwned, st)
  | Some hidx =>
  match holdings st !! hidx, prices st !! pidx with
  | Some h, Some pr =>
      let q := safe_read_double num in
      if Qle_bool q 0 || Qlt_bool (qty h) q then (InvalidQuantity, st) else
      let proceeds_inr := cost_in_inr_for_purchase (fx st) pr q in
      (* reduce holdings *)
      let h' := set_qty h (qty h - q) in
      let hs1 := <[hidx := h']> (holdings st) in
      let hs2 := if Qle_bool (qty h') (1 # 1000000) then delete hidx hs1 else hs1 in
      let a' := set_balance a (balance a + proceeds_inr) in
      (Sold, mkState (<[Z.to_nat acc_idx := a']> (accounts st)) hs2 (prices st) (fx st))
  | _, _ => (NotLoggedIn, st)
  end
  end
  end
  end
  end.

(** ** The typed number as [atof] returns it

    [safe_read_double] returns [atof] of the line read, which is a finite
    number, an infinity (for "inf" or "1e999") or NaN (for "nan").  The
    operations above are written for the finite case, the [option Q].
    The tests they apply to the typed number are written out here for
    every value [atof] can return, with the comparisons of C: a
    comparison with NaN is false whichever way it is asked. *)
Inductive atof_value :=
  | Finite (x : Q)
  | PlusInfinity
  | MinusInfinity
  | NotANumber.

(** [x <= y] for [y] a finite double. *)
Definition atof_le (x : atof_value) (y : Q) : bool :=
  match x with
  | Finite q => Qle_bool q y
  | MinusInfinity => true
  | PlusInfinity | NotANumber => false
  end.

(** [x > y] for [y] a finite double. *)
Definition atof_gt (x : atof_value) (y : Q) : bool :=
  match x with
  | Finite q => Qlt_bool y q
  | PlusInfinity => true
  | MinusInfinity | NotANumber => false
  end.

(** The test [qty <= 0 || qty > h->qty] of [sell_asset_loggedin]: [true]
    sends the sell to "Invalid quantity.", [false] lets it go on to the
    two updates. *)
Definition sell_quantity_invalid (qty : atof_value) (held : Q) : bool :=
  atof_le qty 0 || atof_gt qty held.

(** ** The FX Converter and mark-to-market as the specification words them

    These two definitions follow the specification, not the source; the
    theorems below compare the source's functions with them. *)

(** INR per unit of the currency of market [m]: 1 for IN, INR-per-USD for
    US, INR-per-EUR for EU, 1 for any other market. *)
Definition fx_rate (f : FXRates) (m : string) : Q :=
  if String.eqb m "IN" then 1
  else if String.eqb m "US" then inr_per_usd f
  else if String.eqb m "EU" then inr_per_eur f
  else 1.

Definition to_inr (f : FXRates) (amount_native : Q) (m : string) : Q :=
  amount_native * fx_rate f m.

(** Value of one position: the catalog price in the asset's market, or,
    for an asset absent from the catalog, the position's own average
    price in the position's market; converted by [to_inr], times the
    quantity. *)
Definition spec_position_value (st : State) (h : Holding) : Q :=
  match find_price_index (prices st) (h_asset_id h) with
  | Some pidx =>
      match prices st !! pidx with
      | Some p => qty h * to_inr (fx st) (price p) (market p)
      | None => 0
      end
  | None => qty h * to_inr (fx st) (avg_price h) (h_market h)
  end.

Fixpoint spec_mark_to_market_list (st : State) (acc : Z) (hs : list Holding) : Q :=
  match hs with
  | [] => 0
  | h :: hs' =>
      if (h_acc_no h =? acc)%Z
      then spec_position_value st h + spec_mark_to_market_list st acc hs'
      else spec_mark_to_market_list st acc hs'
  end.

Definition spec_mark_to_market (st : State) (acc : Z) : Q :=
  spec_mark_to_market_list st acc (holdings st).

(** ** Sample states used by the examples *)

Definition sample_account (bal : Q) : Account :=
  mkAccount 1001 "Asha" "Savings" 1234 bal 0 1 0 0 "asha@bvdu" "".

Definition sample_fx : FXRates := mkFXRates (835 # 10) (882 # 10) "".

Definition sample_ts : string := "2025-01-01 10:00:00".

(** A generator whose every raw draw is [r]. *)
Definition constant_rng (r : Z) : Rng := mkRng (fun _ => r) 0.

(** A catalog of one Indian stock, trading 9 to 15, and nothing else. *)
Definition one_stock_state : State :=
  mkState [sample_account 50000] []
          [mkPriceRec "INFY" "Infosys Ltd" 1500 (1 # 100) "IN" "old" 9 15]
          sample_fx.

(** A position in a German stock that the catalog does not list. *)
Definition orphan_eu_state : State :=
  mkState [sample_account 50000]
          [mkHolding 1001 "SAP" "SAP SE" 1 100 "EU"]
          (default_prices sample_ts) sample_fx.

(** A book filled to [MAX_HOLDINGS] by 2000 other customers, one TCS share
    each; account 1001 holds cash only. *)
Definition full_book_state : State :=
  mkState [sample_account 50000]
          (map (fun n => mkHolding (2000 + Z.of_nat n) "TCS" "TCS" 1 3200 "IN")
               (seq 0 2000))
          (default_prices sample_ts) sample_fx.

(** Account 1001 holds 5 INFY bought at 1400. *)
Definition infy_holder_state : State :=
  mkState [sample_account 50000]
          [mkHolding 1001 "INFY" "Infosys Ltd" 5 1400 "IN"]
          (default_prices sample_ts) sample_fx.

(** The scenario of the specification: AAPL in market US, USD at 83.5,
    cash 50000, an empty book; then the same with AAPL at [px], the
    dollar at [usd], cash [bal] and book [hs]. *)
Definition aapl_state (px usd bal : Q) (hs : list Holding) : State :=
  mkState [sample_account bal] hs
          [mkPriceRec "AAPL" "Apple Inc" px (2 # 100) "US" sample_ts 0 24]
          (mkFXRates usd (882 # 10) "").

(** An asset id of 15 characters, the longest the 16-byte field holds. *)
Definition long_id : string := "BHARATPETROLEUM".

(** A catalog that lists [long_id], open all day; account 1001 holds cash
    only and the book is empty. *)
Definition long_id_state : State :=
  mkState [sample_account 50000] []
          [mkPriceRec long_id "Bharat Petroleum" 300 (1 # 100) "IN" sample_ts 0 24]
          sample_fx.

(** ** Notions used to state properties of the book and of valuations *)

(** The pair an entry of the book is for. *)
Definition holding_key (h : Holding) : Z * string := (h_acc_no h, h_asset_id h).

(** No two entries of the book are for the same account and asset. *)
Definition unique_keys (hs : list Holding) : Prop := NoDup (holding_key <$> hs).

(** The entry is for another pair than ([acc], [id]): the negation of the
    test in [find_holding_index]. *)
Definition other_key (acc : Z) (id : string) (h : Holding) : bool :=
  negb ((h_acc_no h =? acc)%Z && String.eqb (h_asset_id h) id).

Fixpoint Qsum (l : list Q) : Q :=
  match l with
  | [] => 0
  | x :: l' => x + Qsum l'
  end.

(** What the loop of [compute_portfolio_value_inr] adds for entry [h] when
    run for account [acc]. *)
Definition position_term (st : State) (acc : Z) (h : Holding) : Q :=
  if (h_acc_no h =? acc)%Z then qty h * holding_cur_price st h else 0.

(** Two price records list the same asset: they agree on everything but
    [price] and [last_update]. *)
Definition same_listing (p p' : PriceRec) : Prop :=
  asset_id p' = asset_id p /\ asset_name p' = asset_name p /\ vol p' = vol p /\
  market p' = market p /\ open_hour p' = open_hour p /\ close_hour p' = close_hour p.

(** Number of records of the catalog whose market is open at [hour]. *)
Definition count_open (hour : Z) (ps : list PriceRec) : nat :=
  length (List.filter (market_is_open hour) ps).

(** ** Characters and strings of the C library

    A [string] stands for a C string: what lies before the terminating
    NUL.  The program never calls [setlocale], so [tolower] and [isalnum]
    are those of the "C" locale. *)

Definition tolower (c : ascii) : ascii :=
  let n := nat_of_ascii c in
  if (65 <=? n)%nat && (n <=? 90)%nat then ascii_of_nat (n + 32) else c.

Definition isalnum (c : ascii) : bool :=
  let n := nat_of_ascii c in
  ((48 <=? n)%nat && (n <=? 57)%nat) ||
  ((65 <=? n)%nat && (n <=? 90)%nat) ||
  ((97 <=? n)%nat && (n <=? 122)%nat).

(** [trim_newline]: drops the trailing run of '\n' and '\r'. *)
Fixpoint trim_newline (s : string) : string :=
  match s with
  | EmptyString => EmptyString
  | String c s' =>
      match trim_newline s' with
      | EmptyString =>
          if Ascii.eqb c "010" || Ascii.eqb c "013" then EmptyString
          else String c EmptyString
      | t => String c t
      end
  end.

(** [strtolower_inplace]. *)
Fixpoint strtolower_inplace (s : string) : string :=
  match s with
  | EmptyString => EmptyString
  | String c s' => String (tolower c) (strtolower_inplace s')
  end.

(** The lowered character [bvdu_stricmp] reads at the head of a C string:
    the terminating NUL (0) when the string is empty. *)
Definition lowered_head (s : string) : Z :=
  match s with
  | EmptyString => 0
  | String c _ => Z.of_nat (nat_of_ascii (tolower c))
  end.

(** [bvdu_stricmp]: the difference of the first pair of lowered characters
    that differ, 0 when both strings end together. *)
Fixpoint bvdu_stricmp (a b : string) : Z :=
  let ca := lowered_head a in
  let cb := lowered_head b in
  if negb (ca =? cb)%Z then (ca - cb)%Z
  else if (ca =? 0)%Z then 0%Z
  else match a, b with
       | String _ a', String _ b' => bvdu_stricmp a' b'
       | _, _ => 0%Z
       end.

(** [strncpy(dst, src, n)] followed by [dst[n] = 0], and the cut [snprintf]
    makes: the first [n] characters. *)
Definition first_chars (n : nat) (s : string) : string := substring 0 n s.

(** ** Accounts: configuration, field updates, finders *)

Definition MAX_ACCOUNTS : nat := 500.

Definition set_failed_attempts (a : Account) (n : Z) : Account :=
  mkAccount (acc_no a) (name a) (acc_type a) (pin a) (balance a) (loan a)
            (active a) (frozen a) n (upi a) (last_login a).

Definition set_frozen (a : Account) (f : Z) : Account :=
  mkAccount (acc_no a) (name a) (acc_type a) (pin a) (balance a) (loan a)
            (active a) f (failed_attempts a) (upi a) (last_login a).

Definition set_last_login (a : Account) (ts : string) : Account :=
  mkAccount (acc_no a) (name a) (acc_type a) (pin a) (balance a) (loan a)
            (active a) (frozen a) (failed_attempts a) (upi a) ts.

(** A C [int] used as a condition. *)
Definition is_true (x : Z) : bool := negb (x =? 0)%Z.

Fixpoint find_account_index (accs : list Account) (n : Z) : option nat :=
  match accs with
  | [] => None
  | a :: accs' =>
      if (acc_no a =? n)%Z then Some O
      else option_map S (find_account_index accs' n)
  end.

Fixpoint find_active_account_index (accs : list Account) (n : Z) : option nat :=
  match accs with
  | [] => None
  | a :: accs' =>
      if (acc_no a =? n)%Z && is_true (active a) then Some O
      else option_map S (find_active_account_index accs' n)
  end.

Fixpoint find_account_by_upi (accs : list Account) (u : string) : option nat :=
  match accs with
  | [] => None
  | a :: accs' =>
      if is_true (active a) && (bvdu_stricmp (upi a) u =? 0)%Z then Some O
      else option_map S (find_account_by_upi accs' u)
  end.

(** [is_upi_unique]: 1 is [true], 0 is [false]. *)
Fixpoint is_upi_unique (accs : list Account) (u : string) : bool :=
  match accs with
  | [] => true
  | a :: accs' =>
      if (bvdu_stricmp (upi a) u =? 0)%Z then false else is_upi_unique accs' u
  end.

(** The largest [int], and the value of an [int] expression whose exact
    result is [z]: 32 bits, two's complement.  ISO C leaves the overflow
    of a signed addition undefined; the usual compilers wrap, which is
    what is written here. *)
Definition INT_MAX : Z := 2147483647.

Definition wrap_int (z : Z) : Z :=
  ((z + 2147483648) mod 4294967296 - 2147483648)%Z.

(** [next_account_no]; the loop keeps the running maximum, from 1000, and
    the result is [max + 1] computed in [int]. *)
Definition next_account_no (accs : list Account) : Z :=
  wrap_int
    (fold_left (fun max a => if (max <? acc_no a)%Z then acc_no a else max) accs 1000 + 1)%Z.

(** ** Authentication, deposit, withdrawal, transfers

    A number typed at a prompt is an [option]: [None] when [fgets] fails,
    else what [atoi] or [atof] makes of the line. *)

(** [authenticate_prompt]: the index of the account, or [None] for -1. *)
Definition authenticate_prompt (ts : string) (acc_in pin_in : option Z) (st : State)
  : option nat * State :=
  match acc_in with
  | None => (None, st)
  | Some n =>
  match find_account_index (accounts st) n with
  | None => (None, st)
  | Some idx =>
  match accounts st !! idx with
  | None => (None, st)
  | Some a =>
  if negb (is_true (active a)) then (None, st) else
  if is_true (frozen a) then (None, st) else
  match pin_in with
  | None => (None, st)
  | Some p =>
  if (pin a =? p)%Z then
    let a1 := set_last_login (set_failed_attempts a 0) ts in
    (Some idx, set_accounts st (<[idx := a1]> (accounts st)))
  else
    let a1 := set_failed_attempts a (failed_attempts a + 1) in
    if (failed_attempts a1 >=? 3)%Z
    then (None, set_accounts st (<[idx := set_frozen a1 1]> (accounts st)))
    else (None, set_accounts st (<[idx := a1]> (accounts st)))
  end
  end
  end
  end.

(** How a cash operation ends: one constructor per [return] of the source. *)
Inductive BankResult :=
  | AuthFailed        (* authenticate_prompt returned -1 *)
  | InternalError     (* "Internal error." *)
  | NoLine            (* fgets failed *)
  | BadAmount         (* "Invalid amount." / "Invalid." *)
  | NoFunds           (* "Insufficient funds." *)
  | DestNotFound      (* "Destination not found or not active." / "UPI not found." *)
  | DestInactive      (* "Destination not active." *)
  | DestFrozen        (* "Destination frozen." *)
  | SameAccount       (* "Cannot transfer to same account." / "Cannot send to own UPI." *)
  | Done.

(** [deposit_money].  The branch for an index outside [accounts] cannot be
    reached: [authenticate_prompt] returns an index it has just read. *)
Definition deposit_money (ts : string) (acc_in pin_in : option Z) (amt_in : option Q)
    (st0 : State) : BankResult * State :=
  let '(r, st) := authenticate_prompt ts acc_in pin_in st0 in
  match r with
  | None => (AuthFailed, st)
  | Some idx =>
      let amt := safe_read_double amt_in in
      if Qle_bool amt 0 then (BadAmount, st) else
      match accounts st !! idx with
      | None => (InternalError, st)
      | Some a =>
          (Done, set_accounts st (<[idx := set_balance a (balance a + amt)]> (accounts st)))
      end
  end.

(** [withdraw_money]. *)
Definition withdraw_money (ts : string) (acc_in pin_in : option Z) (amt_in : option Q)
    (st0 : State) : BankResult * State :=
  let '(r, st) := authenticate_prompt ts acc_in pin_in st0 in
  match r with
  | None => (AuthFailed, st)
  | Some idx =>
      let amt := safe_read_double amt_in in
      if Qle_bool amt 0 then (BadAmount, st) else
      match accounts st !! idx with
      | None => (InternalError, st)
      | Some a =>
          if Qlt_bool (balance a) amt then (NoFunds, st) else
          (Done, set_accounts st (<[idx := set_balance a (balance a - amt)]> (accounts st)))
      end
  end.

(** The two assignments [accounts[from].balance -= amt;
    accounts[to].balance += amt;] in this order. *)
Definition move_cash (accs : list Account) (from_idx to_idx : nat) (amt : Q)
  : list Account :=
  match accs !! from_idx with
  | None => accs
  | Some f =>
      let accs1 := <[from_idx := set_balance f (balance f - amt)]> accs in
      match accs1 !! to_idx with
      | None => accs1
      | Some t => <[to_idx := set_balance t (balance t + amt)]> accs1
      end
  end.

(** [transfer_from_loggedin]: [to_in] is the destination number read by
    [atoi], [amt_in] the amount read by [atof]. *)
Definition transfer_from_loggedin (from_idx : Z) (to_in : option Z) (amt_in : option Q)
    (st : State) : BankResult * State :=
  if (from_idx <? 0)%Z || (from_idx >=? Z.of_nat (length (accounts st)))%Z
  then (InternalError, st) else
  match to_in with
  | None => (NoLine, st)
  | Some to_acc =>
  match find_active_account_index (accounts st) to_acc with
  | None => (DestNotFound, st)
  | Some to_idx =>
  match accounts st !! to_idx, accounts st !! Z.to_nat from_idx with
  | Some t, Some f =>
      if is_true (frozen t) then (DestFrozen, st) else
      if (Z.of_nat to_idx =? from_idx)%Z then (SameAccount, st) else
      match amt_in with
      | None => (NoLine, st)
      | Some amt =>
          if Qle_bool amt 0 then (BadAmount, st) else
          if Qlt_bool (balance f) amt then (NoFunds, st) else
          (Done, set_accounts st (move_cash (accounts st) (Z.to_nat from_idx) to_idx amt))
      end
  | _, _ => (InternalError, st)
  end
  end
  end.

(** [transfer_money]. *)
Definition transfer_money (ts : string) (acc_in pin_in to_in : option Z)
    (amt_in : option Q) (st0 : State) : BankResult * State :=
  let '(r, st) := authenticate_prompt ts acc_in pin_in st0 in
  match r with
  | None => (AuthFailed, st)
  | Some idx => transfer_from_loggedin (Z.of_nat idx) to_in amt_in st
  end.

(** [upi_transfer_from_loggedin]: [line] is the line as [fgets] returns it. *)
Definition upi_transfer_from_loggedin (from_idx : Z) (line : option string)
    (amt_in : option Q) (st : State) : BankResult * State :=
  if (from_idx <? 0)%Z || (from_idx >=? Z.of_nat (length (accounts st)))%Z
  then (InternalError, st) else
  match line with
  | None => (NoLine, st)
  | Some l =>
  let buf := strtolower_inplace (trim_newline l) in
  match find_account_by_upi (accounts st) buf with
  | None => (DestNotFound, st)
  | Some to_idx =>
  match accounts st !! to_idx, accounts st !! Z.to_nat from_idx with
  | Some t, Some f =>
      if negb (is_true (active t)) then (DestInactive, st) else
      if is_true (frozen t) then (DestFrozen, st) else
      if (Z.of_nat to_idx =? from_idx)%Z then (SameAccount, st) else
      let amt := safe_read_double amt_in in
      if Qle_bool amt 0 then (BadAmount, st) else
      if Qlt_bool (balance f) amt then (NoFunds, st) else
      (Done, set_accounts st (move_cash (accounts st) (Z.to_nat from_idx) to_idx amt))
  | _, _ => (InternalError, st)
  end
  end
  end.

(** A [string] that can be a C string: no NUL character inside. *)
Fixpoint c_string (s : string) : bool :=
  match s with
  | EmptyString => true
  | String c s' => negb (Ascii.eqb c zero) && c_string s'
  end.

(** ** Administration: the branches of the loop of [admin_menu] *)

(** [safe_read_int]: -1 when [fgets] fails, else what [atoi] reads. *)
Definition safe_read_int (num : option Z) : Z :=
  match num with
  | None => (-1)%Z
  | Some x => x
  end.

Inductive AdminResult :=
  | AdminLeft       (* fgets failed: break out of the loop *)
  | AdminNotFound   (* "Asset not found." / "Account not found." *)
  | AdminInvalid    (* "Invalid." / "Invalid rate." / "Invalid rates." *)
  | AdminDone.

(** Branch [ch == 2]: set the price of one asset. *)
Definition admin_menu_set_price (ts : string) (line : option string) (num : option Q)
    (st : State) : AdminResult * State :=
  match line with
  | None => (AdminLeft, st)
  | Some l =>
      let buf := trim_newline l in
      match find_price_index (prices st) buf with
      | None => (AdminNotFound, st)
      | Some idx =>
          let p := safe_read_double num in
          if Qle_bool p 0 then (AdminInvalid, st) else
          match prices st !! idx with
          | None => (AdminNotFound, st)
          | Some rec =>
              (AdminDone,
               set_prices st (<[idx := set_last_update (set_price rec p) ts]> (prices st)))
          end
      end
  end.

(** The body of the loop of branch [ch == 4] for one account. *)
Definition apply_interest_one (rate : Q) (a : Account) : Account :=
  if negb (is_true (active a)) then a
  else if (bvdu_stricmp (acc_type a) "Savings" =? 0)%Z then
    let interest := balance a * (rate / 100) in
    set_balance a (balance a + interest)
  else a.

(** Branch [ch == 4]: apply interest to savings accounts. *)
Definition admin_menu_apply_interest (rate_in : option Q) (st : State)
  : AdminResult * State :=
  let rate := safe_read_double rate_in in
  if Qle_bool rate 0 then (AdminInvalid, st)
  else (AdminDone, set_accounts st (map (apply_interest_one rate) (accounts st))).

(** Branch [ch == 6]: set the FX rates. *)
Definition admin_menu_set_fx (ts : string) (usd_in eur_in : option Q) (st : State)
  : AdminResult * State :=
  let usd := safe_read_double usd_in in
  let eur := safe_read_double eur_in in
  if Qle_bool usd 0 || Qle_bool eur 0 then (AdminInvalid, st)
  else (AdminDone, mkState (accounts st) (holdings st) (prices st) (mkFXRates usd eur ts)).

(** Branch [ch == 7]: unfreeze an account. *)
Definition admin_menu_unfreeze (n_in : option Z) (st : State) : AdminResult * State :=
  let n := safe_read_int n_in in
  match find_account_index (accounts st) n with
  | None => (AdminNotFound, st)
  | Some idx =>
      match accounts st !! idx with
      | None => (AdminNotFound, st)
      | Some a =>
          (AdminDone,
           set_accounts st (<[idx := set_failed_attempts (set_frozen a 0) 0]> (accounts st)))
      end
  end.

(** [list_market_prices], without the printing: seed if empty, then tick. *)
Definition list_market_prices (RAND_MAX hour : Z) (ts : string) (st : State) (g : Rng)
  : State * Rng :=
  tick_market_once RAND_MAX hour ts (ensure_default_prices ts st) g.

(** Two account records that differ at most in [failed_attempts], [frozen]
    and [last_login]. *)
Definition same_identity_and_cash (a a' : Account) : Prop :=
  acc_no a' = acc_no a /\ name a' = name a /\ acc_type a' = acc_type a /\
  pin a' = pin a /\ balance a' = balance a /\ loan a' = loan a /\
  active a' = active a /\ upi a' = upi a.

(** Three of the sample accounts [ensure_default_files] writes. *)
Definition team_state : State :=
  mkState [mkAccount 1001 "adarsh" "Savings" 1234 10000 0 1 0 0 "adarsh@bvdu" "";
           mkAccount 1002 "achyut" "Savings" 2345 8000 0 1 0 0 "achyut@bvdu" "";
           mkAccount 1003 "ayush" "Current" 3456 5000 0 1 0 0 "ayush@bvdu" ""]
          [] (default_prices sample_ts) sample_fx.

(** ** UPI validation and account creation *)

(** [strchr(s, '@')]: the text before the first '@' and the text after it,
    [None] when there is no '@'. *)
Fixpoint split_at_sign (s : string) : option (string * string) :=
  match s with
  | EmptyString => None
  | String c s' =>
      if Ascii.eqb c "@" then Some (EmptyString, s')
      else match split_at_sign s' with
           | Some (l, d) => Some (String c l, d)
           | None => None
           end
  end.

(** The loop [for (i = 0; i < strlen(s); ++i) if (!isalnum(s[i])) return 0]. *)
Fixpoint all_isalnum (s : string) : bool :=
  match s with
  | EmptyString => true
  | String c s' => isalnum c && all_isalnum s'
  end.

(** [validate_and_normalize_upi]: [Some out] when it returns 1 with [out]
    written to [out_upi], [None] when it returns 0.  Both pointers are
    taken to be non-null and [out_len] at least 1 (the callers pass
    arrays, of 128 bytes for the output). *)
Definition validate_and_normalize_upi (input : string) (out_len : nat) : option string :=
  let buf := trim_newline (first_chars 127 input) in
  if (String.length buf =? 0)%nat then None else
  match split_at_sign buf with
  | Some (l0, d0) =>
      match split_at_sign d0 with
      | Some _ => None
      | None =>
          let local := strtolower_inplace l0 in
          let domain := strtolower_inplace d0 in
          if negb (String.eqb domain "bvdu") then None else
          if (String.length local =? 0)%nat then None else
          if negb (all_isalnum local) then None else
          Some (first_chars (out_len - 1) (local ++ "@bvdu")%string)
      end
  | None =>
      let b := strtolower_inplace buf in
      if negb (all_isalnum b) then None else
      Some (first_chars (out_len - 1) (b ++ "@bvdu")%string)
  end.

(** What [printf("%d")] writes for an [int]. *)
Definition string_of_Z (z : Z) : string := NilZero.string_of_int (Z.to_int z).

Inductive CreateResult :=
  | AccountLimit    (* "Account limit reached." *)
  | CreateNoInput   (* fgets failed *)
  | BadPin          (* "PIN must be 4-digit." *)
  | BadUpi          (* "Invalid UPI. ..." *)
  | UpiTaken        (* "UPI '...' already taken. ..." *)
  | Created.

(** [create_account_interactive].  The five lines are the name, the
    account type, the PIN (as [atoi] reads it), the initial deposit (as
    [atof] reads it) and the UPI local part. *)
Definition create_account_interactive (ts : string) (name_in type_in : option string)
    (pin_in : option Z) (dep_in : option Q) (upi_in : option string) (st : State)
  : CreateResult * State :=
  if (MAX_ACCOUNTS <=? length (accounts st))%nat then (AccountLimit, st) else
  let no := next_account_no (accounts st) in
  match name_in with
  | None => (CreateNoInput, st)
  | Some nl =>
  let nm := first_chars 49 (trim_newline nl) in
  match type_in with
  | None => (CreateNoInput, st)
  | Some tl =>
  let tb := trim_newline tl in
  let ty := if (String.length tb =? 0)%nat then first_chars 19 "Savings"
            else first_chars 19 tb in
  match pin_in with
  | None => (CreateNoInput, st)
  | Some p =>
  if (p <? 1000)%Z || (p >? 9999)%Z then (BadPin, st) else
  match dep_in with
  | None => (CreateNoInput, st)
  | Some bal =>
  match upi_in with
  | None => (CreateNoInput, st)
  | Some ul =>
  let ub := trim_newline ul in
  let cand :=
    if (String.length ub =? 0)%nat then
      (* use name as local part, else the account number *)
      match validate_and_normalize_upi (first_chars 79 nm) 128 with
      | Some c => Some c
      | None => Some (first_chars 127 (string_of_Z no ++ "@bvdu")%string)
      end
    else validate_and_normalize_upi ub 128 in
  match cand with
  | None => (BadUpi, st)
  | Some candidate =>
  if negb (is_upi_unique (accounts st) candidate) then (UpiTaken, st) else
  let a := mkAccount no nm ty p bal 0 1 0 0 (first_chars 63 candidate) ts in
  (Created, set_accounts st (accounts st ++ [a]))
  end
  end
  end
  end
  end
  end.

(** ** Mini statement *)

Definition MINI_STAT_LIMIT : nat := 10.

(** One pass of the body of the reading loop for a line of the account:
    [lines[0]] is freed, every slot moves down by one and the line goes in
    the last slot. *)
Definition shift_in (lines : list (option string)) (buf : string)
  : list (option string) :=
  <[(MINI_STAT_LIMIT - 1)%nat := Some buf]> (tail lines ++ [lines !!! (MINI_STAT_LIMIT - 1)%nat]).

Section MiniStatement.

(** [sscanf(buf, "%d|", &txn_acc)]: the number read when the call returns
    1, [None] otherwise. *)
Variable txn_acc_of : string -> option Z.

(** [print_mini_statement_for_account]: [file] is the content of the
    transactions file as the successive [fgets] calls return it, [None]
    when the file cannot be opened; the result is the list of lines
    printed, [None] for "No transactions yet.". *)
Definition print_mini_statement_for_account (file : option (list string)) (acc : Z)
  : option (list string) :=
  match file with
  | None => None
  | Some bufs =>
      let lines :=
        fold_left
          (fun lines buf =>
             match txn_acc_of buf with
             | None => lines
             | Some txn_acc =>
                 if negb (txn_acc =? acc)%Z then lines else shift_in lines buf
             end)
          bufs (repeat None MINI_STAT_LIMIT) in
      Some (omap id lines)
  end.

End MiniStatement.

(** No character of [s] is '\n' or '\r'. *)
Fixpoint no_newline (s : string) : bool :=
  match s with
  | EmptyString => true
  | String c s' => negb (Ascii.eqb c "010" || Ascii.eqb c "013") && no_newline s'
  end.

(** The lines of the file that are for account [acc], in file order. *)
Definition lines_of_account (txn_acc_of : string -> option Z) (acc : Z)
    (bufs : list string) : list string :=
  List.filter
    (fun buf => match txn_acc_of buf with
                | Some n => (n =? acc)%Z
                | None => false
                end) bufs.

(** The state of the array [lines] after the lines [m] have gone in. *)
Definition window_after (m : list string) : list (option string) :=
  drop (length m) (repeat None MINI_STAT_LIMIT ++ (Some <$> m)).

(** * Properties *)

(** ** Comparisons *)

Lemma Qlt_bool_true (x y : Q) : Qlt_bool x y = true <-> x < y.
Proof.
  unfold Qlt_bool. rewrite negb_true_iff, <- not_true_iff_false, Qle_bool_iff.
  split; [apply Qnot_le_lt | apply Qlt_not_le].
Qed.

Lemma Qlt_bool_false (x y : Q) : Qlt_bool x y = false <-> y <= x.
Proof.
  unfold Qlt_bool. rewrite negb_false_iff. apply Qle_bool_iff.
Qed.

Lemma Qle_bool_false (x y : Q) : Qle_bool x y = false <-> y < x.
Proof.
  rewrite <- not_true_iff_false, Qle_bool_iff.
  split; [apply Qnot_le_lt | apply Qlt_not_le].
Qed.

(** ** Market hours *)

Lemma market_is_open_iff (hour : Z) (p : PriceRec) :
  market_is_open hour p = true <->
  ((open_hour p <= close_hour p /\ open_hour p <= hour < close_hour p) \/
   (open_hour p > close_hour p /\ (hour >= open_hour p \/ hour < close_hour p)))%Z.
Proof.
  unfold market_is_open.
  destruct (Z.leb_spec (open_hour p) (close_hour p)) as [Hle | Hgt].
  - rewrite andb_true_iff, Z.geb_le, Z.ltb_lt. lia.
  - rewrite orb_true_iff, Z.geb_le, Z.ltb_lt. lia.
Qed.

(** C9, the clause on [close_hour = 24] as the claim states it: a record
    that closes at 24 but opens at 9 is closed at hour 5. *)
Lemma close_24_not_always_open :
  let p := mkPriceRec "X" "X" 100 (1 # 100) "US" "" 9 24 in
  close_hour p = 24%Z /\ market_is_open 5 p = false.
Proof. split; reflexivity. Qed.

(** C9 (amended): [market_is_open] holds exactly when the hour lies in
    [open_hour, close_hour) if [open_hour <= close_hour], and when
    [hour >= open_hour] or [hour < close_hour] if [open_hour > close_hour];
    a record with [open_hour = 0] and [close_hour = 24] is open at every
    hour of the day 0..23; a record with window 20 to 4 is open at hours
    23 and 2 and closed at hour 10. *)
Theorem market_is_open_spec (hour : Z) (p : PriceRec) :
  (market_is_open hour p = true <->
   ((open_hour p <= close_hour p /\ open_hour p <= hour < close_hour p) \/
    (open_hour p > close_hour p /\ (hour >= open_hour p \/ hour < close_hour p)))%Z) /\
  (open_hour p = 0%Z -> close_hour p = 24%Z -> (0 <= hour <= 23)%Z ->
   market_is_open hour p = true) /\
  (open_hour p = 20%Z -> close_hour p = 4%Z ->
   market_is_open 23 p = true /\ market_is_open 2 p = true /\
   market_is_open 10 p = false).
Proof.
  split; [apply market_is_open_iff |].
  split.
  - intros Ho Hc Hh. apply market_is_open_iff. lia.
  - intros Ho Hc. unfold market_is_open. rewrite Ho, Hc. repeat split.
Qed.

Lemma market_is_open_spec_witness :
  let btc := mkPriceRec "BTC" "Bitcoin" 35000 (5 # 100) "US" "" 0 24 in
  let night := mkPriceRec "N" "Night desk" 10 (1 # 100) "US" "" 20 4 in
  market_is_open 3 btc = true /\
  (market_is_open 23 night = true /\ market_is_open 2 night = true /\
   market_is_open 10 night = false).
Proof.
  intros btc night. split.
  - apply (proj1 (proj2 (market_is_open_spec 3 btc))); [reflexivity | reflexivity | lia].
  - apply (proj2 (proj2 (market_is_open_spec 0 night))); reflexivity.
Defined.

(** ** Price ticks *)

Section TickProperties.

Variable RAND_MAX : Z.

(** The draw lies in [-1, 1] whenever the raw draw lies in [0, RAND_MAX]. *)
Lemma rand_minus1_1_range (g : Rng) :
  (0 < RAND_MAX)%Z ->
  (0 <= draws g (cursor g) <= RAND_MAX)%Z ->
  - (1) <= fst (rand_minus1_1 RAND_MAX g) <= 1.
Proof.
  intros Hmax [Hlo Hhi]. unfold rand_minus1_1, rand. cbn [fst].
  set (r := draws g (cursor g)) in *.
  assert (Hm : 0 < inject_Z RAND_MAX) by (unfold Qlt; cbn; lia).
  assert (H0 : 0 <= inject_Z r / inject_Z RAND_MAX).
  { apply Qle_shift_div_l; [exact Hm |].
    unfold Qle; cbn; lia. }
  assert (H1 : inject_Z r / inject_Z RAND_MAX <= 1).
  { apply Qle_shift_div_r; [exact Hm |].
    unfold Qle; cbn; lia. }
  split; lra.
Qed.

Lemma clamp_price_floor (p : PriceRec) : (1 # 10000) <= price (clamp_price p).
Proof.
  unfold clamp_price. destruct (Qlt_bool (price p) (1 # 10000)) eqn:E.
  - cbn. apply Qle_refl.
  - apply Qlt_bool_false. exact E.
Qed.

Lemma clamp_price_cases (p : PriceRec) :
  price (clamp_price p) = (if Qlt_bool (price p) (1 # 10000) then 1 # 10000 else price p).
Proof. unfold clamp_price. destruct (Qlt_bool _ _); reflexivity. Qed.

Lemma tick_one_closed (hour : Z) (ts : string) (p : PriceRec) (g : Rng) :
  market_is_open hour p = false -> tick_one RAND_MAX hour ts p g = (p, g).
Proof. intros H. unfold tick_one. rewrite H. reflexivity. Qed.

Lemma tick_one_open_floor (hour : Z) (ts : string) (p : PriceRec) (g : Rng) :
  market_is_open hour p = true ->
  (1 # 10000) <= price (fst (tick_one RAND_MAX hour ts p g)).
Proof.
  intros H. unfold tick_one. rewrite H.
  destruct (rand_minus1_1 RAND_MAX g) as [r g']. cbn [fst set_last_update price].
  apply clamp_price_floor.
Qed.


(** Each record of the catalog after the loop is the loop body applied to
    the record at the same index, at some state of the generator. *)
Lemma tick_prices_pointwise (hour : Z) (ts : string) (ps : list PriceRec) :
  forall g,
    Forall2 (fun p p' => exists gi, p' = fst (tick_one RAND_MAX hour ts p gi))
            ps (fst (tick_prices RAND_MAX hour ts ps g)).
Proof.
  induction ps as [| p ps IH]; intros g; cbn [tick_prices].
  - constructor.
  - destruct (tick_one RAND_MAX hour ts p g) as [p' g1] eqn:E1.
    specialize (IH g1).
    destruct (tick_prices RAND_MAX hour ts ps g1) as [rest g2].
    cbn [fst] in *. constructor; [| exact IH].
    exists g. rewrite E1. reflexivity.
Qed.

Lemma randomize_prices_pointwise (ts : string) (ps : list PriceRec) :
  forall g,
    Forall2 (fun p p' => exists gi, p' = fst (randomize_one RAND_MAX ts p gi))
            ps (fst (randomize_prices RAND_MAX ts ps g)).
Proof.
  induction ps as [| p ps IH]; intros g; cbn [randomize_prices].
  - constructor.
  - destruct (randomize_one RAND_MAX ts p g) as [p' g1] eqn:E1.
    specialize (IH g1).
    destruct (randomize_prices RAND_MAX ts ps g1) as [rest g2].
    cbn [fst] in *. constructor; [| exact IH].
    exists g. rewrite E1. reflexivity.
Qed.

Lemma prices_tick_market_once (hour : Z) (ts : string) (st : State) (g : Rng) :
  prices (fst (tick_market_once RAND_MAX hour ts st g)) =
  fst (tick_prices RAND_MAX hour ts (prices st) g).
Proof.
  unfold tick_market_once.
  destruct (tick_prices RAND_MAX hour ts (prices st) g) as [ps g']. reflexivity.
Qed.

Lemma prices_admin_randomize (ts : string) (st : State) (g : Rng) :
  prices (fst (admin_randomize_all_prices RAND_MAX ts st g)) =
  fst (randomize_prices RAND_MAX ts (prices st) g).
Proof.
  unfold admin_randomize_all_prices.
  destruct (randomize_prices RAND_MAX ts (prices st) g) as [ps g']. reflexivity.
Qed.

End TickProperties.

(** C7, as the claim states it for the administrative tick: at hour 20 the
    only asset is closed, and [admin_randomize_all_prices] with the draw at
    its maximum still moves its price (1500 to 1575) and re-stamps it. *)
Lemma admin_tick_moves_closed_asset :
  let st' := fst (admin_randomize_all_prices 32767 sample_ts one_stock_state
                    (constant_rng 32767)) in
  match prices one_stock_state !! 0%nat, prices st' !! 0%nat with
  | Some p, Some p' =>
      market_is_open 20 p = false /\
      price p == 1500 /\ price p' == 1575 /\
      last_update p = "old"%string /\ last_update p' = sample_ts
  | _, _ => False
  end.
Proof. vm_compute. repeat split. Qed.

(** C7 (amended): the ordinary tick leaves every asset whose market is
    closed untouched (same record, so same price and [last_update]); the
    administrative big-move tick has no market-hours check: it moves every
    asset of the catalog, open or closed, by a draw times [vol * 5], clamps
    the price at 0.0001 and stamps [last_update]. *)
Theorem tick_frame (RAND_MAX hour : Z) (ts : string) (st : State) (g : Rng)
    (i : nat) (p : PriceRec) :
  prices st !! i = Some p ->
  (market_is_open hour p = false ->
   prices (fst (tick_market_once RAND_MAX hour ts st g)) !! i = Some p) /\
  (exists p' gi,
     prices (fst (admin_randomize_all_prices RAND_MAX ts st g)) !! i = Some p' /\
     last_update p' = ts /\
     price p' =
       (let x := price p * (1 + fst (rand_minus1_1 RAND_MAX gi) * vol p * 5) in
        if Qlt_bool x (1 # 10000) then 1 # 10000 else x)).
Proof.
  intros Hp. split.
  - intros Hclosed. rewrite prices_tick_market_once.
    destruct (Forall2_lookup_l _ _ _ _ _
                (tick_prices_pointwise RAND_MAX hour ts (prices st) g) Hp)
      as (p' & Hp' & gi & ->).
    rewrite Hp', tick_one_closed by exact Hclosed. reflexivity.
  - rewrite prices_admin_randomize.
    destruct (Forall2_lookup_l _ _ _ _ _
                (randomize_prices_pointwise RAND_MAX ts (prices st) g) Hp)
      as (p' & Hp' & gi & ->).
    exists (fst (randomize_one RAND_MAX ts p gi)), gi.
    split; [exact Hp' |].
    unfold randomize_one. destruct (rand_minus1_1 RAND_MAX gi) as [r g'].
    cbn [fst]. split; [reflexivity |].
    cbn [set_last_update price]. rewrite clamp_price_cases. reflexivity.
Qed.

Lemma tick_frame_witness :
  prices (fst (tick_market_once 32767 20 sample_ts one_stock_state
                 (constant_rng 32767))) !! 0%nat =
  Some (mkPriceRec "INFY" "Infosys Ltd" 1500 (1 # 100) "IN" "old" 9 15).
Proof.
  apply (proj1 (tick_frame 32767 20 sample_ts one_stock_state (constant_rng 32767)
                  0 _ eq_refl)).
  reflexivity.
Defined.



(** ** Portfolio valuation *)

Lemma price_in_inr_to_inr (f : FXRates) (p : PriceRec) :
  price_in_inr f p == to_inr f (price p) (market p).
Proof.
  unfold price_in_inr, to_inr, fx_rate.
  destruct (String.eqb (market p) "IN"); [ring |].
  destruct (String.eqb (market p) "US"); [ring |].
  destruct (String.eqb (market p) "EU"); ring.
Qed.

(** Apart from a position in market EU whose asset is absent from the
    catalog, the source values a position as the specification does. *)
Lemma holding_value_agrees (st : State) (h : Holding) :
  (find_price_index (prices st) (h_asset_id h) = None -> h_market h <> "EU"%string) ->
  qty h * holding_cur_price st h == spec_position_value st h.
Proof.
  intros Hne. unfold holding_cur_price, spec_position_value.
  destruct (find_price_index (prices st) (h_asset_id h)) as [pidx |].
  - destruct (prices st !! pidx) as [p |]; [| ring].
    rewrite price_in_inr_to_inr. reflexivity.
  - specialize (Hne eq_refl). unfold to_inr, fx_rate.
    destruct (String.eqb_spec (h_market h) "IN") as [E | _].
    + rewrite E. cbn. ring.
    + destruct (String.eqb_spec (h_market h) "US") as [_ | _]; [ring |].
      destruct (String.eqb_spec (h_market h) "EU") as [E | _]; [contradiction | ring].
Qed.

Lemma portfolio_fold_shift (st : State) (acc : Z) (hs : list Holding) :
  forall tot,
    fold_left
      (fun tot h =>
         if negb (h_acc_no h =? acc)%Z then tot
         else tot + qty h * holding_cur_price st h) hs tot ==
    tot + fold_left
      (fun tot h =>
         if negb (h_acc_no h =? acc)%Z then tot
         else tot + qty h * holding_cur_price st h) hs 0.
Proof.
  induction hs as [| h hs IH]; intros tot; cbn [fold_left].
  - ring.
  - rewrite IH. rewrite (IH (if negb _ then 0 else _)).
    destruct (negb (h_acc_no h =? acc)%Z); ring.
Qed.

Lemma portfolio_value_agrees (st : State) (acc : Z) :
  Forall (fun h => h_acc_no h = acc ->
                   find_price_index (prices st) (h_asset_id h) = None ->
                   h_market h <> "EU"%string) (holdings st) ->
  compute_portfolio_value_inr st acc == spec_mark_to_market st acc.
Proof.
  unfold compute_portfolio_value_inr, spec_mark_to_market.
  induction (holdings st) as [| h hs IH]; intros HF.
  - reflexivity.
  - inversion HF as [| ? ? Hh Hhs]; subst.
    cbn [fold_left spec_mark_to_market_list].
    rewrite portfolio_fold_shift, (IH Hhs).
    destruct (Z.eqb_spec (h_acc_no h) acc) as [E | _]; cbn [negb].
    + rewrite (holding_value_agrees st h (Hh E)). ring.
    + ring.
Qed.

(** C3, at a position in market EU whose asset is absent from the
    catalog: [compute_portfolio_value_inr] values one unit held at
    average price 100 EUR at 100 INR, where the claim converts it at
    88.2 INR per EUR to 8820 INR. *)
Theorem portfolio_value_orphan_eu :
  find_price_index (prices orphan_eu_state) "SAP" = None /\
  compute_portfolio_value_inr orphan_eu_state 1001 == 100 /\
  spec_mark_to_market orphan_eu_state 1001 == 8820 /\
  ~ compute_portfolio_value_inr orphan_eu_state 1001 ==
    spec_mark_to_market orphan_eu_state 1001.
Proof.
  split; [reflexivity |]. split; [reflexivity |]. split; [reflexivity |].
  vm_compute. discriminate.
Qed.

(** The valuation of a book [l] against the catalog and rates of [st]. *)
Lemma unrealized_pl_set_holdings (st : State) (l : list Holding) (acc : Z) :
  compute_unrealized_pl_inr (set_holdings st l) acc =
  fold_left
    (fun pl h =>
       if negb (h_acc_no h =? acc)%Z then pl else pl + holding_pl_inr st h) l 0.
Proof. reflexivity. Qed.

Lemma pl_fold_shift (st : State) (acc : Z) (hs : list Holding) :
  forall pl,
    fold_left
      (fun pl h =>
         if negb (h_acc_no h =? acc)%Z then pl else pl + holding_pl_inr st h) hs pl ==
    pl + fold_left
      (fun pl h =>
         if negb (h_acc_no h =? acc)%Z then pl else pl + holding_pl_inr st h) hs 0.
Proof.
  induction hs as [| h hs IH]; intros pl; cbn [fold_left].
  - ring.
  - rewrite IH. rewrite (IH (if negb _ then 0 else _)).
    destruct (negb (h_acc_no h =? acc)%Z); ring.
Qed.




(** ** Finders *)

Lemma find_price_index_Some (ps : list PriceRec) (id : string) :
  forall i, find_price_index ps id = Some i ->
            exists p, ps !! i = Some p /\ asset_id p = id.
Proof.
  induction ps as [| p ps IH]; intros i; cbn [find_price_index].
  - discriminate.
  - destruct (String.eqb_spec (asset_id p) id) as [E | _].
    + intros [= <-]. exists p. split; [reflexivity | exact E].
    + destruct (find_price_index ps id) as [j |]; [| discriminate].
      intros [= <-]. exact (IH j eq_refl).
Qed.

Lemma holding_key_test (acc : Z) (id : string) (h : Holding) :
  (h_acc_no h =? acc)%Z && String.eqb (h_asset_id h) id = true <->
  holding_key_is acc id h.
Proof.
  unfold holding_key_is. rewrite andb_true_iff, Z.eqb_eq, String.eqb_eq. reflexivity.
Qed.

Lemma find_holding_index_Some (hs : list Holding) (acc : Z) (id : string) :
  forall i, find_holding_index hs acc id = Some i ->
            exists h, hs !! i = Some h /\ holding_key_is acc id h.
Proof.
  induction hs as [| h hs IH]; intros i; cbn [find_holding_index].
  - discriminate.
  - destruct ((h_acc_no h =? acc)%Z && String.eqb (h_asset_id h) id) eqn:E.
    + intros [= <-]. exists h. split; [reflexivity |].
      apply holding_key_test. exact E.
    + destruct (find_holding_index hs acc id) as [j |]; [| discriminate].
      intros [= <-]. exact (IH j eq_refl).
Qed.

Lemma find_holding_index_None (hs : list Holding) (acc : Z) (id : string) :
  find_holding_index hs acc id = None <->
  Forall (fun h => ~ holding_key_is acc id h) hs.
Proof.
  induction hs as [| h hs IH]; cbn [find_holding_index].
  - split; [constructor | reflexivity].
  - destruct ((h_acc_no h =? acc)%Z && String.eqb (h_asset_id h) id) eqn:E.
    + split; [discriminate |]. intros HF. inversion HF as [| ? ? Hh _]; subst.
      exfalso. apply Hh. apply holding_key_test. exact E.
    + split.
      * intros Hf. constructor.
        -- rewrite <- holding_key_test, E. discriminate.
        -- apply IH. destruct (find_holding_index hs acc id); [discriminate | reflexivity].
      * intros HF. inversion HF as [| ? ? _ Hhs]; subst.
        apply IH in Hhs. rewrite Hhs. reflexivity.
Qed.

(** A new entry appended to a book without the pair is found at the end. *)
Lemma find_holding_index_app_new (hs : list Holding) (acc : Z) (id : string)
    (h : Holding) :
  find_holding_index hs acc id = None ->
  holding_key_is acc id h ->
  find_holding_index (hs ++ [h]) acc id = Some (length hs).
Proof.
  intros Hnone Hkey. induction hs as [| h0 hs IH]; cbn [find_holding_index app length].
  - apply holding_key_test in Hkey. rewrite Hkey. reflexivity.
  - cbn [find_holding_index] in Hnone.
    destruct ((h_acc_no h0 =? acc)%Z && String.eqb (h_asset_id h0) id);
      [discriminate |].
    destruct (find_holding_index hs acc id); [discriminate |].
    rewrite (IH eq_refl). reflexivity.
Qed.

(** Deleting the entry the finder returns leaves no entry for the pair,
    provided the book held the pair once. *)
Lemma find_holding_index_delete (hs : list Holding) (acc : Z) (id : string) :
  forall i,
    find_holding_index hs acc id = Some i ->
    (forall j h, hs !! j = Some h -> holding_key_is acc id h -> j = i) ->
    find_holding_index (delete i hs) acc id = None.
Proof.
  induction hs as [| h hs IH]; intros i; cbn [find_holding_index].
  - discriminate.
  - destruct ((h_acc_no h =? acc)%Z && String.eqb (h_asset_id h) id) eqn:E.
    + intros [= <-] Huniq. cbn. apply find_holding_index_None.
      apply Forall_lookup. intros j hj Hj Hkey.
      specialize (Huniq (S j) hj Hj Hkey). discriminate.
    + destruct (find_holding_index hs acc id) as [k |] eqn:Ek; [| discriminate].
      intros [= <-] Huniq.
      change (delete (S k) (h :: hs)) with (h :: delete k hs).
      cbn [find_holding_index]. rewrite E, (IH k eq_refl); [reflexivity |].
      intros j hj Hj Hkey. specialize (Huniq (S j) hj Hj Hkey). lia.
Qed.

(** ** Seeding *)

Lemma ensure_default_prices_frame (ts : string) (st : State) :
  accounts (ensure_default_prices ts st) = accounts st /\
  holdings (ensure_default_prices ts st) = holdings st /\
  fx (ensure_default_prices ts st) = fx st.
Proof.
  unfold ensure_default_prices.
  destruct (0 <? length (prices st))%nat; repeat split.
Qed.

(** ** Buying *)

(** Every way a buy ends other than "Bought" and "Holdings limit reached."
    leaves the cash of every account and the book as they were. *)
Lemma buy_failure_frame (stack : StackJunk) (hour : Z) (ts : string) (acc_idx : Z)
    (line : option string) (num : option Q) (st0 : State) :
  let r := buy_asset_loggedin stack hour ts acc_idx line num st0 in
  fst r <> Bought -> fst r <> HoldingsLimit ->
  accounts (snd r) = accounts st0 /\ holdings (snd r) = holdings st0.
Proof.
  destruct (ensure_default_prices_frame ts st0) as (Ha & Hh & _).
  unfold buy_asset_loggedin.
  destruct (acc_idx <? 0)%Z; [intros; split; reflexivity |].
  destruct line as [buf |]; [| intros; split; assumption].
  destruct (find_price_index _ buf) as [pidx |]; [| intros; split; assumption].
  destruct (_ !! pidx) as [pr |]; [| intros; split; assumption].
  destruct (negb (market_is_open hour pr)); [intros; split; assumption |].
  destruct (Qle_bool _ 0); [intros; split; assumption |].
  destruct (_ !! Z.to_nat acc_idx) as [a |]; [| intros; split; assumption].
  destruct (Qlt_bool _ _); [intros; split; assumption |].
  destruct (find_holding_index _ _ _) as [hidx |] eqn:Ef.
  - apply find_holding_index_Some in Ef as (h & Hl & _). rewrite Hl.
    cbn [fst]. congruence.
  - destruct (MAX_HOLDINGS <=? _)%nat; cbn [fst]; congruence.
Qed.

(** A buy on an asset whose market is closed ends with the "closed" message
    and changes neither cash nor the book. *)
Lemma buy_market_closed (stack : StackJunk) (hour : Z) (ts : string) (acc_idx : Z)
    (buf : string) (num : option Q) (st0 : State) (pidx : nat) (pr : PriceRec) :
  (0 <= acc_idx)%Z ->
  find_price_index (prices (ensure_default_prices ts st0)) buf = Some pidx ->
  prices (ensure_default_prices ts st0) !! pidx = Some pr ->
  market_is_open hour pr = false ->
  buy_asset_loggedin stack hour ts acc_idx (Some buf) num st0 =
  (MarketClosed, ensure_default_prices ts st0).
Proof.
  intros Hidx Hfind Hpr Hclosed. unfold buy_asset_loggedin.
  destruct (Z.ltb_spec acc_idx 0) as [Hneg | _]; [lia |].
  rewrite Hfind, Hpr, Hclosed. reflexivity.
Qed.

(** The buy that passes every check: what is left to run is the debit and
    the update of the book. *)
Lemma buy_valid_unfold (stack : StackJunk) (hour : Z) (ts : string) (acc_idx : Z)
    (buf : string) (num : option Q) (st0 : State) (pidx : nat) (pr : PriceRec)
    (a : Account) :
  let st := ensure_default_prices ts st0 in
  let q := safe_read_double num in
  let cost_inr := cost_in_inr_for_purchase (fx st) pr q in
  let a' := set_balance a (balance a - cost_inr) in
  let st1 := set_accounts st (<[Z.to_nat acc_idx := a']> (accounts st)) in
  (0 <= acc_idx)%Z ->
  accounts st0 !! Z.to_nat acc_idx = Some a ->
  find_price_index (prices st) buf = Some pidx ->
  prices st !! pidx = Some pr ->
  market_is_open hour pr = true ->
  0 < q ->
  cost_inr <= balance a ->
  buy_asset_loggedin stack hour ts acc_idx (Some buf) num st0 =
  match find_holding_index (holdings st0) (acc_no a) (asset_id pr) with
  | None =>
      if (MAX_HOLDINGS <=? length (holdings st0))%nat then (HoldingsLimit, st1)
      else (Bought,
            set_holdings st1
              (holdings st0 ++
               [mkHolding (acc_no a)
                  (strncpy_unterminated 15 (after_id stack) (asset_id pr))
                  (strncpy_unterminated 63 (after_name stack) (asset_name pr))
                  q (price pr)
                  (strncpy_unterminated 7 (after_market stack) (market pr))]))
  | Some hidx =>
      match holdings st0 !! hidx with
      | None => (NotLoggedIn, st1)
      | Some h =>
          let h1 := set_qty h (qty h + q) in
          let h2 := if Qlt_bool 0 (qty h1)
                    then set_avg_price h1
                           ((avg_price h * qty h + price pr * q) / qty h1)
                    else h1 in
          (Bought, set_holdings st1 (<[hidx := h2]> (holdings st0)))
      end
  end.
Proof.
  intros st q cost_inr a' st1 Hidx Ha Hfind Hpr Hopen Hq Hcost.
  destruct (ensure_default_prices_frame ts st0) as (Eacc & Ehold & _).
  fold st in Eacc, Ehold. rewrite <- Eacc in Ha. rewrite <- Ehold.
  unfold buy_asset_loggedin.
  destruct (Z.ltb_spec acc_idx 0) as [Hneg | _]; [lia |].
  fold st. rewrite Hfind, Hpr, Hopen. cbn [negb]. fold q.
  rewrite (proj2 (Qle_bool_false q 0) Hq), Ha. fold cost_inr.
  rewrite (proj2 (Qlt_bool_false (balance a) cost_inr) Hcost).
  reflexivity.
Qed.

Lemma cost_in_inr_fx_rate (f : FXRates) (p : PriceRec) (q : Q) :
  cost_in_inr_for_purchase f p q == price p * q * fx_rate f (market p).
Proof.
  unfold cost_in_inr_for_purchase, fx_rate.
  destruct (String.eqb (market p) "IN"); [ring |].
  destruct (String.eqb (market p) "US"); [ring |].
  destruct (String.eqb (market p) "EU"); ring.
Qed.



(** C1, at a full book: account 1001 has 50000 INR and no position, the
    book holds [MAX_HOLDINGS] entries of other customers, and AAPL is open
    at hour 10.  Buying 2 AAPL ends with "Holdings limit reached.": the
    book is unchanged, yet the cash has gone down by the cost, 31730 INR. *)
Theorem buy_at_holdings_limit_debits_cash (stack : StackJunk) :
  let r := buy_asset_loggedin stack 10 sample_ts 0 (Some "AAPL"%string) (Some 2)
             full_book_state in
  length (holdings full_book_state) = MAX_HOLDINGS /\
  fst r = HoldingsLimit /\
  holdings (snd r) = holdings full_book_state /\
  match accounts full_book_state !! 0%nat, accounts (snd r) !! 0%nat with
  | Some a, Some a' => balance a == 50000 /\ balance a' == 18270
  | _, _ => False
  end.
Proof. vm_compute. repeat split. Qed.


(** A source shorter than the count comes back as it is. *)
Lemma strncpy_unterminated_short (n : nat) (junk src : string) :
  (String.length src < n)%nat -> strncpy_unterminated n junk src = src.
Proof.
  intros H. unfold strncpy_unterminated.
  destruct (Nat.ltb_spec (String.length src) n) as [_ | Hge]; [reflexivity | lia].
Qed.

(** C5, for an asset id of 15 characters: the catalog lists [long_id] at
    300, account 1001 has the cash, and at both buys the byte after the
    15 copied characters of the local [Holding] is not zero (what follows
    on the stack starts with a character, [c1] at the first buy and [c2]
    at the second).  The first buy, of 2 units, stores the id with that
    content behind it; the second buy, of 1 unit, therefore finds no entry
    for the account and the id, and appends a second entry instead of
    raising the first to 3 units: the book ends with two entries, of
    quantities 2 and 1, and none that a look-up of the id finds. *)
Theorem long_id_buys_open_two_entries (c1 c2 : ascii) (rest1 rest2 : string)
    (name_junk1 name_junk2 market_junk1 market_junk2 : string) :
  let stack1 := mkStackJunk (String c1 rest1) name_junk1 market_junk1 in
  let stack2 := mkStackJunk (String c2 rest2) name_junk2 market_junk2 in
  let r1 := buy_asset_loggedin stack1 10 sample_ts 0 (Some long_id) (Some 2)
              long_id_state in
  let r2 := buy_asset_loggedin stack2 10 sample_ts 0 (Some long_id) (Some 1) (snd r1) in
  String.length long_id = 15%nat /\
  find_price_index (prices long_id_state) long_id = Some 0%nat /\
  fst r1 = Bought /\ fst r2 = Bought /\
  holdings (snd r2) =
    [mkHolding 1001 (long_id ++ String c1 rest1) "Bharat Petroleum" 2 300 "IN";
     mkHolding 1001 (long_id ++ String c2 rest2) "Bharat Petroleum" 1 300 "IN"] /\
  find_holding_index (holdings (snd r2)) 1001 long_id = None.
Proof. vm_compute. repeat split. Qed.

(** ** Selling *)

(** Overwriting a slot and then shifting the tail down over it is the same
    as shifting the tail down over the old content. *)
Lemma delete_insert_same {A : Type} (l : list A) (x : A) :
  forall i, delete i (<[i := x]> l) = delete i l.
Proof.
  induction l as [| y l IH]; intros [| i]; cbn; try reflexivity.
  f_equal. apply IH.
Qed.

(** Every way a sell ends other than "Sold" leaves cash and book as they
    were. *)
Lemma sell_failure_frame (ts : string) (acc_idx : Z) (line : option string)
    (num : option Q) (st0 : State) :
  let r := sell_asset_loggedin ts acc_idx line num st0 in
  fst r <> Sold ->
  accounts (snd r) = accounts st0 /\ holdings (snd r) = holdings st0.
Proof.
  destruct (ensure_default_prices_frame ts st0) as (Ha & Hh & _).
  unfold sell_asset_loggedin.
  destruct (acc_idx <? 0)%Z; [intros; split; reflexivity |].
  destruct line as [buf |]; [| intros; split; assumption].
  destruct (find_price_index _ buf) as [pidx |]; [| intros; split; assumption].
  destruct (_ !! Z.to_nat acc_idx) as [a |]; [| intros; split; assumption].
  destruct (find_holding_index _ _ _) as [hidx |]; [| intros; split; assumption].
  destruct (_ !! hidx) as [h |]; [| intros; split; assumption].
  destruct (_ !! pidx) as [pr |]; [| intros; split; assumption].
  destruct (Qle_bool _ 0 || Qlt_bool _ _); [intros; split; assumption |].
  cbn [fst]. congruence.
Qed.

(** The sell that finds the asset and the position: what is left is the
    check of the quantity and the two updates. *)
Lemma sell_found_unfold (ts : string) (acc_idx : Z) (buf : string) (num : option Q)
    (st0 : State) (pidx : nat) (pr : PriceRec) (a : Account) (hidx : nat)
    (h : Holding) :
  let st := ensure_default_prices ts st0 in
  let q := safe_read_double num in
  (0 <= acc_idx)%Z ->
  accounts st0 !! Z.to_nat acc_idx = Some a ->
  find_price_index (prices st) buf = Some pidx ->
  prices st !! pidx = Some pr ->
  find_holding_index (holdings st0) (acc_no a) buf = Some hidx ->
  holdings st0 !! hidx = Some h ->
  sell_asset_loggedin ts acc_idx (Some buf) num st0 =
  if Qle_bool q 0 || Qlt_bool (qty h) q then (InvalidQuantity, st)
  else
    let h' := set_qty h (qty h - q) in
    (Sold,
     mkState
       (<[Z.to_nat acc_idx :=
            set_balance a (balance a + cost_in_inr_for_purchase (fx st) pr q)]>
          (accounts st0))
       (if Qle_bool (qty h') (1 # 1000000) then delete hidx (holdings st0)
        else <[hidx := h']> (holdings st0))
       (prices st) (fx st)).
Proof.
  intros st q Hidx Ha Hfind Hpr Hhold Hh.
  destruct (ensure_default_prices_frame ts st0) as (Eacc & Ehold & _).
  fold st in Eacc, Ehold.
  rewrite <- Eacc in Ha |- *. rewrite <- Ehold in Hhold, Hh |- *.
  unfold sell_asset_loggedin.
  destruct (Z.ltb_spec acc_idx 0) as [Hneg | _]; [lia |].
  fold st. rewrite Hfind, Ha, Hhold, Hh, Hpr. fold q.
  destruct (Qle_bool q 0 || Qlt_bool (qty h) q); [reflexivity |].
  cbv zeta. rewrite delete_insert_same. reflexivity.
Qed.

(** C2, on the sell side: at hour 20 INFY (trading 9 to 15) is closed and a
    buy is turned away with the "closed" message, but
    [sell_asset_loggedin], which never looks at the hour, sells 2 of the 5
    units: the position drops to 3 and the cash rises from 50000 to 53000. *)
Theorem sell_on_closed_market_succeeds (stack : StackJunk) :
  let st := infy_holder_state in
  let r := sell_asset_loggedin sample_ts 0 (Some "INFY"%string) (Some 2) st in
  match prices st !! 0%nat with
  | Some pr => asset_id pr = "INFY"%string /\ market_is_open 20 pr = false
  | None => False
  end /\
  fst (buy_asset_loggedin stack 20 sample_ts 0 (Some "INFY"%string) (Some 2) st)
    = MarketClosed /\
  fst r = Sold /\
  holdings (snd r) = [mkHolding 1001 "INFY" "Infosys Ltd" 3 1400 "IN"] /\
  match accounts (snd r) !! 0%nat with
  | Some a' => balance a' == 53000
  | None => False
  end.
Proof. vm_compute. repeat split. Qed.

(** C6, for the quantity "nan": the test of [sell_asset_loggedin] on the
    typed quantity, [qty <= 0 || qty > h->qty], is false for NaN whatever
    the quantity held, so that the sell is not sent to "Invalid
    quantity." and goes on to the two updates.  For a finite quantity the
    test is the one [sell_asset_loggedin] is written with here, and it
    lets through exactly the quantities with [0 < q <= held]; the
    infinities are refused. *)
Theorem sell_quantity_test_passes_nan (held : Q) :
  sell_quantity_invalid NotANumber held = false /\
  sell_quantity_invalid PlusInfinity held = true /\
  sell_quantity_invalid MinusInfinity held = true /\
  (forall q, sell_quantity_invalid (Finite q) held = Qle_bool q 0 || Qlt_bool held q) /\
  (forall q, sell_quantity_invalid (Finite q) held = false <-> 0 < q /\ q <= held).
Proof.
  repeat split; try reflexivity.
  - apply orb_false_iff in H as [H _]. apply Qle_bool_false. exact H.
  - apply orb_false_iff in H as [_ H]. apply Qlt_bool_false. exact H.
  - intros [H1 H2]. unfold sell_quantity_invalid, atof_le, atof_gt.
    apply orb_false_iff. split.
    + apply Qle_bool_false. exact H1.
    + apply Qlt_bool_false. exact H2.
Qed.

(** * Further properties of the trading code *)

(** ** Sums *)

Lemma portfolio_value_sum (st : State) (acc : Z) :
  compute_portfolio_value_inr st acc ==
  Qsum (map (position_term st acc) (holdings st)).
Proof.
  unfold compute_portfolio_value_inr.
  induction (holdings st) as [| h hs IH]; [reflexivity |].
  cbn [fold_left map Qsum]. rewrite portfolio_fold_shift, IH.
  unfold position_term at 2.
  destruct (h_acc_no h =? acc)%Z; cbn [negb]; ring.
Qed.

Lemma position_term_ext (st st' : State) (acc : Z) (h : Holding) :
  prices st = prices st' -> fx st = fx st' ->
  position_term st acc h = position_term st' acc h.
Proof.
  intros Hp Hf. unfold position_term, holding_cur_price. rewrite Hp, Hf. reflexivity.
Qed.

Lemma position_terms_ext (st st' : State) (acc : Z) (hs : list Holding) :
  prices st = prices st' -> fx st = fx st' ->
  map (position_term st acc) hs = map (position_term st' acc) hs.
Proof.
  intros Hp Hf. apply map_ext. intros h. apply position_term_ext; assumption.
Qed.

(** ** What a finished trade tells about its inputs *)

Lemma buy_debited_inv (stack : StackJunk) (hour : Z) (ts : string) (acc_idx : Z)
    (line : option string) (num : option Q) (st0 : State) :
  let st := ensure_default_prices ts st0 in
  let q := safe_read_double num in
  let r := buy_asset_loggedin stack hour ts acc_idx line num st0 in
  fst r = Bought \/ fst r = HoldingsLimit ->
  exists buf pidx pr a,
    line = Some buf /\ (0 <= acc_idx)%Z /\
    accounts st0 !! Z.to_nat acc_idx = Some a /\
    find_price_index (prices st) buf = Some pidx /\
    prices st !! pidx = Some pr /\ asset_id pr = buf /\
    market_is_open hour pr = true /\ 0 < q /\
    cost_in_inr_for_purchase (fx st) pr q <= balance a.
Proof.
  intros st q r. unfold r, buy_asset_loggedin.
  destruct (ensure_default_prices_frame ts st0) as (Eacc & _ & _). fold st in Eacc.
  destruct (Z.ltb_spec acc_idx 0) as [Hneg | Hidx];
    [cbn [fst]; intros [H | H]; discriminate H |].
  fold st. destruct line as [buf |]; [| cbn [fst]; intros [H | H]; discriminate H].
  destruct (find_price_index (prices st) buf) as [pidx |] eqn:Hfind;
    [| cbn [fst]; intros [H | H]; discriminate H].
  destruct (find_price_index_Some _ _ _ Hfind) as (pr & Hpr & Hid).
  rewrite Hpr.
  destruct (market_is_open hour pr) eqn:Hopen;
    [| cbn [fst negb]; intros [H | H]; discriminate H].
  cbn [negb]. fold q.
  destruct (Qle_bool q 0) eqn:Hq; [cbn [fst]; intros [H | H]; discriminate H |].
  rewrite Eacc.
  destruct (accounts st0 !! Z.to_nat acc_idx) as [a |] eqn:Ha;
    [| cbn [fst]; intros [H | H]; discriminate H].
  destruct (Qlt_bool (balance a) (cost_in_inr_for_purchase (fx st) pr q)) eqn:Hc;
    [cbn [fst]; intros [H | H]; discriminate H |].
  intros _. exists buf, pidx, pr, a.
  repeat split; try assumption; try reflexivity.
  - apply Qle_bool_false. exact Hq.
  - apply Qlt_bool_false. exact Hc.
Qed.

Lemma sell_sold_inv (ts : string) (acc_idx : Z) (line : option string)
    (num : option Q) (st0 : State) :
  let st := ensure_default_prices ts st0 in
  let q := safe_read_double num in
  let r := sell_asset_loggedin ts acc_idx line num st0 in
  fst r = Sold ->
  exists buf pidx pr a hidx h,
    line = Some buf /\ (0 <= acc_idx)%Z /\
    accounts st0 !! Z.to_nat acc_idx = Some a /\
    find_price_index (prices st) buf = Some pidx /\
    prices st !! pidx = Some pr /\ asset_id pr = buf /\
    find_holding_index (holdings st0) (acc_no a) buf = Some hidx /\
    holdings st0 !! hidx = Some h /\ holding_key_is (acc_no a) buf h /\
    0 < q /\ q <= qty h.
Proof.
  intros st q r. unfold r, sell_asset_loggedin.
  destruct (ensure_default_prices_frame ts st0) as (Eacc & Ehold & _).
  fold st in Eacc, Ehold.
  destruct (Z.ltb_spec acc_idx 0) as [Hneg | Hidx]; [discriminate |].
  fold st. destruct line as [buf |]; [| discriminate].
  destruct (find_price_index (prices st) buf) as [pidx |] eqn:Hfind; [| discriminate].
  destruct (find_price_index_Some _ _ _ Hfind) as (pr & Hpr & Hid).
  rewrite Eacc, Ehold.
  destruct (accounts st0 !! Z.to_nat acc_idx) as [a |] eqn:Ha; [| discriminate].
  destruct (find_holding_index (holdings st0) (acc_no a) buf) as [hidx |] eqn:Hh;
    [| discriminate].
  destruct (find_holding_index_Some _ _ _ _ Hh) as (h & Hl & Hkey).
  rewrite Hl, Hpr. fold q.
  destruct (Qle_bool q 0) eqn:Hq; [discriminate |].
  destruct (Qlt_bool (qty h) q) eqn:Hle; [discriminate |].
  intros _. exists buf, pidx, pr, a, hidx, h.
  repeat split; try assumption; try reflexivity; try apply Hkey.
  - apply Qle_bool_false. exact Hq.
  - apply Qlt_bool_false. exact Hle.
Qed.

(** ** The book stays well formed *)

Lemma TradeResult_eq_dec (x y : TradeResult) : {x = y} + {x <> y}.
Proof. decide equality. Defined.

Lemma holding_key_is_key (acc : Z) (id : string) (h : Holding) :
  holding_key_is acc id h <-> holding_key h = (acc, id).
Proof.
  unfold holding_key_is, holding_key. split.
  - intros [-> ->]. reflexivity.
  - intros [= -> ->]. split; reflexivity.
Qed.

Lemma unique_keys_app_new (hs : list Holding) (h : Holding) :
  unique_keys hs ->
  find_holding_index hs (h_acc_no h) (h_asset_id h) = None ->
  unique_keys (hs ++ [h]).
Proof.
  unfold unique_keys. intros Hu Hnone. rewrite fmap_app. apply NoDup_app.
  split; [exact Hu |]. split; [| apply NoDup_singleton].
  intros k Hk Hk'. apply list_elem_of_singleton in Hk'. subst k.
  apply list_elem_of_fmap in Hk as (h' & Hkey & Hin).
  apply find_holding_index_None in Hnone.
  rewrite Forall_forall in Hnone. apply (Hnone h' Hin).
  apply holding_key_is_key. symmetry. exact Hkey.
Qed.

Lemma unique_keys_insert_same (hs : list Holding) (i : nat) (h h2 : Holding) :
  hs !! i = Some h -> holding_key h2 = holding_key h ->
  unique_keys hs -> unique_keys (<[i := h2]> hs).
Proof.
  unfold unique_keys. intros Hl Hk Hu.
  rewrite list_fmap_insert, Hk, list_insert_id; [exact Hu |].
  rewrite list_lookup_fmap, Hl. reflexivity.
Qed.

Lemma unique_keys_delete (hs : list Holding) (i : nat) :
  unique_keys hs -> unique_keys (delete i hs).
Proof.
  unfold unique_keys. intros Hu.
  rewrite list_fmap_delete.
  eapply sublist_NoDup; [exact Hu | apply sublist_delete].
Qed.

(** How a buy can change the book: not at all, by one entry appended for
    the buyer, whose id is the asset's as [strncpy] left it in the local
    [Holding], or by one entry replaced by an entry for the same pair. *)
Lemma buy_book_cases (stack : StackJunk) (hour : Z) (ts : string) (acc_idx : Z)
    (line : option string) (num : option Q) (st0 : State) :
  let r := buy_asset_loggedin stack hour ts acc_idx line num st0 in
  holdings (snd r) = holdings st0 \/
  (exists h, holdings (snd r) = holdings st0 ++ [h] /\
             (length (holdings st0) < MAX_HOLDINGS)%nat /\
             forall a buf, accounts st0 !! Z.to_nat acc_idx = Some a ->
                           line = Some buf ->
                           h_acc_no h = acc_no a /\
                           h_asset_id h = strncpy_unterminated 15 (after_id stack) buf /\
                           find_holding_index (holdings st0) (acc_no a) buf = None) \/
  (exists i h h2, holdings (snd r) = <[i := h2]> (holdings st0) /\
                  holdings st0 !! i = Some h /\ holding_key h2 = holding_key h /\
                  forall a buf, accounts st0 !! Z.to_nat acc_idx = Some a ->
                                line = Some buf -> holding_key h = (acc_no a, buf)).
Proof.
  intros r.
  destruct (TradeResult_eq_dec (fst r) Bought) as [Hb | Hnb].
  - destruct (buy_debited_inv stack hour ts acc_idx line num st0 (or_introl Hb))
      as (buf & pidx & pr & a & -> & Hidx & Ha & Hfind & Hpr & Hid & Hopen & Hq & Hcost).
    unfold r in *.
    rewrite (buy_valid_unfold stack hour ts acc_idx buf num st0 pidx pr a
               Hidx Ha Hfind Hpr Hopen Hq Hcost) in Hb |- *.
    destruct (find_holding_index (holdings st0) (acc_no a) (asset_id pr))
      as [hidx |] eqn:Ef.
    + destruct (find_holding_index_Some _ _ _ _ Ef) as (h & Hl & Hkey).
      rewrite Hl. right. right. eexists hidx, h, _.
      split; [reflexivity |]. split; [exact Hl |].
      split; [cbv zeta; destruct (Qlt_bool 0 _); reflexivity |].
      intros a' buf' Ha' [= <-]. rewrite Ha in Ha'. injection Ha' as <-.
      apply holding_key_is_key. rewrite <- Hid. exact Hkey.
    + destruct (Nat.leb_spec MAX_HOLDINGS (length (holdings st0))) as [Hfull | Hroom];
        [discriminate Hb |].
      right. left. eexists. split; [reflexivity |].
      split; [exact Hroom |].
      intros a' buf' Ha' [= <-]. rewrite Ha in Ha'. injection Ha' as <-.
      cbn [h_acc_no h_asset_id]. rewrite <- Hid.
      split; [reflexivity |]. split; [reflexivity | exact Ef].
  - destruct (TradeResult_eq_dec (fst r) HoldingsLimit) as [Hl | Hnl].
    + destruct (buy_debited_inv stack hour ts acc_idx line num st0 (or_intror Hl))
        as (buf & pidx & pr & a & -> & Hidx & Ha & Hfind & Hpr & Hid & Hopen & Hq & Hcost).
      unfold r in *.
      rewrite (buy_valid_unfold stack hour ts acc_idx buf num st0 pidx pr a
                 Hidx Ha Hfind Hpr Hopen Hq Hcost) in Hl |- *.
      destruct (find_holding_index (holdings st0) (acc_no a) (asset_id pr))
        as [hidx |] eqn:Ef.
      * destruct (find_holding_index_Some _ _ _ _ Ef) as (h & Hh & _).
        rewrite Hh in Hl. discriminate Hl.
      * destruct (MAX_HOLDINGS <=? length (holdings st0))%nat;
          [| discriminate Hl].
        left. exact (proj1 (proj2 (ensure_default_prices_frame ts st0))).
    + left. exact (proj2 (buy_failure_frame stack hour ts acc_idx line num st0 Hnb Hnl)).
Qed.

(** X3: a buy of an asset whose id has fewer than 15 characters, and so
    fits the 16 bytes of the entry with its terminator, keeps the keys of
    the book unique, however it ends and whatever the stack holds; and
    any buy leaves a book of at most [MAX_HOLDINGS] entries within that
    bound. *)
Theorem buy_keeps_book_well_formed (stack : StackJunk) (hour : Z) (ts : string)
    (acc_idx : Z) (line : option string) (num : option Q) (st0 : State) :
  let r := buy_asset_loggedin stack hour ts acc_idx line num st0 in
  ((forall buf, line = Some buf -> (String.length buf < 15)%nat) ->
   unique_keys (holdings st0) -> unique_keys (holdings (snd r))) /\
  ((length (holdings st0) <= MAX_HOLDINGS)%nat ->
   (length (holdings (snd r)) <= MAX_HOLDINGS)%nat).
Proof.
  intros r.
  destruct (buy_book_cases stack hour ts acc_idx line num st0)
    as [E | [(h & E & Hroom & Hk) | (i & h & h2 & E & Hl & Hk & _)]];
    fold r in E; rewrite E.
  - split; [intros _ H | intros H]; exact H.
  - split.
    + intros Hshort Hu. apply unique_keys_app_new; [exact Hu |].
      assert (Hb : fst r = Bought \/ fst r = HoldingsLimit).
      { destruct (TradeResult_eq_dec (fst r) Bought) as [Hb | Hnb]; [left; exact Hb |].
        destruct (TradeResult_eq_dec (fst r) HoldingsLimit) as [Hh | Hnh];
          [right; exact Hh |].
        pose proof (proj2 (buy_failure_frame stack hour ts acc_idx line num st0 Hnb Hnh))
          as Hsame.
        fold r in Hsame. rewrite E in Hsame.
        apply (f_equal length) in Hsame. rewrite length_app in Hsame. cbn in Hsame. lia. }
      destruct (buy_debited_inv stack hour ts acc_idx line num st0 Hb)
        as (buf & pidx & pr & a & Hline & _ & Ha & _).
      destruct (Hk a buf Ha Hline) as (Hacc & Hid & Hnone).
      rewrite Hacc, Hid, strncpy_unterminated_short by exact (Hshort buf Hline).
      exact Hnone.
    + intros _. rewrite length_app. cbn. lia.
  - split.
    + intros _ Hu. exact (unique_keys_insert_same _ _ _ _ Hl Hk Hu).
    + rewrite length_insert. intros H; exact H.
Qed.

Lemma buy_keeps_book_well_formed_witness :
  let st0 := aapl_state 200 (835 # 10) 18270
               [mkHolding 2002 "AAPL" "Apple Inc" 2 190 "US"] in
  let r := buy_asset_loggedin (mkStackJunk "?" "?" "?") 10 sample_ts 0
             (Some "AAPL"%string) (Some 1) st0 in
  unique_keys (holdings (snd r)) /\ (length (holdings (snd r)) <= MAX_HOLDINGS)%nat.
Proof.
  intros st0 r.
  destruct (buy_keeps_book_well_formed (mkStackJunk "?" "?" "?") 10 sample_ts 0
              (Some "AAPL"%string) (Some 1) st0)
    as [Hu Hl].
  split.
  - apply Hu.
    + intros buf [= <-]. cbn. lia.
    + unfold unique_keys. cbn. apply NoDup_singleton.
  - apply Hl. unfold MAX_HOLDINGS. cbn. lia.
Defined.

(** How a sell can change the book: not at all, by one entry deleted, or
    by one entry replaced by an entry for the same pair; the entry is the
    seller's for the asset. *)
Lemma sell_book_cases (ts : string) (acc_idx : Z) (line : option string)
    (num : option Q) (st0 : State) :
  let r := sell_asset_loggedin ts acc_idx line num st0 in
  holdings (snd r) = holdings st0 \/
  exists i h,
    holdings st0 !! i = Some h /\
    (forall a buf, accounts st0 !! Z.to_nat acc_idx = Some a ->
                   line = Some buf -> holding_key h = (acc_no a, buf)) /\
    (holdings (snd r) = delete i (holdings st0) \/
     exists h2, holdings (snd r) = <[i := h2]> (holdings st0) /\
                holding_key h2 = holding_key h).
Proof.
  intros r.
  destruct (TradeResult_eq_dec (fst r) Sold) as [Hs | Hns].
  - destruct (sell_sold_inv ts acc_idx line num st0 Hs)
      as (buf & pidx & pr & a & hidx & h & -> & Hidx & Ha & Hfind & Hpr & Hid &
          Hhold & Hl & Hkey & Hq & Hle).
    right. exists hidx, h. split; [exact Hl |]. split.
    + intros a' buf' Ha' [= <-]. rewrite Ha in Ha'. injection Ha' as <-.
      apply holding_key_is_key. exact Hkey.
    + unfold r.
      rewrite (sell_found_unfold ts acc_idx buf num st0 pidx pr a hidx h
                 Hidx Ha Hfind Hpr Hhold Hl).
      rewrite (proj2 (Qle_bool_false _ 0) Hq), (proj2 (Qlt_bool_false (qty h) _) Hle).
      cbn [orb snd holdings]. cbv zeta.
      destruct (Qle_bool _ (1 # 1000000)); [left; reflexivity |].
      right. eexists. split; reflexivity.
  - left. exact (proj2 (sell_failure_frame ts acc_idx line num st0 Hns)).
Qed.

(** X4: a sell, however it ends, keeps the keys of the book unique and
    never makes the book longer. *)
Theorem sell_keeps_book_well_formed (ts : string) (acc_idx : Z)
    (line : option string) (num : option Q) (st0 : State) :
  let r := sell_asset_loggedin ts acc_idx line num st0 in
  (unique_keys (holdings st0) -> unique_keys (holdings (snd r))) /\
  (length (holdings (snd r)) <= length (holdings st0))%nat.
Proof.
  intros r.
  destruct (sell_book_cases ts acc_idx line num st0)
    as [E | (i & h & Hl & _ & [E | (h2 & E & Hk)])]; fold r in E; rewrite E.
  - split; [intros H; exact H | lia].
  - split; [apply unique_keys_delete |].
    rewrite length_delete by (rewrite Hl; eauto). lia.
  - split; [exact (unique_keys_insert_same _ _ _ _ Hl Hk) |].
    rewrite length_insert. lia.
Qed.

Lemma sell_keeps_book_well_formed_witness :
  let st0 := aapl_state 210 84 0 [mkHolding 1001 "AAPL" "Apple Inc" 3 190 "US"] in
  unique_keys (holdings (snd (sell_asset_loggedin sample_ts 0 (Some "AAPL"%string)
                                (Some 3) st0))).
Proof.
  intros st0.
  apply (proj1 (sell_keeps_book_well_formed sample_ts 0 (Some "AAPL"%string)
                  (Some 3) st0)).
  unfold unique_keys. cbn. apply NoDup_singleton.
Defined.

(** ** What a trade leaves alone *)

Lemma filter_insert_out {A : Type} (f : A -> bool) (l : list A) (x y : A) :
  forall i, l !! i = Some x -> f x = false -> f y = false ->
            List.filter f (<[i := y]> l) = List.filter f l.
Proof.
  induction l as [| z l IH]; intros [| i] Hi Hx Hy; try discriminate.
  - injection Hi as ->. cbn. rewrite Hx, Hy. reflexivity.
  - cbn in Hi. change (<[S i := y]> (z :: l)) with (z :: <[i := y]> l).
    cbn [List.filter]. rewrite (IH i Hi Hx Hy). reflexivity.
Qed.

Lemma filter_delete_out {A : Type} (f : A -> bool) (l : list A) (x : A) :
  forall i, l !! i = Some x -> f x = false ->
            List.filter f (delete i l) = List.filter f l.
Proof.
  induction l as [| z l IH]; intros [| i] Hi Hx; try discriminate.
  - injection Hi as ->. cbn. rewrite Hx. reflexivity.
  - cbn in Hi. change (delete (S i) (z :: l)) with (z :: delete i l).
    cbn [List.filter]. rewrite (IH i Hi Hx). reflexivity.
Qed.

Lemma other_key_false (acc : Z) (id : string) (h : Holding) :
  holding_key h = (acc, id) -> other_key acc id h = false.
Proof.
  intros Hk. apply holding_key_is_key, holding_key_test in Hk.
  unfold other_key. rewrite Hk. reflexivity.
Qed.

(** How a buy can change the accounts: not at all, or by lowering the cash
    of the buyer by a cost the cash covers. *)
Lemma buy_accounts_cases (stack : StackJunk) (hour : Z) (ts : string) (acc_idx : Z)
    (line : option string) (num : option Q) (st0 : State) :
  let r := buy_asset_loggedin stack hour ts acc_idx line num st0 in
  accounts (snd r) = accounts st0 \/
  exists a cost,
    accounts st0 !! Z.to_nat acc_idx = Some a /\ cost <= balance a /\
    accounts (snd r) =
      <[Z.to_nat acc_idx := set_balance a (balance a - cost)]> (accounts st0).
Proof.
  intros r.
  destruct (TradeResult_eq_dec (fst r) Bought) as [Hb | Hnb];
    [pose proof (or_introl Hb : fst r = Bought \/ fst r = HoldingsLimit) as Hd |
     destruct (TradeResult_eq_dec (fst r) HoldingsLimit) as [Hl | Hnl];
     [pose proof (or_intror Hl : fst r = Bought \/ fst r = HoldingsLimit) as Hd |
      left; exact (proj1 (buy_failure_frame stack hour ts acc_idx line num st0 Hnb Hnl))]].
  all: destruct (buy_debited_inv stack hour ts acc_idx line num st0 Hd)
      as (buf & pidx & pr & a & -> & Hidx & Ha & Hfind & Hpr & Hid & Hopen & Hq & Hcost);
    right; eexists a, _; split; [exact Ha |]; split; [exact Hcost |];
    unfold r;
    rewrite (buy_valid_unfold stack hour ts acc_idx buf num st0 pidx pr a
               Hidx Ha Hfind Hpr Hopen Hq Hcost);
    rewrite (proj1 (ensure_default_prices_frame ts st0));
    destruct (find_holding_index (holdings st0) (acc_no a) (asset_id pr)) as [hidx |];
    [destruct (holdings st0 !! hidx) | destruct (MAX_HOLDINGS <=? _)%nat];
    reflexivity.
Qed.

(** X6: a buy by the account at [acc_idx] on asset [buf] leaves every other
    account record as it was, changes nothing but the cash in the buyer's
    record and leaves the FX rates alone, whatever the stack holds; and
    when [buf] has fewer than 15 characters (and so fits the 16 bytes of
    an entry with its terminator) it leaves every entry of the book that
    is for another account or another asset in place and in order, adding
    none. *)
Theorem buy_frame (stack : StackJunk) (hour : Z) (ts : string) (acc_idx : Z)
    (buf : string) (num : option Q) (st0 : State) (a : Account) :
  let r := buy_asset_loggedin stack hour ts acc_idx (Some buf) num st0 in
  accounts st0 !! Z.to_nat acc_idx = Some a ->
  (forall j, j <> Z.to_nat acc_idx -> accounts (snd r) !! j = accounts st0 !! j) /\
  (exists b, accounts (snd r) !! Z.to_nat acc_idx = Some (set_balance a b)) /\
  ((String.length buf < 15)%nat ->
   List.filter (other_key (acc_no a) buf) (holdings (snd r)) =
   List.filter (other_key (acc_no a) buf) (holdings st0)) /\
  fx (snd r) = fx st0.
Proof.
  intros r Ha. pose proof (lookup_lt_Some _ _ _ Ha) as Hlt.
  split; [| split; [| split]].
  - intros j Hj.
    destruct (buy_accounts_cases stack hour ts acc_idx (Some buf) num st0)
      as [E | (a' & cost & _ & _ & E)]; fold r in E; rewrite E; [reflexivity |].
    apply list_lookup_insert_ne. congruence.
  - destruct (buy_accounts_cases stack hour ts acc_idx (Some buf) num st0)
      as [E | (a' & cost & Ha' & _ & E)]; fold r in E; rewrite E.
    + exists (balance a). rewrite Ha. destruct a; reflexivity.
    + rewrite Ha in Ha'. injection Ha' as <-. eexists.
      apply list_lookup_insert_eq. exact Hlt.
  - intros Hshort.
    destruct (buy_book_cases stack hour ts acc_idx (Some buf) num st0)
      as [E | [(h & E & _ & Hk) | (i & h & h2 & E & Hl & Hk2 & Hk)]];
      fold r in E; rewrite E; [reflexivity | |].
    + destruct (Hk a buf Ha eq_refl) as (Hacc & Hid & _).
      rewrite strncpy_unterminated_short in Hid by exact Hshort.
      rewrite List.filter_app. cbn [List.filter].
      rewrite (other_key_false (acc_no a) buf h)
        by (unfold holding_key; rewrite Hacc, Hid; reflexivity).
      apply app_nil_r.
    + specialize (Hk a buf Ha eq_refl).
      apply (filter_insert_out _ _ h h2 i Hl); apply other_key_false; congruence.
  - unfold r, buy_asset_loggedin.
    pose proof (proj2 (proj2 (ensure_default_prices_frame ts st0))) as Efx.
    repeat match goal with
           | |- context [if ?c then _ else _] => destruct c
           | |- context [match ?c with Some _ => _ | None => _ end] => destruct c
           end; first [reflexivity | exact Efx].
Qed.

Lemma buy_frame_witness :
  let st0 := aapl_state 190 (835 # 10) 50000
               [mkHolding 2002 "AAPL" "Apple Inc" 7 150 "US"] in
  let r := buy_asset_loggedin (mkStackJunk "?" "?" "?") 10 sample_ts 0
             (Some "AAPL"%string) (Some 2) st0 in
  List.filter (other_key 1001 "AAPL") (holdings (snd r)) =
  List.filter (other_key 1001 "AAPL") (holdings st0).
Proof.
  intros st0 r.
  apply (proj1 (proj2 (proj2 (buy_frame (mkStackJunk "?" "?" "?") 10 sample_ts 0 "AAPL"
                                (Some 2) st0 (sample_account 50000) eq_refl)))).
  cbn. lia.
Defined.

(** What a finished sell does to the accounts. *)
Lemma sell_sold_accounts (ts : string) (acc_idx : Z) (line : option string)
    (num : option Q) (st0 : State) (a : Account) :
  let st := ensure_default_prices ts st0 in
  let q := safe_read_double num in
  let r := sell_asset_loggedin ts acc_idx line num st0 in
  accounts st0 !! Z.to_nat acc_idx = Some a ->
  fst r = Sold ->
  exists buf pidx pr,
    line = Some buf /\
    find_price_index (prices st) buf = Some pidx /\ prices st !! pidx = Some pr /\
    accounts (snd r) =
      <[Z.to_nat acc_idx :=
          set_balance a (balance a + cost_in_inr_for_purchase (fx st0) pr q)]>
        (accounts st0).
Proof.
  intros st q r Ha Hs.
  destruct (sell_sold_inv ts acc_idx line num st0 Hs)
    as (buf & pidx & pr & a1 & hidx & h & -> & Hidx & Ha1 & Hfind & Hpr & Hid &
        Hhold & Hl & Hkey & Hq & Hle).
  rewrite Ha in Ha1. injection Ha1 as <-.
  exists buf, pidx, pr. repeat (split; [first [reflexivity | assumption] |]).
  unfold r.
  rewrite (sell_found_unfold ts acc_idx buf num st0 pidx pr a hidx h
             Hidx Ha Hfind Hpr Hhold Hl).
  rewrite (proj2 (Qle_bool_false _ 0) Hq), (proj2 (Qlt_bool_false (qty h) _) Hle).
  cbn [orb snd accounts]. cbv zeta. cbn [accounts].
  rewrite (proj2 (proj2 (ensure_default_prices_frame ts st0))). reflexivity.
Qed.

(** X7: a sell that ends "Sold" credits the seller with exactly the
    catalog price times the quantity, converted by the FX rule of the
    asset's market (1 for IN and unknown markets): the balance read from
    the seller's record afterwards is the balance before plus that
    amount, and nothing else in the record differs; every other way a
    sell ends leaves all cash as it was. *)
Theorem sell_credit_arithmetic (ts : string) (acc_idx : Z) (line : option string)
    (num : option Q) (st0 : State) (a : Account) :
  let st := ensure_default_prices ts st0 in
  let q := safe_read_double num in
  let r := sell_asset_loggedin ts acc_idx line num st0 in
  accounts st0 !! Z.to_nat acc_idx = Some a ->
  (fst r = Sold ->
   exists buf pidx pr a',
     line = Some buf /\
     find_price_index (prices st) buf = Some pidx /\ prices st !! pidx = Some pr /\
     accounts (snd r) !! Z.to_nat acc_idx = Some a' /\
     balance a' = balance a + cost_in_inr_for_purchase (fx st0) pr q /\
     balance a' == balance a + price pr * q * fx_rate (fx st0) (market pr) /\
     (acc_no a', name a', acc_type a', pin a', loan a') =
     (acc_no a, name a, acc_type a, pin a, loan a) /\
     (active a', frozen a', failed_attempts a', upi a', last_login a') =
     (active a, frozen a, failed_attempts a, upi a, last_login a) /\
     length (accounts (snd r)) = length (accounts st0)) /\
  (fst r <> Sold -> accounts (snd r) = accounts st0).
Proof.
  intros st q r Ha. split.
  - intros Hs.
    destruct (sell_sold_accounts ts acc_idx line num st0 a Ha Hs)
      as (buf & pidx & pr & Hline & Hfind & Hpr & E).
    fold r in E. fold q in E.
    exists buf, pidx, pr,
      (set_balance a (balance a + cost_in_inr_for_purchase (fx st0) pr q)).
    repeat (split; [assumption |]).
    split; [rewrite E; apply list_lookup_insert_eq; exact (lookup_lt_Some _ _ _ Ha) |].
    cbn [balance set_balance acc_no name acc_type pin loan active frozen
         failed_attempts upi last_login].
    split; [reflexivity |].
    split; [rewrite cost_in_inr_fx_rate; reflexivity |].
    split; [reflexivity |]. split; [reflexivity |].
    rewrite E. apply length_insert.
  - intros Hns. exact (proj1 (sell_failure_frame ts acc_idx line num st0 Hns)).
Qed.

Lemma sell_credit_arithmetic_witness :
  let st0 := aapl_state 210 84 0 [mkHolding 1001 "AAPL" "Apple Inc" 3 190 "US"] in
  let r := sell_asset_loggedin sample_ts 0 (Some "AAPL"%string) (Some 3) st0 in
  exists a', accounts (snd r) !! 0%nat = Some a' /\ balance a' == 52920.
Proof.
  intros st0 r.
  destruct (proj1 (sell_credit_arithmetic sample_ts 0 (Some "AAPL"%string) (Some 3) st0
                     (sample_account 0) eq_refl) eq_refl)
    as (buf & pidx & pr & a' & Hline & Hfind & Hpr & Ha' & Hbal & _).
  exists a'. split; [exact Ha' |].
  injection Hline as <-. vm_compute in Hfind. injection Hfind as <-.
  vm_compute in Hpr. injection Hpr as <-.
  rewrite Hbal. vm_compute. reflexivity.
Defined.

(** X8: a sell by the account at [acc_idx] on asset [buf] leaves every
    other account record as it was, changes nothing but the cash in the
    seller's record, leaves every entry of the book that is for another
    account or another asset in place and in order, and leaves the FX rates
    alone. *)
Theorem sell_frame (ts : string) (acc_idx : Z) (buf : string)
    (num : option Q) (st0 : State) (a : Account) :
  let r := sell_asset_loggedin ts acc_idx (Some buf) num st0 in
  accounts st0 !! Z.to_nat acc_idx = Some a ->
  (forall j, j <> Z.to_nat acc_idx -> accounts (snd r) !! j = accounts st0 !! j) /\
  (exists b, accounts (snd r) !! Z.to_nat acc_idx = Some (set_balance a b)) /\
  List.filter (other_key (acc_no a) buf) (holdings (snd r)) =
  List.filter (other_key (acc_no a) buf) (holdings st0) /\
  fx (snd r) = fx st0.
Proof.
  intros r Ha. pose proof (lookup_lt_Some _ _ _ Ha) as Hlt.
  assert (Hacc : accounts (snd r) = accounts st0 \/
                 exists b, accounts (snd r) =
                           <[Z.to_nat acc_idx := set_balance a b]> (accounts st0)).
  { destruct (TradeResult_eq_dec (fst r) Sold) as [Hs | Hns].
    - destruct (sell_sold_accounts ts acc_idx (Some buf) num st0 a Ha Hs)
        as (buf' & pidx & pr & _ & _ & _ & E).
      right. eexists. exact E.
    - left. exact (proj1 (sell_failure_frame ts acc_idx (Some buf) num st0 Hns)). }
  split; [| split; [| split]].
  - intros j Hj. destruct Hacc as [E | (b & E)]; rewrite E; [reflexivity |].
    apply list_lookup_insert_ne. congruence.
  - destruct Hacc as [E | (b & E)]; rewrite E.
    + exists (balance a). rewrite Ha. destruct a; reflexivity.
    + exists b. apply list_lookup_insert_eq. exact Hlt.
  - destruct (sell_book_cases ts acc_idx (Some buf) num st0)
      as [E | (i & h & Hl & Hk & [E | (h2 & E & Hk2)])]; fold r in E; rewrite E;
      [reflexivity | |]; specialize (Hk a buf Ha eq_refl).
    + apply (filter_delete_out _ _ h i Hl). apply other_key_false. exact Hk.
    + apply (filter_insert_out _ _ h h2 i Hl); apply other_key_false; congruence.
  - unfold r, sell_asset_loggedin.
    pose proof (proj2 (proj2 (ensure_default_prices_frame ts st0))) as Efx.
    repeat match goal with
           | |- context [if ?c then _ else _] => destruct c
           | |- context [match ?c with Some _ => _ | None => _ end] => destruct c
           end; first [reflexivity | exact Efx].
Qed.

Lemma sell_frame_witness :
  let st0 := aapl_state 210 84 0
               [mkHolding 2002 "AAPL" "Apple Inc" 7 150 "US";
                mkHolding 1001 "AAPL" "Apple Inc" 3 190 "US"] in
  let r := sell_asset_loggedin sample_ts 0 (Some "AAPL"%string) (Some 3) st0 in
  List.filter (other_key 1001 "AAPL") (holdings (snd r)) =
  List.filter (other_key 1001 "AAPL") (holdings st0).
Proof.
  intros st0 r.
  exact (proj1 (proj2 (proj2 (sell_frame sample_ts 0 "AAPL" (Some 3) st0
                                (sample_account 0) eq_refl)))).
Defined.

(** ** Buying and selling back *)

Lemma ensure_default_prices_listed (ts : string) (st : State) (i : nat) (p : PriceRec) :
  prices st !! i = Some p -> ensure_default_prices ts st = st.
Proof.
  intros Hp. unfold ensure_default_prices.
  destruct (prices st) as [| p0 ps]; [discriminate Hp | reflexivity].
Qed.

(** X9: buying [q] units of an asset the account does not hold and selling
    the same [q] straight back, at an unchanged catalog, gives back the
    book exactly as it was, for an asset id of fewer than 15 characters:
    the new entry is appended by the buy with quantity [q], the sell finds
    it, the quantity left is zero and the entry is deleted.  The catalog
    is the one the buy ran on and no other account is touched. *)
Theorem buy_then_sell_round_trip (stack : StackJunk) (hour : Z) (ts ts2 : string)
    (acc_idx : Z) (buf : string) (q : Q) (st0 : State) (pidx : nat) (pr : PriceRec)
    (a : Account) :
  let st := ensure_default_prices ts st0 in
  let r1 := buy_asset_loggedin stack hour ts acc_idx (Some buf) (Some q) st0 in
  let r2 := sell_asset_loggedin ts2 acc_idx (Some buf) (Some q) (snd r1) in
  (0 <= acc_idx)%Z ->
  accounts st0 !! Z.to_nat acc_idx = Some a ->
  find_price_index (prices st) buf = Some pidx ->
  prices st !! pidx = Some pr ->
  (String.length buf < 15)%nat ->
  market_is_open hour pr = true ->
  0 < q ->
  cost_in_inr_for_purchase (fx st) pr q <= balance a ->
  find_holding_index (holdings st0) (acc_no a) buf = None ->
  (length (holdings st0) < MAX_HOLDINGS)%nat ->
  fst r1 = Bought /\
  length (holdings (snd r1)) = S (length (holdings st0)) /\
  fst r2 = Sold /\
  holdings (snd r2) = holdings st0 /\
  prices (snd r2) = prices st /\
  (forall j, j <> Z.to_nat acc_idx -> accounts (snd r2) !! j = accounts st0 !! j).
Proof.
  intros st r1 r2 Hidx Ha Hfind Hpr Hshort Hopen Hq Hcost Hnone Hroom.
  destruct (ensure_default_prices_frame ts st0) as (Eacc & Ehold & Efx).
  fold st in Eacc, Ehold, Efx.
  destruct (find_price_index_Some _ _ _ Hfind) as (pr' & Hpr' & Hid).
  rewrite Hpr in Hpr'. injection Hpr' as <-. subst buf.
  pose proof (lookup_lt_Some _ _ _ Ha) as Hlt.
  set (cost := cost_in_inr_for_purchase (fx st) pr q) in *.
  set (a' := set_balance a (balance a - cost)).
  set (hnew := mkHolding (acc_no a) (asset_id pr)
                 (strncpy_unterminated 63 (after_name stack) (asset_name pr))
                 q (price pr)
                 (strncpy_unterminated 7 (after_market stack) (market pr))).
  assert (E1 : r1 = (Bought,
                     mkState (<[Z.to_nat acc_idx := a']> (accounts st0))
                             (holdings st0 ++ [hnew]) (prices st) (fx st))).
  { unfold r1.
    rewrite (buy_valid_unfold stack hour ts acc_idx (asset_id pr) (Some q) st0 pidx pr a
               Hidx Ha Hfind Hpr Hopen Hq Hcost).
    rewrite Hnone.
    destruct (Nat.leb_spec MAX_HOLDINGS (length (holdings st0))) as [Hfull | _]; [lia |].
    fold st. rewrite Eacc.
    rewrite (strncpy_unterminated_short 15) by exact Hshort. reflexivity. }
  set (st1 := mkState (<[Z.to_nat acc_idx := a']> (accounts st0))
                      (holdings st0 ++ [hnew]) (prices st) (fx st)) in *.
  assert (Hens : ensure_default_prices ts2 st1 = st1)
    by exact (ensure_default_prices_listed ts2 st1 pidx pr Hpr).
  assert (Ha1 : accounts st1 !! Z.to_nat acc_idx = Some a')
    by (apply list_lookup_insert_eq; exact Hlt).
  assert (Hh1 : find_holding_index (holdings st1) (acc_no a') (asset_id pr) =
                Some (length (holdings st0))).
  { apply find_holding_index_app_new; [exact Hnone |].
    split; reflexivity. }
  assert (Hl1 : holdings st1 !! length (holdings st0) = Some hnew)
    by (apply list_lookup_middle; reflexivity).
  assert (E2 : r2 = (Sold,
                     mkState (<[Z.to_nat acc_idx := set_balance a' (balance a' + cost)]>
                                (accounts st1))
                             (holdings st0) (prices st) (fx st))).
  { unfold r2. rewrite E1. cbn [snd].
    rewrite (sell_found_unfold ts2 acc_idx (asset_id pr) (Some q) st1 pidx pr a'
               (length (holdings st0)) hnew Hidx Ha1);
      rewrite ?Hens; try assumption.
    cbn [safe_read_double qty hnew set_qty].
    rewrite (proj2 (Qle_bool_false q 0) Hq).
    rewrite (proj2 (Qlt_bool_false q q) (Qle_refl q)). cbn [orb].
    assert (Hz : q - q <= 1 # 1000000) by lra.
    rewrite (proj2 (Qle_bool_iff _ _) Hz).
    cbn [holdings st1]. rewrite (delete_middle (holdings st0) [] hnew), app_nil_r.
    reflexivity. }
  rewrite E1, E2. cbn [fst snd holdings prices].
  split; [reflexivity |].
  split; [unfold st1; cbn [holdings]; rewrite length_app; cbn; lia |].
  repeat (split; [reflexivity |]).
  intros j Hj. cbn [accounts st1].
  rewrite !list_lookup_insert_ne by congruence. reflexivity.
Qed.

Lemma buy_then_sell_round_trip_witness :
  let st0 := aapl_state 190 (835 # 10) 50000 [] in
  let r1 := buy_asset_loggedin (mkStackJunk "?" "?" "?") 10 sample_ts 0
              (Some "AAPL"%string) (Some 2) st0 in
  let r2 := sell_asset_loggedin sample_ts 0 (Some "AAPL"%string) (Some 2) (snd r1) in
  fst r1 = Bought /\ fst r2 = Sold /\ holdings (snd r2) = holdings st0.
Proof.
  intros st0 r1 r2.
  destruct (buy_then_sell_round_trip (mkStackJunk "?" "?" "?") 10 sample_ts sample_ts 0
              "AAPL" 2 st0 0%nat
              (mkPriceRec "AAPL" "Apple Inc" 190 (2 # 100) "US" sample_ts 0 24)
              (sample_account 50000))
    as (H1 & _ & H2 & H3 & _);
    try reflexivity; try (vm_compute; discriminate);
    try (unfold MAX_HOLDINGS; cbn; lia).
  repeat split; assumption.
Defined.

(** ** What a buy and a sell do, case by case *)

(** A buy of a quantity that is zero or negative never ends "Bought" and
    changes neither cash nor the book. *)
Lemma buy_rejects_nonpositive (stack : StackJunk) (hour : Z) (ts : string)
    (acc_idx : Z) (line : option string) (num : option Q) (st0 : State) :
  let r := buy_asset_loggedin stack hour ts acc_idx line num st0 in
  safe_read_double num <= 0 ->
  fst r <> Bought /\ accounts (snd r) = accounts st0 /\ holdings (snd r) = holdings st0.
Proof.
  intros r Hq.
  assert (Hne : fst r <> Bought /\ fst r <> HoldingsLimit).
  { unfold r, buy_asset_loggedin.
    destruct (acc_idx <? 0)%Z; [split; discriminate |].
    destruct line as [buf |]; [| split; discriminate].
    destruct (find_price_index _ buf) as [pidx |]; [| split; discriminate].
    destruct (_ !! pidx) as [pr |]; [| split; discriminate].
    destruct (negb (market_is_open hour pr)); [split; discriminate |].
    rewrite (proj2 (Qle_bool_iff _ 0) Hq). split; discriminate. }
  destruct Hne as [Hb Hl]. split; [exact Hb |].
  exact (buy_failure_frame stack hour ts acc_idx line num st0 Hb Hl).
Qed.



(** X32: for a buy of [q > 0] units at catalog price [price pr] that
    passes the checks, (a) when the account has no entry for the asset and
    the book has room, the book gains one entry, at its end, with the
    buyer's number, quantity [q], average price [price pr] and the three
    texts as [strncpy] leaves them, which for an id of fewer than 15
    characters is an entry that a look-up of the pair finds; (b) when the
    account has an entry [h] with [qty h >= 0], that entry becomes quantity
    [qty h + q] at average price
    [(avg_price h * qty h + price pr * q) / (qty h + q)] and nothing else
    in the book changes; and a buy with [q <= 0] never ends "Bought" and
    leaves cash and book unchanged. *)
Theorem buy_average_cost (stack : StackJunk) (hour : Z) (ts : string) (acc_idx : Z)
    (buf : string) (num : option Q) (st0 : State) :
  let st := ensure_default_prices ts st0 in
  let q := safe_read_double num in
  let r := buy_asset_loggedin stack hour ts acc_idx (Some buf) num st0 in
  (forall (pidx : nat) (pr : PriceRec) (a : Account),
     (0 <= acc_idx)%Z ->
     accounts st0 !! Z.to_nat acc_idx = Some a ->
     find_price_index (prices st) buf = Some pidx ->
     prices st !! pidx = Some pr ->
     market_is_open hour pr = true ->
     0 < q ->
     cost_in_inr_for_purchase (fx st) pr q <= balance a ->
     (find_holding_index (holdings st0) (acc_no a) (asset_id pr) = None ->
      (length (holdings st0) < MAX_HOLDINGS)%nat ->
      fst r = Bought /\
      holdings (snd r) =
        holdings st0 ++
        [mkHolding (acc_no a)
           (strncpy_unterminated 15 (after_id stack) (asset_id pr))
           (strncpy_unterminated 63 (after_name stack) (asset_name pr))
           q (price pr)
           (strncpy_unterminated 7 (after_market stack) (market pr))] /\
      ((String.length buf < 15)%nat ->
       find_holding_index (holdings (snd r)) (acc_no a) buf =
       Some (length (holdings st0)))) /\
     (forall (hidx : nat) (h : Holding),
        find_holding_index (holdings st0) (acc_no a) (asset_id pr) = Some hidx ->
        holdings st0 !! hidx = Some h ->
        0 <= qty h ->
        let h' := mkHolding (h_acc_no h) (h_asset_id h) (h_asset_name h)
                    (qty h + q)
                    ((avg_price h * qty h + price pr * q) / (qty h + q))
                    (h_market h) in
        fst r = Bought /\
        holdings (snd r) = <[hidx := h']> (holdings st0) /\
        holdings (snd r) !! hidx = Some h' /\
        avg_price h' == (qty h * avg_price h + q * price pr) / (qty h + q))) /\
  (q <= 0 ->
   fst r <> Bought /\ accounts (snd r) = accounts st0 /\ holdings (snd r) = holdings st0).
Proof.
  intros st q r. split.
  - intros pidx pr a Hidx Ha Hfind Hpr Hopen Hq Hcost. unfold r.
    rewrite (buy_valid_unfold stack hour ts acc_idx buf num st0 pidx pr a
               Hidx Ha Hfind Hpr Hopen Hq Hcost).
    fold st. fold q. split.
    + intros Hnone Hroom. rewrite Hnone.
      destruct (Nat.leb_spec MAX_HOLDINGS (length (holdings st0))) as [Hfull | _];
        [lia |].
      split; [reflexivity |]. split; [reflexivity |].
      intros Hshort. cbn [snd holdings set_holdings].
      destruct (find_price_index_Some _ _ _ Hfind) as (pr' & Hpr' & Hid).
      rewrite Hpr in Hpr'. injection Hpr' as <-.
      rewrite Hid in Hnone |- *.
      rewrite (strncpy_unterminated_short 15) by exact Hshort.
      apply find_holding_index_app_new; [exact Hnone |]. split; reflexivity.
    + intros hidx h Hsome Hh Hnonneg. cbv zeta. rewrite Hsome, Hh.
      cbn [set_qty qty].
      assert (Hpos : 0 < qty h + q) by lra.
      rewrite (proj2 (Qlt_bool_true 0 (qty h + q)) Hpos).
      split; [reflexivity |]. split; [reflexivity |].
      split; [apply list_lookup_insert_eq; exact (lookup_lt_Some _ _ _ Hh) |].
      cbn [avg_price]. field. lra.
  - apply buy_rejects_nonpositive.
Qed.

(** The second scenario of the specification: the account holds 2 AAPL at
    190 and buys 1 more at 200; the position becomes 3 units at
    (2*190 + 1*200)/3.  A quantity of 0 is rejected. *)
Lemma buy_average_cost_witness :
  let stack := mkStackJunk "?" "?" "?" in
  let st0 := aapl_state 200 (835 # 10) 18270
               [mkHolding 1001 "AAPL" "Apple Inc" 2 190 "US"] in
  let r := buy_asset_loggedin stack 10 sample_ts 0 (Some "AAPL"%string) (Some 1) st0 in
  let r0 := buy_asset_loggedin stack 10 sample_ts 0 (Some "AAPL"%string) (Some 0) st0 in
  (fst r = Bought /\
   holdings (snd r) =
     <[0%nat := mkHolding 1001 "AAPL" "Apple Inc" (2 + 1)
                  ((190 * 2 + 200 * 1) / (2 + 1)) "US"]> (holdings st0) /\
   (190 * 2 + 200 * 1) / (2 + 1) == (2 * 190 + 1 * 200) / (2 + 1)) /\
  (fst r0 <> Bought /\ accounts (snd r0) = accounts st0 /\
   holdings (snd r0) = holdings st0).
Proof.
  intros stack st0 r r0. split.
  - destruct (proj2 (proj1 (buy_average_cost stack 10 sample_ts 0 "AAPL" (Some 1) st0)
                    0%nat
                    (mkPriceRec "AAPL" "Apple Inc" 200 (2 # 100) "US" sample_ts 0 24)
                    (sample_account 18270)
                    ltac:(lia) eq_refl eq_refl eq_refl eq_refl eq_refl
                    ltac:(vm_compute; discriminate))
             0%nat (mkHolding 1001 "AAPL" "Apple Inc" 2 190 "US") eq_refl eq_refl)
      as (H1 & H2 & _ & H3).
    + vm_compute. discriminate.
    + split; [exact H1 |]. split; [exact H2 | exact H3].
  - apply (proj2 (buy_average_cost stack 10 sample_ts 0 "AAPL" (Some 0) st0)).
    vm_compute. discriminate.
Defined.

(** X33: a sell of a listed asset by an account, case by case.  With no
    entry for the pair it ends "You do not own this asset."; with an entry
    [h] and a typed quantity [q] that is at most 0 or above [qty h] it ends
    "Invalid quantity."; in both cases cash and book are unchanged.  With
    [0 < q <= qty h] it ends "Sold": when what remains, [qty h - q], is at
    most 0.000001 (in particular when [q] is the whole quantity held) the
    entry is deleted from the book, and no entry for the pair is left if
    the book held the pair once; otherwise the entry keeps its average
    price and its quantity drops by [q].  The typed quantity is a number
    here; NaN falls in none of the three cases. *)
Theorem sell_reduces_position (ts : string) (acc_idx : Z) (buf : string)
    (num : option Q) (st0 : State) (pidx : nat) (a : Account) :
  let st := ensure_default_prices ts st0 in
  let q := safe_read_double num in
  let r := sell_asset_loggedin ts acc_idx (Some buf) num st0 in
  (0 <= acc_idx)%Z ->
  accounts st0 !! Z.to_nat acc_idx = Some a ->
  find_price_index (prices st) buf = Some pidx ->
  (find_holding_index (holdings st0) (acc_no a) buf = None ->
   fst r = NotOwned /\
   accounts (snd r) = accounts st0 /\ holdings (snd r) = holdings st0) /\
  (forall (hidx : nat) (h : Holding),
     find_holding_index (holdings st0) (acc_no a) buf = Some hidx ->
     holdings st0 !! hidx = Some h ->
     (q <= 0 \/ qty h < q ->
      fst r = InvalidQuantity /\
      accounts (snd r) = accounts st0 /\ holdings (snd r) = holdings st0) /\
     (0 < q -> q <= qty h -> qty h - q <= 1 # 1000000 ->
      fst r = Sold /\
      holdings (snd r) = delete hidx (holdings st0) /\
      ((forall j hj, holdings st0 !! j = Some hj ->
                     holding_key_is (acc_no a) buf hj -> j = hidx) ->
       find_holding_index (holdings (snd r)) (acc_no a) buf = None)) /\
     (0 < q -> q == qty h ->
      fst r = Sold /\ holdings (snd r) = delete hidx (holdings st0)) /\
     (0 < q -> q <= qty h -> 1 # 1000000 < qty h - q ->
      fst r = Sold /\
      holdings (snd r) = <[hidx := set_qty h (qty h - q)]> (holdings st0) /\
      avg_price (set_qty h (qty h - q)) = avg_price h)).
Proof.
  intros st q r Hidx Ha Hfind.
  destruct (ensure_default_prices_frame ts st0) as (Eacc & Ehold & _).
  fold st in Eacc, Ehold.
  destruct (find_price_index_Some _ _ _ Hfind) as (pr & Hpr & _).
  split.
  - intros Hnone.
    assert (Hr : r = (NotOwned, st)).
    { unfold r, sell_asset_loggedin.
      destruct (Z.ltb_spec acc_idx 0) as [Hneg | _]; [lia |].
      fold st. rewrite Hfind, Eacc, Ha, Ehold, Hnone. reflexivity. }
    rewrite Hr. cbn [fst snd]. auto.
  - intros hidx h Hhold Hh.
    pose proof (sell_found_unfold ts acc_idx buf num st0 pidx pr a hidx h
                  Hidx Ha Hfind Hpr Hhold Hh) as Hr.
    fold st in Hr. fold q in Hr. fold r in Hr. cbv zeta in Hr.
    split; [| split; [| split]].
    + intros Hbad.
      assert (Ht : Qle_bool q 0 || Qlt_bool (qty h) q = true).
      { apply orb_true_iff. destruct Hbad as [Hle | Hgt].
        - left. apply Qle_bool_iff. exact Hle.
        - right. apply Qlt_bool_true. exact Hgt. }
      rewrite Ht in Hr. rewrite Hr. cbn [fst snd]. auto.
    + intros Hq Hle Heps.
      rewrite (proj2 (Qle_bool_false q 0) Hq),
              (proj2 (Qlt_bool_false (qty h) q) Hle) in Hr.
      cbn [orb set_qty qty] in Hr.
      rewrite (proj2 (Qle_bool_iff _ _) Heps) in Hr.
      rewrite Hr. cbn [fst snd holdings].
      split; [reflexivity |]. split; [reflexivity |].
      intros Huniq. apply find_holding_index_delete; assumption.
    + intros Hq Heq.
      assert (Hle : q <= qty h) by (rewrite Heq; apply Qle_refl).
      assert (Heps : qty h - q <= 1 # 1000000) by (rewrite Heq; unfold Qle; cbn; lia).
      rewrite (proj2 (Qle_bool_false q 0) Hq),
              (proj2 (Qlt_bool_false (qty h) q) Hle) in Hr.
      cbn [orb set_qty qty] in Hr.
      rewrite (proj2 (Qle_bool_iff _ _) Heps) in Hr.
      rewrite Hr. cbn [fst snd holdings]. split; reflexivity.
    + intros Hq Hle Heps.
      rewrite (proj2 (Qle_bool_false q 0) Hq),
              (proj2 (Qlt_bool_false (qty h) q) Hle) in Hr.
      cbn [orb set_qty qty] in Hr.
      rewrite (proj2 (Qle_bool_false _ _) Heps) in Hr.
      rewrite Hr. cbn [fst snd holdings]. repeat split.
Qed.

(** The third scenario of the specification: the account sells all 3 AAPL
    it holds; the position is removed from the book. *)
Lemma sell_reduces_position_witness :
  let st0 := aapl_state 210 84 0 [mkHolding 1001 "AAPL" "Apple Inc" 3 190 "US"] in
  let r := sell_asset_loggedin sample_ts 0 (Some "AAPL"%string) (Some 3) st0 in
  fst r = Sold /\
  holdings (snd r) = delete 0%nat (holdings st0) /\
  find_holding_index (holdings (snd r)) 1001 "AAPL" = None.
Proof.
  intros st0 r.
  destruct (proj2 (sell_reduces_position sample_ts 0 "AAPL" (Some 3) st0 0%nat
                     (sample_account 0) ltac:(lia) eq_refl eq_refl)
              0%nat (mkHolding 1001 "AAPL" "Apple Inc" 3 190 "US") eq_refl eq_refl)
    as (_ & Hfull & _ & _).
  destruct Hfull as (Hs & Hd & Hn);
    [reflexivity | vm_compute; discriminate | vm_compute; discriminate |].
  split; [exact Hs |]. split; [exact Hd |].
  apply Hn. intros [| j] hj Hj _; [reflexivity | discriminate Hj].
Defined.

(** * Further properties of the price ticks *)

Section TickShape.

Variable RAND_MAX : Z.

Lemma tick_one_same_listing (hour : Z) (ts : string) (p : PriceRec) (g : Rng) :
  same_listing p (fst (tick_one RAND_MAX hour ts p g)).
Proof.
  unfold tick_one, clamp_price.
  destruct (market_is_open hour p); [| repeat split].
  destruct (rand_minus1_1 RAND_MAX g) as [r g']. cbn [fst].
  destruct (Qlt_bool _ _); repeat split.
Qed.

Lemma randomize_one_same_listing (ts : string) (p : PriceRec) (g : Rng) :
  same_listing p (fst (randomize_one RAND_MAX ts p g)).
Proof.
  unfold randomize_one, clamp_price.
  destruct (rand_minus1_1 RAND_MAX g) as [r g']. cbn [fst].
  destruct (Qlt_bool _ _); repeat split.
Qed.

Lemma find_price_index_same_listing (ps ps' : list PriceRec) (id : string) :
  Forall2 same_listing ps ps' ->
  find_price_index ps' id = find_price_index ps id.
Proof.
  induction 1 as [| p p' ps ps' Hp _ IH]; [reflexivity |].
  cbn [find_price_index]. destruct Hp as (-> & _). rewrite IH. reflexivity.
Qed.

Lemma market_is_open_same_listing (hour : Z) (p p' : PriceRec) :
  same_listing p p' -> market_is_open hour p' = market_is_open hour p.
Proof.
  intros (_ & _ & _ & _ & Ho & Hc). unfold market_is_open. rewrite Ho, Hc. reflexivity.
Qed.

Lemma rand_minus1_1_cursor (g : Rng) :
  draws (snd (rand_minus1_1 RAND_MAX g)) = draws g /\
  cursor (snd (rand_minus1_1 RAND_MAX g)) = S (cursor g).
Proof. split; reflexivity. Qed.

(** The loop of [tick_market_once], with the generator followed: every
    record is the loop body applied at a generator state that draws from
    the same stream, and the cursor moves by one per open record. *)
Lemma tick_prices_trace (hour : Z) (ts : string) (ps : list PriceRec) :
  forall g,
    Forall2 (fun p p' => exists gi, draws gi = draws g /\
                                    p' = fst (tick_one RAND_MAX hour ts p gi))
            ps (fst (tick_prices RAND_MAX hour ts ps g)) /\
    draws (snd (tick_prices RAND_MAX hour ts ps g)) = draws g /\
    cursor (snd (tick_prices RAND_MAX hour ts ps g)) =
      (cursor g + count_open hour ps)%nat.
Proof.
  induction ps as [| p ps IH]; intros g; cbn [tick_prices].
  - split; [constructor |]. split; [reflexivity |]. unfold count_open. cbn. lia.
  - assert (H1 : draws (snd (tick_one RAND_MAX hour ts p g)) = draws g /\
                 cursor (snd (tick_one RAND_MAX hour ts p g)) =
                   (cursor g + if market_is_open hour p then 1 else 0)%nat).
    { unfold tick_one. destruct (market_is_open hour p); cbn; split;
        first [reflexivity | lia]. }
    destruct (tick_one RAND_MAX hour ts p g) as [p' g1] eqn:E1.
    cbn [snd] in H1. destruct H1 as [Hd1 Hc1].
    destruct (IH g1) as (HF & Hd & Hc).
    destruct (tick_prices RAND_MAX hour ts ps g1) as [rest g2].
    cbn [fst snd] in *. split; [| split].
    + constructor.
      * exists g. split; [reflexivity |]. rewrite E1. reflexivity.
      * eapply Forall2_impl; [exact HF |].
        intros x y (gi & Hgi & ->). exists gi. split; [congruence | reflexivity].
    + congruence.
    + rewrite Hc, Hc1. unfold count_open. cbn [List.filter].
      destruct (market_is_open hour p); cbn [length]; lia.
Qed.

Lemma randomize_prices_trace (ts : string) (ps : list PriceRec) :
  forall g,
    Forall2 (fun p p' => exists gi, draws gi = draws g /\
                                    p' = fst (randomize_one RAND_MAX ts p gi))
            ps (fst (randomize_prices RAND_MAX ts ps g)) /\
    draws (snd (randomize_prices RAND_MAX ts ps g)) = draws g /\
    cursor (snd (randomize_prices RAND_MAX ts ps g)) = (cursor g + length ps)%nat.
Proof.
  induction ps as [| p ps IH]; intros g; cbn [randomize_prices].
  - split; [constructor |]. split; [reflexivity |]. cbn. lia.
  - assert (H1 : draws (snd (randomize_one RAND_MAX ts p g)) = draws g /\
                 cursor (snd (randomize_one RAND_MAX ts p g)) = S (cursor g)).
    { split; reflexivity. }
    destruct (randomize_one RAND_MAX ts p g) as [p' g1] eqn:E1.
    cbn [snd] in H1. destruct H1 as [Hd1 Hc1].
    destruct (IH g1) as (HF & Hd & Hc).
    destruct (randomize_prices RAND_MAX ts ps g1) as [rest g2].
    cbn [fst snd] in *. split; [| split].
    + constructor.
      * exists g. split; [reflexivity |]. rewrite E1. reflexivity.
      * eapply Forall2_impl; [exact HF |].
        intros x y (gi & Hgi & ->). exists gi. split; [congruence | reflexivity].
    + congruence.
    + rewrite Hc, Hc1. cbn [length]. lia.
Qed.

End TickShape.

(** X10: neither tick changes which assets are listed: the catalog keeps
    its length and order, every record keeps its id, name, volatility,
    market and trading hours, so every lookup by id finds the same index
    and every market is open at the same hours as before; accounts, book
    and FX rates are not touched. *)
Theorem ticks_keep_listing (RAND_MAX hour : Z) (ts : string) (st : State) (g : Rng) :
  let st1 := fst (tick_market_once RAND_MAX hour ts st g) in
  let st2 := fst (admin_randomize_all_prices RAND_MAX ts st g) in
  Forall2 same_listing (prices st) (prices st1) /\
  Forall2 same_listing (prices st) (prices st2) /\
  (forall id, find_price_index (prices st1) id = find_price_index (prices st) id /\
              find_price_index (prices st2) id = find_price_index (prices st) id) /\
  (accounts st1, holdings st1, fx st1) = (accounts st, holdings st, fx st) /\
  (accounts st2, holdings st2, fx st2) = (accounts st, holdings st, fx st).
Proof.
  intros st1 st2.
  assert (H1 : Forall2 same_listing (prices st) (prices st1)).
  { unfold st1. rewrite prices_tick_market_once.
    eapply Forall2_impl; [apply tick_prices_pointwise |].
    intros p p' [gi ->]. apply tick_one_same_listing. }
  assert (H2 : Forall2 same_listing (prices st) (prices st2)).
  { unfold st2. rewrite prices_admin_randomize.
    eapply Forall2_impl; [apply randomize_prices_pointwise |].
    intros p p' [gi ->]. apply randomize_one_same_listing. }
  split; [exact H1 |]. split; [exact H2 |]. split.
  - intros id. split; apply find_price_index_same_listing; assumption.
  - unfold st1, st2, tick_market_once, admin_randomize_all_prices.
    destruct (tick_prices RAND_MAX hour ts (prices st) g).
    destruct (randomize_prices RAND_MAX ts (prices st) g).
    split; reflexivity.
Qed.

(** X11: the ordinary tick takes one draw per asset whose market is open
    and none for the closed ones; the administrative tick takes one draw
    per asset of the catalog.  Both read the stream in order from the
    cursor and leave the stream itself as it is. *)
Theorem ticks_consume_draws (RAND_MAX hour : Z) (ts : string) (st : State) (g : Rng) :
  let g1 := snd (tick_market_once RAND_MAX hour ts st g) in
  let g2 := snd (admin_randomize_all_prices RAND_MAX ts st g) in
  cursor g1 = (cursor g + count_open hour (prices st))%nat /\ draws g1 = draws g /\
  cursor g2 = (cursor g + length (prices st))%nat /\ draws g2 = draws g.
Proof.
  intros g1 g2.
  destruct (tick_prices_trace RAND_MAX hour ts (prices st) g) as (_ & Hd1 & Hc1).
  destruct (randomize_prices_trace RAND_MAX ts (prices st) g) as (_ & Hd2 & Hc2).
  unfold g1, g2, tick_market_once, admin_randomize_all_prices.
  destruct (tick_prices RAND_MAX hour ts (prices st) g).
  destruct (randomize_prices RAND_MAX ts (prices st) g).
  cbn [snd] in *. auto.
Qed.

Lemma scaled_move_bounds (x v r : Q) :
  0 <= x -> 0 <= v -> - (1) <= r <= 1 ->
  x * (1 - v) <= x * (1 + r * v) <= x * (1 + v).
Proof.
  intros Hx Hv [Hlo Hhi].
  assert (H1 : 0 <= (1 - r) * v) by (apply Qmult_le_0_compat; lra).
  assert (H2 : 0 <= (r + 1) * v) by (apply Qmult_le_0_compat; lra).
  assert (H3 : 0 <= x * ((1 - r) * v)) by (apply Qmult_le_0_compat; assumption).
  assert (H4 : 0 <= x * ((r + 1) * v)) by (apply Qmult_le_0_compat; assumption).
  assert (E1 : x * (1 + r * v) == x * (1 - v) + x * ((r + 1) * v)) by ring.
  assert (E2 : x * (1 + v) == x * (1 + r * v) + x * ((1 - r) * v)) by ring.
  split.
  - rewrite E1. apply (Qle_trans _ (x * (1 - v) + 0)); [rewrite Qplus_0_r; apply Qle_refl |].
    apply Qplus_le_r. exact H4.
  - rewrite E2. apply (Qle_trans _ (x * (1 + r * v) + 0)); [rewrite Qplus_0_r; apply Qle_refl |].
    apply Qplus_le_r. exact H3.
Qed.

(** X12: with draws in the range of [rand()] (0 to [RAND_MAX], [RAND_MAX]
    positive), one ordinary tick moves the price of an open asset with
    non-negative price and volatility by at most the fraction [vol] either
    way, and one administrative tick moves any such asset by at most
    [5 * vol]; the only exception upwards is a price lifted to the floor
    0.0001. *)
Theorem tick_move_bounded (RAND_MAX hour : Z) (ts : string) (st : State) (g : Rng) :
  (0 < RAND_MAX)%Z ->
  (forall n, (0 <= draws g n <= RAND_MAX)%Z) ->
  Forall2 (fun p p' =>
             market_is_open hour p = true -> 0 <= vol p -> 0 <= price p ->
             price p * (1 - vol p) <= price p' /\
             (price p' <= price p * (1 + vol p) \/ price p' = 1 # 10000))
          (prices st) (prices (fst (tick_market_once RAND_MAX hour ts st g))) /\
  Forall2 (fun p p' =>
             0 <= vol p -> 0 <= price p ->
             price p * (1 - 5 * vol p) <= price p' /\
             (price p' <= price p * (1 + 5 * vol p) \/ price p' = 1 # 10000))
          (prices st) (prices (fst (admin_randomize_all_prices RAND_MAX ts st g))).
Proof.
  intros Hmax Hdraws.
  rewrite prices_tick_market_once, prices_admin_randomize. split.
  - eapply Forall2_impl;
      [exact (proj1 (tick_prices_trace RAND_MAX hour ts (prices st) g)) |].
    intros p p' (gi & Hgi & ->) Hopen Hv Hx.
    pose proof (rand_minus1_1_range RAND_MAX gi Hmax) as Hr.
    rewrite Hgi in Hr. specialize (Hr (Hdraws _)).
    unfold tick_one. rewrite Hopen.
    destruct (rand_minus1_1 RAND_MAX gi) as [r g']. cbn [fst] in *.
    cbn [price set_last_update]. rewrite clamp_price_cases. cbn [price set_price].
    pose proof (scaled_move_bounds (price p) (vol p) r Hx Hv Hr) as [Hlo Hhi].
    destruct (Qlt_bool (price p * (1 + r * vol p)) (1 # 10000)) eqn:E.
    + apply Qlt_bool_true in E. split; [lra | right; reflexivity].
    + split; [exact Hlo | left; exact Hhi].
  - eapply Forall2_impl;
      [exact (proj1 (randomize_prices_trace RAND_MAX ts (prices st) g)) |].
    intros p p' (gi & Hgi & ->) Hv Hx.
    pose proof (rand_minus1_1_range RAND_MAX gi Hmax) as Hr.
    rewrite Hgi in Hr. specialize (Hr (Hdraws _)).
    unfold randomize_one.
    destruct (rand_minus1_1 RAND_MAX gi) as [r g']. cbn [fst] in *.
    cbn [price set_last_update]. rewrite clamp_price_cases. cbn [price set_price].
    assert (Hv5 : 0 <= 5 * vol p) by lra.
    pose proof (scaled_move_bounds (price p) (5 * vol p) r Hx Hv5 Hr) as [Hlo Hhi].
    assert (Ex : price p * (1 + r * vol p * 5) == price p * (1 + r * (5 * vol p)))
      by ring.
    destruct (Qlt_bool (price p * (1 + r * vol p * 5)) (1 # 10000)) eqn:E.
    + apply Qlt_bool_true in E. split; [lra | right; reflexivity].
    + split; [lra | left; lra].
Qed.

Lemma tick_move_bounded_witness :
  Forall2 (fun p p' =>
             market_is_open 10 p = true -> 0 <= vol p -> 0 <= price p ->
             price p * (1 - vol p) <= price p' /\
             (price p' <= price p * (1 + vol p) \/ price p' = 1 # 10000))
          (prices one_stock_state)
          (prices (fst (tick_market_once 32767 10 sample_ts one_stock_state
                          (constant_rng 0)))).
Proof.
  apply (proj1 (tick_move_bounded 32767 10 sample_ts one_stock_state (constant_rng 0)
                  ltac:(lia) ltac:(intros n; cbn; lia))).
Defined.

(** * Further properties of market hours and valuation *)

(** X13: a window whose two hours are equal is never open, and for two
    different hours the window from [b] to [a] is open exactly when the
    window from [a] to [b] is closed: the overnight window is the
    complement of the daytime one. *)
Theorem market_window_complement (hour : Z) (p p' : PriceRec) :
  (open_hour p = close_hour p -> market_is_open hour p = false) /\
  (open_hour p' = close_hour p -> close_hour p' = open_hour p ->
   open_hour p <> close_hour p ->
   market_is_open hour p' = negb (market_is_open hour p)).
Proof.
  unfold market_is_open. split.
  - intros ->. rewrite Z.leb_refl.
    destruct (Z.geb_spec hour (close_hour p)), (Z.ltb_spec hour (close_hour p));
      try reflexivity; lia.
  - intros -> -> Hne.
    destruct (Z.leb_spec (open_hour p) (close_hour p)),
             (Z.leb_spec (close_hour p) (open_hour p)),
             (Z.geb_spec hour (open_hour p)), (Z.ltb_spec hour (close_hour p)),
             (Z.geb_spec hour (close_hour p)), (Z.ltb_spec hour (open_hour p));
      try reflexivity; lia.
Qed.

Lemma market_window_complement_witness :
  market_is_open 23 (mkPriceRec "N" "Night" 10 (1 # 100) "US" "" 15 9) =
  negb (market_is_open 23 (mkPriceRec "D" "Day" 10 (1 # 100) "US" "" 9 15)).
Proof.
  apply (proj2 (market_window_complement 23
                  (mkPriceRec "D" "Day" 10 (1 # 100) "US" "" 9 15)
                  (mkPriceRec "N" "Night" 10 (1 # 100) "US" "" 15 9)));
    [reflexivity | reflexivity | cbn; lia].
Defined.

Lemma pl_value_sum (st : State) (acc : Z) (hs : list Holding) :
  fold_left
    (fun pl h =>
       if negb (h_acc_no h =? acc)%Z then pl else pl + holding_pl_inr st h) hs 0 ==
  Qsum (map (fun h => if (h_acc_no h =? acc)%Z then holding_pl_inr st h else 0) hs).
Proof.
  induction hs as [| h hs IH]; [reflexivity |].
  cbn [fold_left map Qsum]. rewrite pl_fold_shift, IH.
  destruct (h_acc_no h =? acc)%Z; cbn [negb]; ring.
Qed.

Lemma Qsum_map_filter_zero {A : Type} (f : A -> Q) (keep : A -> bool) (l : list A) :
  (forall x, keep x = false -> f x == 0) ->
  Qsum (map f (List.filter keep l)) == Qsum (map f l).
Proof.
  intros Hz. induction l as [| x l IH]; [reflexivity |].
  cbn [List.filter]. destruct (keep x) eqn:E; cbn [map Qsum].
  - rewrite IH. reflexivity.
  - rewrite IH, (Hz x E). ring.
Qed.

(** X14: the portfolio value and the unrealized P&L of an account depend
    on that account's entries only: computed on the whole book or on the
    book with every other account's entries taken out, they are the same;
    in particular both are 0 for an account with no entry. *)
Theorem valuation_ignores_other_accounts (st : State) (acc : Z) :
  let own := List.filter (fun h => (h_acc_no h =? acc)%Z) (holdings st) in
  compute_portfolio_value_inr (set_holdings st own) acc ==
    compute_portfolio_value_inr st acc /\
  compute_unrealized_pl_inr (set_holdings st own) acc ==
    compute_unrealized_pl_inr st acc /\
  (own = [] ->
   compute_portfolio_value_inr st acc == 0 /\ compute_unrealized_pl_inr st acc == 0).
Proof.
  intros own.
  assert (Hv : compute_portfolio_value_inr (set_holdings st own) acc ==
               compute_portfolio_value_inr st acc).
  { rewrite !portfolio_value_sum. cbn [holdings set_holdings].
    rewrite (position_terms_ext _ st) by reflexivity.
    apply Qsum_map_filter_zero. intros h E. unfold position_term. rewrite E. reflexivity. }
  assert (Hp : compute_unrealized_pl_inr (set_holdings st own) acc ==
               compute_unrealized_pl_inr st acc).
  { rewrite unrealized_pl_set_holdings. unfold compute_unrealized_pl_inr.
    rewrite !pl_value_sum.
    apply (Qsum_map_filter_zero
             (fun h => if (h_acc_no h =? acc)%Z then holding_pl_inr st h else 0)).
    intros h E. rewrite E. reflexivity. }
  split; [exact Hv |]. split; [exact Hp |].
  intros Hnil. rewrite <- Hv, <- Hp, Hnil. split; reflexivity.
Qed.

Lemma valuation_ignores_other_accounts_witness :
  compute_portfolio_value_inr infy_holder_state 2002 == 0 /\
  compute_unrealized_pl_inr infy_holder_state 2002 == 0.
Proof.
  apply (proj2 (proj2 (valuation_ignores_other_accounts infy_holder_state 2002))).
  reflexivity.
Defined.

(** * Properties of the account code *)

(** ** Finders and account numbers *)

Lemma find_account_index_Some (accs : list Account) (n : Z) :
  forall i, find_account_index accs n = Some i ->
            exists a, accs !! i = Some a /\ acc_no a = n.
Proof.
  induction accs as [| a accs IH]; intros i; cbn [find_account_index].
  - discriminate.
  - destruct (Z.eqb_spec (acc_no a) n) as [E | _].
    + intros [= <-]. exists a. split; [reflexivity | exact E].
    + destruct (find_account_index accs n) as [j |]; [| discriminate].
      intros [= <-]. exact (IH j eq_refl).
Qed.

Lemma find_account_index_None (accs : list Account) (n : Z) :
  find_account_index accs n = None <-> Forall (fun a => acc_no a <> n) accs.
Proof.
  induction accs as [| a accs IH]; cbn [find_account_index].
  - split; [constructor | reflexivity].
  - destruct (Z.eqb_spec (acc_no a) n) as [E | Hne].
    + split; [discriminate |]. intros HF. inversion HF; subst. contradiction.
    + split.
      * intros Hf. constructor; [exact Hne |]. apply IH.
        destruct (find_account_index accs n); [discriminate | reflexivity].
      * intros HF. inversion HF as [| ? ? _ Hrest]; subst.
        apply IH in Hrest. rewrite Hrest. reflexivity.
Qed.

(** The finder sees account numbers only: a record replaced by one with the
    same number is found at the same place. *)
Lemma find_account_index_insert (accs : list Account) (n : Z) (i : nat)
    (a a' : Account) :
  accs !! i = Some a -> acc_no a' = acc_no a ->
  find_account_index (<[i := a']> accs) n = find_account_index accs n.
Proof.
  revert i. induction accs as [| b accs IH]; intros [| i] Hi Hno; try discriminate.
  - injection Hi as ->. cbn. rewrite Hno. reflexivity.
  - cbn in Hi. change (<[S i := a']> (b :: accs)) with (b :: <[i := a']> accs).
    cbn [find_account_index]. rewrite (IH i Hi Hno). reflexivity.
Qed.

Lemma running_max_bounds (accs : list Account) :
  forall m,
    (m <= fold_left (fun max a => if (max <? acc_no a)%Z then acc_no a else max) accs m)%Z /\
    Forall (fun a =>
              (acc_no a <=
               fold_left (fun max a => if (max <? acc_no a)%Z then acc_no a else max)
                         accs m)%Z) accs.
Proof.
  induction accs as [| a accs IH]; intros m; cbn [fold_left].
  - split; [lia | constructor].
  - destruct (IH (if (m <? acc_no a)%Z then acc_no a else m)) as [Hm HF].
    destruct (Z.ltb_spec m (acc_no a)); (split; [lia |]); constructor;
      first [lia | exact HF].
Qed.

Lemma wrap_int_in_range (z : Z) :
  (- 2147483648 <= z <= INT_MAX)%Z -> wrap_int z = z.
Proof.
  unfold wrap_int, INT_MAX. intros H. rewrite Z.mod_small by lia. lia.
Qed.

Lemma running_max_below (accs : list Account) (b : Z) :
  Forall (fun a => (acc_no a <= b)%Z) accs ->
  forall m, (m <= b)%Z ->
            (fold_left (fun max a => if (max <? acc_no a)%Z then acc_no a else max) accs m
             <= b)%Z.
Proof.
  induction 1 as [| a accs Ha _ IH]; intros m Hm; cbn [fold_left]; [exact Hm |].
  apply IH. destruct (m <? acc_no a)%Z; assumption.
Qed.

(** While no account carries the number [INT_MAX], the addition in
    [next_account_no] stays within [int]. *)
Lemma next_account_no_exact (accs : list Account) :
  Forall (fun a => (acc_no a < INT_MAX)%Z) accs ->
  next_account_no accs =
  (fold_left (fun max a => if (max <? acc_no a)%Z then acc_no a else max) accs 1000 + 1)%Z.
Proof.
  intros Hlt. unfold next_account_no. apply wrap_int_in_range.
  pose proof (proj1 (running_max_bounds accs 1000)) as Hlo.
  assert (Hhi : (fold_left (fun max a => if (max <? acc_no a)%Z then acc_no a else max)
                           accs 1000 <= INT_MAX - 1)%Z).
  { apply running_max_below; [| unfold INT_MAX; lia].
    eapply Forall_impl; [exact Hlt |]. cbn. intros a Ha. lia. }
  unfold INT_MAX in *. lia.
Qed.

Lemma next_account_no_above (accs : list Account) :
  Forall (fun a => (acc_no a < INT_MAX)%Z) accs ->
  (1001 <= next_account_no accs <= INT_MAX)%Z /\
  Forall (fun a => (acc_no a < next_account_no accs)%Z) accs.
Proof.
  intros Hlt. rewrite (next_account_no_exact accs Hlt).
  destruct (running_max_bounds accs 1000) as [Hm HF].
  assert (Hhi : (fold_left (fun max a => if (max <? acc_no a)%Z then acc_no a else max)
                           accs 1000 <= INT_MAX - 1)%Z).
  { apply running_max_below; [| unfold INT_MAX; lia].
    eapply Forall_impl; [exact Hlt |]. cbn. intros a Ha. lia. }
  split; [lia |].
  eapply Forall_impl; [exact HF |]. cbn. intros a Ha. lia.
Qed.

Lemma next_account_no_not_found (accs : list Account) :
  Forall (fun a => (acc_no a < INT_MAX)%Z) accs ->
  find_account_index accs (next_account_no accs) = None.
Proof.
  intros Hlt. apply find_account_index_None.
  eapply Forall_impl; [exact (proj2 (next_account_no_above accs Hlt)) |].
  cbn. intros a Ha. lia.
Qed.

(** With the largest [int] in use the addition wraps. *)
Lemma next_account_no_wraps :
  next_account_no [mkAccount INT_MAX "" "" 0 0 0 1 0 0 "" ""] = (- 2147483648)%Z.
Proof. reflexivity. Qed.

(** X15: while no account carries the largest [int], 2147483647, the
    number [next_account_no] hands out is an [int] of at least 1001,
    larger than every number in use, and therefore not found among the
    accounts.  (With that number in use the addition [max + 1] leaves the
    range of [int].) *)
Theorem next_account_no_fresh (accs : list Account) :
  Forall (fun a => (acc_no a < INT_MAX)%Z) accs ->
  (1001 <= next_account_no accs <= INT_MAX)%Z /\
  Forall (fun a => (acc_no a < next_account_no accs)%Z) accs /\
  find_account_index accs (next_account_no accs) = None.
Proof.
  intros Hlt.
  destruct (next_account_no_above accs Hlt) as [H1 H2].
  split; [exact H1 |]. split; [exact H2 | apply next_account_no_not_found; exact Hlt].
Qed.

Lemma next_account_no_fresh_witness :
  next_account_no (accounts team_state) = 1004%Z /\
  find_account_index (accounts team_state) (next_account_no (accounts team_state)) = None.
Proof.
  split; [reflexivity |].
  apply (next_account_no_fresh (accounts team_state)).
  unfold INT_MAX. cbn. repeat constructor.
Defined.

(** ** Authentication *)

(** What [authenticate_prompt] can do to the state: nothing, or replace one
    account record by one that differs in [failed_attempts], [frozen] and
    [last_login] only. *)
Lemma authenticate_cases (ts : string) (acc_in pin_in : option Z) (st : State) :
  let r := authenticate_prompt ts acc_in pin_in st in
  snd r = st \/
  exists idx a a',
    accounts st !! idx = Some a /\ same_identity_and_cash a a' /\
    snd r = set_accounts st (<[idx := a']> (accounts st)).
Proof.
  unfold authenticate_prompt.
  destruct acc_in as [n |]; [| left; reflexivity].
  destruct (find_account_index (accounts st) n) as [idx |]; [| left; reflexivity].
  destruct (accounts st !! idx) as [a |] eqn:Ha; [| left; reflexivity].
  destruct (negb (is_true (active a))); [left; reflexivity |].
  destruct (is_true (frozen a)); [left; reflexivity |].
  destruct pin_in as [p |]; [| left; reflexivity].
  destruct (pin a =? p)%Z; [| destruct (_ >=? 3)%Z];
    right; eexists idx, a, _; (split; [exact Ha |]);
    (split; [| reflexivity]); repeat split.
Qed.

Lemma balances_insert_same (accs : list Account) (i : nat) (a a' : Account) :
  accs !! i = Some a -> balance a' = balance a ->
  map balance (<[i := a']> accs) = map balance accs.
Proof.
  revert i. induction accs as [| b accs IH]; intros [| i] Hi Hb; try discriminate.
  - injection Hi as ->. cbn. rewrite Hb. reflexivity.
  - cbn in Hi. change (<[S i := a']> (b :: accs)) with (b :: <[i := a']> accs).
    cbn [map]. rewrite (IH i Hi Hb). reflexivity.
Qed.

(** X16: a login attempt never moves money and never alters identities:
    whatever is typed, [authenticate_prompt] leaves the book, the catalog
    and the FX rates as they are, keeps the number of accounts, and every
    account keeps its number, name, type, PIN, cash, loan, active flag and
    UPI. *)
Theorem authenticate_keeps_cash (ts : string) (acc_in pin_in : option Z) (st : State) :
  let st' := snd (authenticate_prompt ts acc_in pin_in st) in
  holdings st' = holdings st /\ prices st' = prices st /\ fx st' = fx st /\
  Forall2 same_identity_and_cash (accounts st) (accounts st').
Proof.
  intros st'.
  assert (Hrefl : forall l, Forall2 same_identity_and_cash l l).
  { intros l. apply Forall_Forall2_diag, Forall_forall. intros a _. repeat split. }
  destruct (authenticate_cases ts acc_in pin_in st) as [E | (idx & a & a' & Ha & Hs & E)];
    fold st' in E; rewrite E.
  - repeat split. apply Hrefl.
  - repeat split. cbn [accounts set_accounts].
    rewrite <- (list_insert_id _ _ _ Ha) at 1.
    apply Forall2_insert; [apply Hrefl | exact Hs].
Qed.

(** X17: [authenticate_prompt] lets in exactly the account it should: it
    returns index [idx] if and only if an account number and a PIN were
    typed, [idx] is the first account with that number, that account is
    active and not frozen, and the PIN is its PIN; the account then has
    its failed-attempt counter back at 0. *)
Theorem authenticate_success_iff (ts : string) (acc_in pin_in : option Z) (st : State)
    (idx : nat) :
  let r := authenticate_prompt ts acc_in pin_in st in
  (fst r = Some idx <->
   exists n p a,
     acc_in = Some n /\ pin_in = Some p /\
     find_account_index (accounts st) n = Some idx /\
     accounts st !! idx = Some a /\
     is_true (active a) = true /\ is_true (frozen a) = false /\ pin a = p) /\
  (fst r = Some idx ->
   exists a', accounts (snd r) !! idx = Some a' /\ failed_attempts a' = 0%Z /\
              last_login a' = ts).
Proof.
  unfold authenticate_prompt.
  destruct acc_in as [n |];
    [| split; [split; [discriminate | intros (? & ? & ? & [=] & _)] | discriminate]].
  destruct (find_account_index (accounts st) n) as [i |] eqn:Hf;
    [| split; [split; [discriminate | intros (? & ? & ? & [= <-] & _ & Hf' & _);
                                         congruence] | discriminate]].
  destruct (accounts st !! i) as [a |] eqn:Ha;
    [| split; [split; [discriminate |
                       intros (? & ? & ? & [= <-] & _ & Hf' & Ha' & _);
                       rewrite Hf in Hf'; injection Hf' as <-; congruence] |
               discriminate]].
  pose proof (lookup_lt_Some _ _ _ Ha) as Hlt.
  destruct (is_true (active a)) eqn:Hact; cbn [negb];
    [| split; [split; [discriminate |
                       intros (? & ? & a0 & [= <-] & _ & Hf' & Ha' & Hact' & _);
                       rewrite Hf in Hf'; injection Hf' as <-;
                       rewrite Ha in Ha'; injection Ha' as <-; congruence] |
               discriminate]].
  destruct (is_true (frozen a)) eqn:Hfr;
    [split; [split; [discriminate |
                     intros (? & ? & a0 & [= <-] & _ & Hf' & Ha' & _ & Hfr' & _);
                     rewrite Hf in Hf'; injection Hf' as <-;
                     rewrite Ha in Ha'; injection Ha' as <-; congruence] |
             discriminate] |].
  destruct pin_in as [p |];
    [| split; [split; [discriminate | intros (? & ? & ? & _ & [=] & _)] | discriminate]].
  destruct (Z.eqb_spec (pin a) p) as [Hp | Hp].
  - cbn [fst snd]. split; [split |].
    + intros [= <-]. exists n, p, a. repeat split; assumption.
    + intros (? & ? & ? & [= <-] & _ & Hf' & _). congruence.
    + intros [= <-]. eexists. cbn [accounts set_accounts].
      split; [apply list_lookup_insert_eq; exact Hlt |]. split; reflexivity.
  - assert (Hno : forall s, fst (None : option nat, s : State) = Some idx <->
                            exists n0 p0 a0,
                              Some n = Some n0 /\ Some p = Some p0 /\
                              find_account_index (accounts st) n0 = Some idx /\
                              accounts st !! idx = Some a0 /\
                              is_true (active a0) = true /\
                              is_true (frozen a0) = false /\ pin a0 = p0).
    { intros s. split; [discriminate |].
      intros (? & ? & a0 & [= <-] & [= <-] & Hf' & Ha' & _ & _ & Hp').
      rewrite Hf in Hf'. injection Hf' as <-.
      rewrite Ha in Ha'. injection Ha' as <-. contradiction. }
    destruct (_ >=? 3)%Z; (split; [apply Hno | discriminate]).
Qed.

Lemma authenticate_success_iff_witness :
  fst (authenticate_prompt sample_ts (Some 1002%Z) (Some 2345%Z) team_state) = Some 1%nat /\
  exists a', accounts (snd (authenticate_prompt sample_ts (Some 1002%Z) (Some 2345%Z)
                              team_state)) !! 1%nat = Some a' /\
             failed_attempts a' = 0%Z /\ last_login a' = sample_ts.
Proof.
  pose proof (authenticate_success_iff sample_ts (Some 1002%Z) (Some 2345%Z)
                team_state 1%nat) as [Hiff Hpost].
  assert (Hok : fst (authenticate_prompt sample_ts (Some 1002%Z) (Some 2345%Z)
                       team_state) = Some 1%nat).
  { apply Hiff. eexists 1002%Z, 2345%Z, _. repeat split; reflexivity. }
  split; [exact Hok | exact (Hpost Hok)].
Defined.

(** One failed attempt on an account that is active and not frozen. *)
Lemma authenticate_wrong_pin (ts : string) (n p : Z) (st : State) (idx : nat)
    (a : Account) :
  find_account_index (accounts st) n = Some idx ->
  accounts st !! idx = Some a ->
  is_true (active a) = true -> is_true (frozen a) = false -> pin a <> p ->
  authenticate_prompt ts (Some n) (Some p) st =
  (None,
   set_accounts st
     (<[idx := if (failed_attempts a + 1 >=? 3)%Z
               then set_frozen (set_failed_attempts a (failed_attempts a + 1)) 1
               else set_failed_attempts a (failed_attempts a + 1)]> (accounts st))).
Proof.
  intros Hf Ha Hact Hfr Hp. unfold authenticate_prompt.
  rewrite Hf, Ha, Hact, Hfr. cbn [negb].
  destruct (Z.eqb_spec (pin a) p) as [E | _]; [contradiction |].
  cbn [failed_attempts set_failed_attempts].
  destruct (_ >=? 3)%Z; reflexivity.
Qed.

(** X18: three wrong PINs in a row lock an account and only the
    administrator unlocks it.  Starting from an active, unfrozen account
    with no failed attempt: each of three attempts with a wrong PIN is
    refused, after the third the account is frozen, the right PIN is then
    refused too without any further change, and once the administrator has
    unfrozen the account the right PIN is accepted.  The cash of the
    account is the same throughout. *)
Theorem three_strikes_then_unfreeze (ts : string) (n p1 p2 p3 : Z) (st : State)
    (idx : nat) (a : Account) :
  find_account_index (accounts st) n = Some idx ->
  accounts st !! idx = Some a ->
  is_true (active a) = true -> frozen a = 0%Z -> failed_attempts a = 0%Z ->
  pin a <> p1 -> pin a <> p2 -> pin a <> p3 ->
  let r1 := authenticate_prompt ts (Some n) (Some p1) st in
  let r2 := authenticate_prompt ts (Some n) (Some p2) (snd r1) in
  let r3 := authenticate_prompt ts (Some n) (Some p3) (snd r2) in
  let r4 := authenticate_prompt ts (Some n) (Some (pin a)) (snd r3) in
  let u := admin_menu_unfreeze (Some n) (snd r3) in
  let r5 := authenticate_prompt ts (Some n) (Some (pin a)) (snd u) in
  fst r1 = None /\ fst r2 = None /\ fst r3 = None /\
  (exists a2, accounts (snd r2) !! idx = Some a2 /\ frozen a2 = 0%Z) /\
  (exists a3, accounts (snd r3) !! idx = Some a3 /\ frozen a3 = 1%Z /\
              balance a3 = balance a) /\
  r4 = (None, snd r3) /\
  fst u = AdminDone /\ fst r5 = Some idx /\
  (exists a5, accounts (snd r5) !! idx = Some a5 /\ frozen a5 = 0%Z /\
              failed_attempts a5 = 0%Z /\ balance a5 = balance a).
Proof.
  intros Hf Ha Hact Hfr Hfa Hp1 Hp2 Hp3.
  pose proof (lookup_lt_Some _ _ _ Ha) as Hlt.
  assert (Hfr' : is_true (frozen a) = false) by (rewrite Hfr; reflexivity).
  (* first attempt *)
  set (a1 := set_failed_attempts a 1).
  set (st1 := set_accounts st (<[idx := a1]> (accounts st))).
  assert (E1 : authenticate_prompt ts (Some n) (Some p1) st = (None, st1)).
  { rewrite (authenticate_wrong_pin ts n p1 st idx a Hf Ha Hact Hfr' Hp1), Hfa.
    reflexivity. }
  assert (Hf1 : find_account_index (accounts st1) n = Some idx)
    by (cbn [accounts st1 set_accounts];
        rewrite (find_account_index_insert _ _ _ a a1 Ha eq_refl); exact Hf).
  assert (Ha1 : accounts st1 !! idx = Some a1)
    by (apply list_lookup_insert_eq; exact Hlt).
  assert (Hlt1 : (idx < length (accounts st1))%nat) by exact (lookup_lt_Some _ _ _ Ha1).
  (* second attempt *)
  set (a2 := set_failed_attempts a1 2).
  set (st2 := set_accounts st1 (<[idx := a2]> (accounts st1))).
  assert (E2 : authenticate_prompt ts (Some n) (Some p2) st1 = (None, st2)).
  { rewrite (authenticate_wrong_pin ts n p2 st1 idx a1 Hf1 Ha1 Hact Hfr' Hp2).
    reflexivity. }
  assert (Hf2 : find_account_index (accounts st2) n = Some idx)
    by (cbn [accounts st2 set_accounts];
        rewrite (find_account_index_insert _ _ _ a1 a2 Ha1 eq_refl); exact Hf1).
  assert (Ha2 : accounts st2 !! idx = Some a2)
    by (apply list_lookup_insert_eq; exact Hlt1).
  assert (Hlt2 : (idx < length (accounts st2))%nat) by exact (lookup_lt_Some _ _ _ Ha2).
  (* third attempt *)
  set (a3 := set_frozen (set_failed_attempts a2 3) 1).
  set (st3 := set_accounts st2 (<[idx := a3]> (accounts st2))).
  assert (E3 : authenticate_prompt ts (Some n) (Some p3) st2 = (None, st3)).
  { rewrite (authenticate_wrong_pin ts n p3 st2 idx a2 Hf2 Ha2 Hact Hfr' Hp3).
    reflexivity. }
  assert (Hf3 : find_account_index (accounts st3) n = Some idx)
    by (cbn [accounts st3 set_accounts];
        rewrite (find_account_index_insert _ _ _ a2 a3 Ha2 eq_refl); exact Hf2).
  assert (Ha3 : accounts st3 !! idx = Some a3)
    by (apply list_lookup_insert_eq; exact Hlt2).
  assert (Hlt3 : (idx < length (accounts st3))%nat) by exact (lookup_lt_Some _ _ _ Ha3).
  cbv zeta. rewrite E1. cbn [snd]. rewrite E2. cbn [snd]. rewrite E3. cbn [snd].
  (* the right PIN on the frozen account *)
  assert (E4 : authenticate_prompt ts (Some n) (Some (pin a)) st3 = (None, st3)).
  { unfold authenticate_prompt. rewrite Hf3, Ha3.
    cbn [active a3 a2 a1 set_frozen set_failed_attempts]. rewrite Hact.
    cbn [negb frozen]. reflexivity. }
  (* unfreeze, then the right PIN *)
  assert (Eu : admin_menu_unfreeze (Some n) st3 =
               (AdminDone,
                set_accounts st3
                  (<[idx := set_failed_attempts (set_frozen a3 0) 0]> (accounts st3)))).
  { unfold admin_menu_unfreeze. cbn [safe_read_int]. rewrite Hf3, Ha3. reflexivity. }
  rewrite E4, Eu. cbn [fst snd].
  set (a4 := set_failed_attempts (set_frozen a3 0) 0).
  set (st4 := set_accounts st3 (<[idx := a4]> (accounts st3))).
  assert (Hf4 : find_account_index (accounts st4) n = Some idx)
    by (cbn [accounts st4 set_accounts];
        rewrite (find_account_index_insert _ _ _ a3 a4 Ha3 eq_refl); exact Hf3).
  assert (Ha4 : accounts st4 !! idx = Some a4)
    by (apply list_lookup_insert_eq; exact Hlt3).
  assert (Hlt4 : (idx < length (accounts st4))%nat) by exact (lookup_lt_Some _ _ _ Ha4).
  assert (E5 : authenticate_prompt ts (Some n) (Some (pin a)) st4 =
               (Some idx,
                set_accounts st4
                  (<[idx := set_last_login (set_failed_attempts a4 0) ts]> (accounts st4)))).
  { unfold authenticate_prompt. rewrite Hf4, Ha4.
    cbn [active pin frozen a4 a3 a2 a1 set_frozen set_failed_attempts].
    rewrite Hact. cbn [negb is_true Z.eqb]. rewrite Z.eqb_refl. reflexivity. }
  rewrite E5. cbn [fst snd].
  repeat (split; [reflexivity |]).
  split; [exists a2; split; [exact Ha2 | exact Hfr] |].
  split; [exists a3; split; [exact Ha3 | split; reflexivity] |].
  repeat (split; [reflexivity |]).
  eexists. split; [apply list_lookup_insert_eq; exact Hlt4 |]. repeat split.
Qed.

Lemma three_strikes_then_unfreeze_witness :
  let st := team_state in
  let r1 := authenticate_prompt sample_ts (Some 1002%Z) (Some 1%Z) st in
  let r2 := authenticate_prompt sample_ts (Some 1002%Z) (Some 2%Z) (snd r1) in
  let r3 := authenticate_prompt sample_ts (Some 1002%Z) (Some 3%Z) (snd r2) in
  let r4 := authenticate_prompt sample_ts (Some 1002%Z) (Some 2345%Z) (snd r3) in
  let u := admin_menu_unfreeze (Some 1002%Z) (snd r3) in
  let r5 := authenticate_prompt sample_ts (Some 1002%Z) (Some 2345%Z) (snd u) in
  fst r3 = None /\ r4 = (None, snd r3) /\ fst r5 = Some 1%nat.
Proof.
  cbv zeta.
  destruct (three_strikes_then_unfreeze sample_ts 1002 1 2 3 team_state 1%nat
              (mkAccount 1002 "achyut" "Savings" 2345 8000 0 1 0 0 "achyut@bvdu" ""))
    as (_ & _ & H3 & _ & _ & H4 & _ & H5 & _);
    try reflexivity; try (cbn; lia).
  repeat split; assumption.
Defined.

(** ** Deposits and withdrawals *)

Lemma authenticate_balances (ts : string) (acc_in pin_in : option Z) (st : State) :
  balance <$> accounts (snd (authenticate_prompt ts acc_in pin_in st)) =
  balance <$> accounts st.
Proof.
  destruct (authenticate_cases ts acc_in pin_in st)
    as [E | (idx & a & a' & Ha & Hs & E)]; rewrite E; [reflexivity |].
  cbn [accounts set_accounts]. rewrite list_fmap_insert.
  destruct Hs as (_ & _ & _ & _ & -> & _).
  apply list_insert_id. rewrite list_lookup_fmap, Ha. reflexivity.
Qed.

(** X19: at the cash desk only a completed operation changes a balance,
    and only the balance of the authenticated account: after a deposit
    that ends "Done" the balance read there is the old one plus the amount
    typed, after a withdrawal that ends "Done" the old one less the amount
    typed, and every other ending (failed login, bad amount, insufficient
    funds) leaves every balance as it was.  An amount typed that is at
    most 0 is refused by both, and an amount above the balance is refused
    by the withdrawal.  Holdings, catalog and FX rates are not touched. *)
Theorem deposit_withdraw_balances (ts : string) (acc_in pin_in : option Z)
    (amt_in : option Q) (st0 : State) :
  let amt := safe_read_double amt_in in
  let login := fst (authenticate_prompt ts acc_in pin_in st0) in
  let d := deposit_money ts acc_in pin_in amt_in st0 in
  let w := withdraw_money ts acc_in pin_in amt_in st0 in
  (fst d = Done ->
   exists idx b, login = Some idx /\ (balance <$> accounts st0) !! idx = Some b /\
                 balance <$> accounts (snd d) = <[idx := b + amt]> (balance <$> accounts st0)) /\
  (fst d <> Done -> balance <$> accounts (snd d) = balance <$> accounts st0) /\
  (fst w = Done ->
   exists idx b, login = Some idx /\ (balance <$> accounts st0) !! idx = Some b /\
                 balance <$> accounts (snd w) = <[idx := b - amt]> (balance <$> accounts st0)) /\
  (fst w <> Done -> balance <$> accounts (snd w) = balance <$> accounts st0) /\
  (amt <= 0 -> fst d <> Done /\ fst w <> Done) /\
  (forall idx b, login = Some idx -> (balance <$> accounts st0) !! idx = Some b ->
                 b < amt -> fst w <> Done) /\
  (holdings (snd d), prices (snd d), fx (snd d)) = (holdings st0, prices st0, fx st0) /\
  (holdings (snd w), prices (snd w), fx (snd w)) = (holdings st0, prices st0, fx st0).
Proof.
  intros amt login d w.
  pose proof (authenticate_balances ts acc_in pin_in st0) as Hb.
  assert (Hrest : let st := snd (authenticate_prompt ts acc_in pin_in st0) in
                  (holdings st, prices st, fx st) = (holdings st0, prices st0, fx st0)).
  { destruct (authenticate_cases ts acc_in pin_in st0)
      as [E | (idx & a & a' & _ & _ & E)]; cbv zeta; rewrite E; reflexivity. }
  unfold d, w, login, deposit_money, withdraw_money.
  destruct (authenticate_prompt ts acc_in pin_in st0) as [[idx |] st] eqn:Ea;
    cbn [fst snd] in *.
  2: { repeat split; first [discriminate | intros _; exact Hb | exact Hrest
                            | congruence]. }
  fold amt.
  destruct (Qle_bool amt 0) eqn:Hamt; cbn [fst snd].
  { repeat split; first [discriminate | intros _; exact Hb | exact Hrest
                         | congruence]. }
  apply Qle_bool_false in Hamt.
  destruct (accounts st !! idx) as [a |] eqn:Ha; cbn [fst snd].
  2: { repeat split; first [discriminate | intros _; exact Hb | exact Hrest
                            | congruence]. }
  assert (Hb0 : (balance <$> accounts st0) !! idx = Some (balance a))
    by (rewrite <- Hb, list_lookup_fmap, Ha; reflexivity).
  split; [| split; [congruence |]].
  { intros _. exists idx, (balance a). repeat (split; [first [reflexivity | assumption] |]).
    cbn [accounts set_accounts]. rewrite list_fmap_insert, Hb. reflexivity. }
  assert (Hw : (fst (if Qlt_bool (balance a) amt then (NoFunds, st)
                     else (Done,
                           set_accounts st
                             (<[idx := set_balance a (balance a - amt)]> (accounts st))))
                = Done -> Qlt_bool (balance a) amt = false)).
  { destruct (Qlt_bool (balance a) amt); [discriminate | reflexivity]. }
  split; [| split; [| split; [| split; [| split]]]].
  - intros Hd. rewrite (Hw Hd). cbn [snd].
    exists idx, (balance a). repeat (split; [first [reflexivity | assumption] |]).
    cbn [accounts set_accounts]. rewrite list_fmap_insert, Hb. reflexivity.
  - destruct (Qlt_bool (balance a) amt); cbn [fst snd]; [intros _; exact Hb | congruence].
  - intros Hle. exfalso. lra.
  - intros idx' b [= <-] Hl Hlt. rewrite Hb0 in Hl. injection Hl as <-.
    rewrite (proj2 (Qlt_bool_true (balance a) amt) Hlt). discriminate.
  - cbn [holdings prices fx set_accounts]. exact Hrest.
  - destruct (Qlt_bool (balance a) amt); cbn [snd holdings prices fx set_accounts];
      exact Hrest.
Qed.

Lemma deposit_withdraw_balances_witness :
  fst (withdraw_money sample_ts (Some 1002%Z) (Some 2345%Z) (Some 9000) team_state)
  <> Done /\
  balance <$> accounts (snd (withdraw_money sample_ts (Some 1002%Z) (Some 2345%Z)
                               (Some 9000) team_state)) =
  balance <$> accounts team_state.
Proof.
  destruct (deposit_withdraw_balances sample_ts (Some 1002%Z) (Some 2345%Z) (Some 9000)
              team_state) as (_ & _ & _ & Hsame & _ & Hover & _).
  assert (Hn : fst (withdraw_money sample_ts (Some 1002%Z) (Some 2345%Z) (Some 9000)
                      team_state) <> Done).
  { apply (Hover 1%nat 8000); [reflexivity | reflexivity | vm_compute; reflexivity]. }
  split; [exact Hn | exact (Hsame Hn)].
Defined.

(** ** Transfers *)

Lemma move_cash_distinct (accs : list Account) (i j : nat) (f t : Account) (amt : Q) :
  accs !! i = Some f -> accs !! j = Some t -> i <> j ->
  move_cash accs i j amt =
  <[j := set_balance t (balance t + amt)]>
    (<[i := set_balance f (balance f - amt)]> accs).
Proof.
  intros Hi Hj Hne. unfold move_cash. rewrite Hi.
  rewrite list_lookup_insert_ne by exact Hne. rewrite Hj. reflexivity.
Qed.

Lemma find_active_account_index_Some (accs : list Account) (n : Z) :
  forall i, find_active_account_index accs n = Some i ->
            exists a, accs !! i = Some a /\ acc_no a = n /\ is_true (active a) = true.
Proof.
  induction accs as [| a accs IH]; intros i; cbn [find_active_account_index].
  - discriminate.
  - destruct ((acc_no a =? n)%Z && is_true (active a)) eqn:E.
    + intros [= <-]. apply andb_true_iff in E as [E1 E2]. apply Z.eqb_eq in E1.
      exists a. repeat split; assumption.
    + destruct (find_active_account_index accs n) as [j |]; [| discriminate].
      intros [= <-]. exact (IH j eq_refl).
Qed.

(** What a transfer that ends "Done" has checked and done. *)
Lemma transfer_done_inv (from_idx : Z) (to_in : option Z) (amt_in : option Q)
    (st : State) :
  let r := transfer_from_loggedin from_idx to_in amt_in st in
  fst r = Done ->
  exists to_idx t f amt,
    to_in = Some (acc_no t) /\ amt_in = Some amt /\ (0 <= from_idx)%Z /\
    accounts st !! Z.to_nat from_idx = Some f /\ accounts st !! to_idx = Some t /\
    to_idx <> Z.to_nat from_idx /\
    find_active_account_index (accounts st) (acc_no t) = Some to_idx /\
    is_true (active t) = true /\ is_true (frozen t) = false /\
    0 < amt /\ amt <= balance f /\
    snd r = set_accounts st (move_cash (accounts st) (Z.to_nat from_idx) to_idx amt).
Proof.
  unfold transfer_from_loggedin.
  destruct (Z.ltb_spec from_idx 0) as [? | Hfrom]; [discriminate |]. cbn [orb].
  destruct (from_idx >=? _)%Z; [discriminate |].
  destruct to_in as [to_acc |]; [| discriminate].
  destruct (find_active_account_index (accounts st) to_acc) as [to_idx |] eqn:Hfind;
    [| discriminate].
  destruct (find_active_account_index_Some _ _ _ Hfind) as (t & Ht & Hno & Hact).
  rewrite Ht.
  destruct (accounts st !! Z.to_nat from_idx) as [f |] eqn:Hf; [| discriminate].
  destruct (is_true (frozen t)) eqn:Hfr; [discriminate |].
  destruct (Z.eqb_spec (Z.of_nat to_idx) from_idx) as [? | Hne]; [discriminate |].
  destruct amt_in as [amt |]; [| discriminate].
  destruct (Qle_bool amt 0) eqn:Hamt; [discriminate |].
  destruct (Qlt_bool (balance f) amt) eqn:Hbal; [discriminate |].
  intros _. exists to_idx, t, f, amt. subst to_acc.
  repeat split; try assumption; try reflexivity.
  - lia.
  - apply Qle_bool_false. exact Hamt.
  - apply Qlt_bool_false. exact Hbal.
Qed.

Lemma BankResult_eq_dec (x y : BankResult) : {x = y} + {x <> y}.
Proof. decide equality. Defined.

Lemma transfer_not_done (from_idx : Z) (to_in : option Z) (amt_in : option Q)
    (st : State) :
  fst (transfer_from_loggedin from_idx to_in amt_in st) <> Done ->
  snd (transfer_from_loggedin from_idx to_in amt_in st) = st.
Proof.
  unfold transfer_from_loggedin.
  repeat match goal with
         | |- context [if ?c then _ else _] => destruct c
         | |- context [match ?c with Some _ => _ | None => _ end] => destruct c
         end; cbn [fst snd]; congruence.
Qed.

(** X21: a transfer that ends "Done" went from the logged-in account to a
    different account, which is the first active account with the number
    typed and is not frozen: the balance read from the sender's record
    afterwards is the old one less the amount typed, the balance read
    from the receiver's record the old one plus that amount, nothing else
    in the two records differs and no third account changed.  A transfer
    that does not end "Done" changes nothing; an amount typed that is at
    most 0 or above the sender's balance is never transferred.  Holdings,
    catalog and FX rates are not touched. *)
Theorem transfer_done_spec (from_idx : Z) (to_in : option Z) (amt_in : option Q)
    (st : State) :
  let r := transfer_from_loggedin from_idx to_in amt_in st in
  (fst r = Done ->
   exists to_idx t f amt f' t',
     to_in = Some (acc_no t) /\ amt_in = Some amt /\
     accounts st !! Z.to_nat from_idx = Some f /\ accounts st !! to_idx = Some t /\
     to_idx <> Z.to_nat from_idx /\
     find_active_account_index (accounts st) (acc_no t) = Some to_idx /\
     is_true (active t) = true /\ is_true (frozen t) = false /\
     accounts (snd r) !! Z.to_nat from_idx = Some f' /\
     accounts (snd r) !! to_idx = Some t' /\
     balance f' = balance f - amt /\ balance t' = balance t + amt /\
     f' = set_balance f (balance f') /\ t' = set_balance t (balance t') /\
     (forall j, j <> Z.to_nat from_idx -> j <> to_idx ->
                accounts (snd r) !! j = accounts st !! j)) /\
  (fst r <> Done -> snd r = st) /\
  (forall amt f, amt_in = Some amt -> accounts st !! Z.to_nat from_idx = Some f ->
                 amt <= 0 \/ balance f < amt -> fst r <> Done) /\
  (holdings (snd r), prices (snd r), fx (snd r)) = (holdings st, prices st, fx st).
Proof.
  intros r. split; [| split; [| split]].
  - intros Hd.
    destruct (transfer_done_inv from_idx to_in amt_in st Hd)
      as (to_idx & t & f & amt & H1 & H2 & _ & Hf & Ht & Hne & Hfind & Hact & Hfr &
          Hpos & Hle & E).
    exists to_idx, t, f, amt,
      (set_balance f (balance f - amt)), (set_balance t (balance t + amt)).
    repeat (split; [assumption |]).
    unfold r. rewrite E. cbn [accounts set_accounts].
    rewrite (move_cash_distinct _ _ _ f t amt Hf Ht) by auto.
    pose proof (lookup_lt_Some _ _ _ Hf) as Hlf.
    pose proof (lookup_lt_Some _ _ _ Ht) as Hlt.
    split; [rewrite list_lookup_insert_ne by auto; apply list_lookup_insert_eq; exact Hlf |].
    split; [apply list_lookup_insert_eq; rewrite length_insert; exact Hlt |].
    cbn [balance set_balance].
    repeat (split; [reflexivity |]).
    intros j Hj1 Hj2. rewrite !list_lookup_insert_ne by auto. reflexivity.
  - apply transfer_not_done.
  - intros amt f Hamt Hf Hbad Hd.
    destruct (transfer_done_inv from_idx to_in amt_in st Hd)
      as (to_idx & t & f1 & amt1 & _ & H2 & _ & Hf1 & _ & _ & _ & _ & _ & Hpos & Hle & _).
    rewrite Hamt in H2. injection H2 as <-. rewrite Hf in Hf1. injection Hf1 as <-.
    destruct Hbad; lra.
  - destruct (BankResult_eq_dec (fst r) Done) as [Hd | Hn].
    + destruct (transfer_done_inv from_idx to_in amt_in st Hd)
        as (to_idx & t & f & amt & _ & _ & _ & _ & _ & _ & _ & _ & _ & _ & _ & E).
      unfold r. rewrite E. reflexivity.
    + unfold r. rewrite (transfer_not_done from_idx to_in amt_in st Hn). reflexivity.
Qed.

(** The first sample account sends 2500 to account 1003: 10000 and 5000
    become 7500 and 7500. *)
Lemma transfer_done_spec_witness :
  let r := transfer_from_loggedin 0 (Some 1003%Z) (Some 2500) team_state in
  exists f' t',
    accounts (snd r) !! 0%nat = Some f' /\ accounts (snd r) !! 2%nat = Some t' /\
    balance f' == 7500 /\ balance t' == 7500.
Proof.
  intros r.
  destruct (proj1 (transfer_done_spec 0 (Some 1003%Z) (Some 2500) team_state) eq_refl)
    as (to_idx & t & f & amt & f' & t' & Hto & Hamt & Hf & Ht & _ & Hfind & _ & _ &
        Hf' & Ht' & Hbf & Hbt & _).
  injection Hamt as <-. vm_compute in Hf. injection Hf as <-.
  injection Hto as Hno.
  assert (Hidx : to_idx = 2%nat).
  { rewrite <- Hno in Hfind. vm_compute in Hfind. injection Hfind as <-. reflexivity. }
  subst to_idx. vm_compute in Ht. injection Ht as <-.
  exists f', t'. fold r in Hf', Ht'.
  split; [exact Hf' |]. split; [exact Ht' |].
  rewrite Hbf, Hbt. split; reflexivity.
Defined.

Lemma find_account_by_upi_Some (accs : list Account) (u : string) :
  forall i, find_account_by_upi accs u = Some i ->
            exists a, accs !! i = Some a /\ is_true (active a) = true /\
                      bvdu_stricmp (upi a) u = 0%Z.
Proof.
  induction accs as [| a accs IH]; intros i; cbn [find_account_by_upi].
  - discriminate.
  - destruct (is_true (active a) && (bvdu_stricmp (upi a) u =? 0)%Z) eqn:E.
    + intros [= <-]. apply andb_true_iff in E as [E1 E2]. apply Z.eqb_eq in E2.
      exists a. repeat split; assumption.
    + destruct (find_account_by_upi accs u) as [j |]; [| discriminate].
      intros [= <-]. exact (IH j eq_refl).
Qed.

Lemma upi_transfer_done_inv (from_idx : Z) (line : option string) (amt_in : option Q)
    (st : State) :
  let r := upi_transfer_from_loggedin from_idx line amt_in st in
  fst r = Done ->
  exists l to_idx t f,
    line = Some l /\ (0 <= from_idx)%Z /\
    accounts st !! Z.to_nat from_idx = Some f /\ accounts st !! to_idx = Some t /\
    to_idx <> Z.to_nat from_idx /\
    find_account_by_upi (accounts st) (strtolower_inplace (trim_newline l)) = Some to_idx /\
    bvdu_stricmp (upi t) (strtolower_inplace (trim_newline l)) = 0%Z /\
    is_true (active t) = true /\ is_true (frozen t) = false /\
    0 < safe_read_double amt_in /\ safe_read_double amt_in <= balance f /\
    snd r = set_accounts st (move_cash (accounts st) (Z.to_nat from_idx) to_idx
                               (safe_read_double amt_in)).
Proof.
  unfold upi_transfer_from_loggedin.
  destruct (Z.ltb_spec from_idx 0) as [? | Hfrom]; [discriminate |]. cbn [orb].
  destruct (from_idx >=? _)%Z; [discriminate |].
  destruct line as [l |]; [| discriminate]. cbv zeta.
  destruct (find_account_by_upi (accounts st) (strtolower_inplace (trim_newline l)))
    as [to_idx |] eqn:Hfind; [| discriminate].
  destruct (find_account_by_upi_Some _ _ _ Hfind) as (t & Ht & Hact & Hupi).
  rewrite Ht.
  destruct (accounts st !! Z.to_nat from_idx) as [f |] eqn:Hf; [| discriminate].
  rewrite Hact. cbn [negb].
  destruct (is_true (frozen t)) eqn:Hfr; [discriminate |].
  destruct (Z.eqb_spec (Z.of_nat to_idx) from_idx) as [? | Hne]; [discriminate |].
  destruct (Qle_bool (safe_read_double amt_in) 0) eqn:Hamt; [discriminate |].
  destruct (Qlt_bool (balance f) (safe_read_double amt_in)) eqn:Hbal; [discriminate |].
  intros _. exists l, to_idx, t, f.
  repeat split; try assumption; try reflexivity.
  - lia.
  - apply Qle_bool_false. exact Hamt.
  - apply Qlt_bool_false. exact Hbal.
Qed.

Lemma upi_transfer_not_done (from_idx : Z) (line : option string) (amt_in : option Q)
    (st : State) :
  fst (upi_transfer_from_loggedin from_idx line amt_in st) <> Done ->
  snd (upi_transfer_from_loggedin from_idx line amt_in st) = st.
Proof.
  unfold upi_transfer_from_loggedin.
  repeat match goal with
         | |- context [if ?c then _ else _] => destruct c
         | |- context [match ?c with Some _ => _ | None => _ end] => destruct c
         end; cbn [fst snd]; congruence.
Qed.

(** X22: a UPI transfer that ends "Done" went from the logged-in account
    to a different account that is active, not frozen, and whose UPI
    equals the text typed (trimmed and lowered) up to letter case: the
    balance read from the sender's record afterwards is the old one less
    the amount typed, the balance read from the receiver's record the old
    one plus that amount, and no third account changed.  A UPI transfer
    that does not end "Done" changes nothing; an amount typed that is at
    most 0 or above the sender's balance is never transferred.  Holdings,
    catalog and FX rates are not touched. *)
Theorem upi_transfer_spec (from_idx : Z) (line : option string) (amt_in : option Q)
    (st : State) :
  let r := upi_transfer_from_loggedin from_idx line amt_in st in
  let amt := safe_read_double amt_in in
  (fst r = Done ->
   exists l to_idx t f f' t',
     line = Some l /\
     accounts st !! Z.to_nat from_idx = Some f /\ accounts st !! to_idx = Some t /\
     to_idx <> Z.to_nat from_idx /\
     find_account_by_upi (accounts st) (strtolower_inplace (trim_newline l))
       = Some to_idx /\
     bvdu_stricmp (upi t) (strtolower_inplace (trim_newline l)) = 0%Z /\
     is_true (active t) = true /\ is_true (frozen t) = false /\
     accounts (snd r) !! Z.to_nat from_idx = Some f' /\
     accounts (snd r) !! to_idx = Some t' /\
     balance f' = balance f - amt /\ balance t' = balance t + amt /\
     f' = set_balance f (balance f') /\ t' = set_balance t (balance t') /\
     (forall j, j <> Z.to_nat from_idx -> j <> to_idx ->
                accounts (snd r) !! j = accounts st !! j)) /\
  (fst r <> Done -> snd r = st) /\
  (forall f, accounts st !! Z.to_nat from_idx = Some f ->
             amt <= 0 \/ balance f < amt -> fst r <> Done) /\
  (holdings (snd r), prices (snd r), fx (snd r)) = (holdings st, prices st, fx st).
Proof.
  intros r amt. split; [| split; [| split]].
  - intros Hd.
    destruct (upi_transfer_done_inv from_idx line amt_in st Hd)
      as (l & to_idx & t & f & Hl & _ & Hf & Ht & Hne & Hfind & Hupi & Hact & Hfr &
          Hpos & Hle & E).
    fold amt in Hpos, Hle, E. fold r in E.
    exists l, to_idx, t, f,
      (set_balance f (balance f - amt)), (set_balance t (balance t + amt)).
    repeat (split; [assumption |]).
    rewrite E. cbn [accounts set_accounts].
    rewrite (move_cash_distinct _ _ _ f t amt Hf Ht) by auto.
    pose proof (lookup_lt_Some _ _ _ Hf) as Hlf.
    pose proof (lookup_lt_Some _ _ _ Ht) as Hlt.
    split; [rewrite list_lookup_insert_ne by auto; apply list_lookup_insert_eq; exact Hlf |].
    split; [apply list_lookup_insert_eq; rewrite length_insert; exact Hlt |].
    cbn [balance set_balance].
    repeat (split; [reflexivity |]).
    intros j Hj1 Hj2. rewrite !list_lookup_insert_ne by auto. reflexivity.
  - apply upi_transfer_not_done.
  - intros f Hf Hbad Hd.
    destruct (upi_transfer_done_inv from_idx line amt_in st Hd)
      as (l & to_idx & t & f1 & _ & _ & Hf1 & _ & _ & _ & _ & _ & _ & Hpos & Hle & _).
    fold amt in Hpos, Hle. rewrite Hf in Hf1. injection Hf1 as <-.
    destruct Hbad; lra.
  - destruct (BankResult_eq_dec (fst r) Done) as [Hd | Hn].
    + destruct (upi_transfer_done_inv from_idx line amt_in st Hd)
        as (l & to_idx & t & f & _ & _ & _ & _ & _ & _ & _ & _ & _ & _ & _ & E).
      fold r in E. rewrite E. reflexivity.
    + unfold r. rewrite (upi_transfer_not_done from_idx line amt_in st Hn). reflexivity.
Qed.

(** The first sample account sends 2500 to "Ayush@BVDU", typed with
    capitals: the money reaches account 1003. *)
Lemma upi_transfer_spec_witness :
  let r := upi_transfer_from_loggedin 0 (Some "Ayush@BVDU"%string) (Some 2500)
             team_state in
  exists f' t',
    accounts (snd r) !! 0%nat = Some f' /\ accounts (snd r) !! 2%nat = Some t' /\
    balance f' == 7500 /\ balance t' == 7500 /\ upi t' = "ayush@bvdu"%string.
Proof.
  intros r.
  destruct (proj1 (upi_transfer_spec 0 (Some "Ayush@BVDU"%string) (Some 2500) team_state)
              eq_refl)
    as (l & to_idx & t & f & f' & t' & Hl & Hf & Ht & _ & Hfind & _ & _ & _ &
        Hf' & Ht' & Hbf & Hbt & _ & Ht2 & _).
  injection Hl as <-. vm_compute in Hf. injection Hf as <-.
  vm_compute in Hfind. injection Hfind as <-.
  vm_compute in Ht. injection Ht as <-.
  exists f', t'. fold r in Hf', Ht'.
  split; [exact Hf' |]. split; [exact Ht' |].
  rewrite Hbf, Hbt. split; [reflexivity |]. split; [reflexivity |].
  rewrite Ht2. reflexivity.
Defined.

(** ** Case-insensitive comparison and UPI look-up *)

Lemma nat_of_ascii_inj (c d : ascii) : nat_of_ascii c = nat_of_ascii d -> c = d.
Proof.
  intros H. rewrite <- (ascii_nat_embedding c), <- (ascii_nat_embedding d), H.
  reflexivity.
Qed.

Lemma tolower_code (c : ascii) :
  nat_of_ascii (tolower c) =
  (if (65 <=? nat_of_ascii c)%nat && (nat_of_ascii c <=? 90)%nat
   then nat_of_ascii c + 32 else nat_of_ascii c)%nat.
Proof.
  unfold tolower.
  destruct ((65 <=? nat_of_ascii c)%nat && (nat_of_ascii c <=? 90)%nat) eqn:E;
    [| reflexivity].
  apply andb_true_iff in E as [_ E2]. apply Nat.leb_le in E2.
  apply nat_ascii_embedding. lia.
Qed.

Lemma lowered_head_cons (c : ascii) (s : string) :
  c <> zero -> lowered_head (String c s) <> 0%Z.
Proof.
  intros Hc. cbn [lowered_head]. rewrite tolower_code.
  assert (nat_of_ascii c <> 0%nat).
  { intros H. apply Hc. apply nat_of_ascii_inj. rewrite H. reflexivity. }
  destruct (_ && _); lia.
Qed.

(** X23: [bvdu_stricmp] compares C strings without regard to letter case:
    on strings with no NUL inside it returns 0 exactly when the two
    strings become equal once lowered by [strtolower_inplace]. *)
Theorem bvdu_stricmp_zero_iff (a b : string) :
  c_string a = true -> c_string b = true ->
  (bvdu_stricmp a b = 0%Z <-> strtolower_inplace a = strtolower_inplace b).
Proof.
  revert b. induction a as [| ca a IH]; intros [| cb b] Ha Hb.
  - cbn. split; reflexivity.
  - cbn [c_string] in Hb. apply andb_true_iff in Hb as [Hcb _].
    assert (Hnz : cb <> zero) by (intros ->; discriminate Hcb).
    pose proof (lowered_head_cons cb b Hnz) as Hh.
    cbn [bvdu_stricmp]. cbn [lowered_head] in *.
    destruct (Z.eqb_spec 0 (Z.of_nat (nat_of_ascii (tolower cb)))) as [E | _];
      [congruence |]. cbn [negb strtolower_inplace].
    split; [lia | discriminate].
  - cbn [c_string] in Ha. apply andb_true_iff in Ha as [Hca _].
    assert (Hnz : ca <> zero) by (intros ->; discriminate Hca).
    pose proof (lowered_head_cons ca a Hnz) as Hh.
    cbn [bvdu_stricmp]. cbn [lowered_head] in *.
    destruct (Z.eqb_spec (Z.of_nat (nat_of_ascii (tolower ca))) 0) as [E | _];
      [congruence |]. cbn [negb strtolower_inplace].
    split; [lia | discriminate].
  - cbn [c_string] in Ha, Hb.
    apply andb_true_iff in Ha as [Hca Ha]. apply andb_true_iff in Hb as [Hcb Hb].
    assert (Hnz : ca <> zero) by (intros ->; discriminate Hca).
    pose proof (lowered_head_cons ca a Hnz) as Hh.
    cbn [bvdu_stricmp]. cbn [lowered_head] in *.
    destruct (Z.eqb_spec (Z.of_nat (nat_of_ascii (tolower ca)))
                         (Z.of_nat (nat_of_ascii (tolower cb)))) as [E | Hne];
      cbn [negb strtolower_inplace].
    + destruct (Z.eqb_spec (Z.of_nat (nat_of_ascii (tolower ca))) 0) as [E0 | _];
        [congruence |].
      apply Nat2Z.inj, nat_of_ascii_inj in E. rewrite E, (IH b Ha Hb).
      split; [intros ->; reflexivity | intros [= ->]; reflexivity].
    + split; [lia |]. intros [= E _]. rewrite E in Hne. contradiction.
Qed.

Lemma bvdu_stricmp_zero_iff_witness :
  bvdu_stricmp "Ayush@BVDU" "ayush@bvdu" = 0%Z <->
  strtolower_inplace "Ayush@BVDU" = strtolower_inplace "ayush@bvdu".
Proof.
  apply bvdu_stricmp_zero_iff; reflexivity.
Defined.

(** X24: [is_upi_unique] answers 1 exactly when no account at all, active
    or not, has a UPI equal to the candidate up to letter case; so a UPI
    that [find_account_by_upi] resolves to an account is never free. *)
Theorem is_upi_unique_spec (accs : list Account) (u : string) :
  (is_upi_unique accs u = true <->
   Forall (fun a => bvdu_stricmp (upi a) u <> 0%Z) accs) /\
  (forall i, find_account_by_upi accs u = Some i -> is_upi_unique accs u = false).
Proof.
  assert (H1 : is_upi_unique accs u = true <->
               Forall (fun a => bvdu_stricmp (upi a) u <> 0%Z) accs).
  { induction accs as [| a accs IH]; cbn [is_upi_unique].
    - split; [constructor | reflexivity].
    - destruct (Z.eqb_spec (bvdu_stricmp (upi a) u) 0) as [E | Hne].
      + split; [discriminate |]. intros HF. inversion HF; subst. contradiction.
      + rewrite IH. split.
        * intros HF. constructor; assumption.
        * intros HF. inversion HF; subst. assumption. }
  split; [exact H1 |].
  intros i Hi. destruct (find_account_by_upi_Some _ _ _ Hi) as (a & Ha & _ & Hz).
  apply not_true_is_false. intros E.
  apply H1 in E. pose proof (proj1 (Forall_lookup _ _) E _ _ Ha) as Hc.
  contradiction.
Qed.

Lemma is_upi_unique_spec_witness :
  is_upi_unique (accounts team_state) "ACHYUT@bvdu" = false.
Proof.
  apply (proj2 (is_upi_unique_spec (accounts team_state) "ACHYUT@bvdu") 1%nat).
  reflexivity.
Defined.

(** ** UPI validation *)

Lemma first_chars_all (s : string) :
  forall n, (String.length s <= n)%nat -> first_chars n s = s.
Proof.
  unfold first_chars. induction s as [| c s IH]; intros [| n] Hn; cbn in *;
    try reflexivity; try lia.
  rewrite IH by lia. reflexivity.
Qed.

Lemma first_chars_length (s : string) :
  forall n, (String.length (first_chars n s) <= n)%nat.
Proof.
  unfold first_chars. induction s as [| c s IH]; intros [| n]; cbn; try lia.
  specialize (IH n). lia.
Qed.

Lemma string_length_app (s t : string) :
  String.length (s ++ t)%string = (String.length s + String.length t)%nat.
Proof. induction s as [| c s IH]; cbn; [reflexivity | rewrite IH; reflexivity]. Qed.

Lemma strtolower_length (s : string) :
  String.length (strtolower_inplace s) = String.length s.
Proof. induction s as [| c s IH]; cbn; [reflexivity | rewrite IH; reflexivity]. Qed.

Lemma tolower_idem (c : ascii) : tolower (tolower c) = tolower c.
Proof.
  apply nat_of_ascii_inj. rewrite (tolower_code (tolower c)), (tolower_code c).
  destruct (Nat.leb_spec 65 (nat_of_ascii c)), (Nat.leb_spec (nat_of_ascii c) 90);
    cbn [andb];
    repeat match goal with
           | |- context [(?a <=? ?b)%nat] => destruct (Nat.leb_spec a b)
           end; cbn [andb]; lia.
Qed.

Lemma strtolower_idem (s : string) :
  strtolower_inplace (strtolower_inplace s) = strtolower_inplace s.
Proof.
  induction s as [| c s IH]; cbn; [reflexivity | rewrite tolower_idem, IH; reflexivity].
Qed.

Lemma isalnum_tolower (c : ascii) : isalnum (tolower c) = isalnum c.
Proof.
  unfold isalnum. rewrite (tolower_code c).
  pose proof (nat_ascii_bounded c) as Hb.
  destruct (Nat.leb_spec 65 (nat_of_ascii c)), (Nat.leb_spec (nat_of_ascii c) 90);
    cbn [andb orb];
    repeat match goal with
           | |- context [(?a <=? ?b)%nat] => destruct (Nat.leb_spec a b)
           end; cbn [andb orb]; first [reflexivity | lia].
Qed.

Lemma all_isalnum_tolower (s : string) :
  all_isalnum (strtolower_inplace s) = all_isalnum s.
Proof.
  induction s as [| c s IH]; cbn; [reflexivity | rewrite isalnum_tolower, IH; reflexivity].
Qed.

Lemma isalnum_plain (c : ascii) :
  isalnum c = true ->
  Ascii.eqb c "@" = false /\ Ascii.eqb c "010" = false /\ Ascii.eqb c "013" = false.
Proof.
  intros H.
  assert (Hn : nat_of_ascii c <> 64%nat /\ nat_of_ascii c <> 10%nat /\
               nat_of_ascii c <> 13%nat).
  { unfold isalnum in H.
    repeat match type of H with
           | context [(?a <=? ?b)%nat] => destruct (Nat.leb_spec a b)
           end; cbn in H; try discriminate; lia. }
  destruct Hn as (H1 & H2 & H3).
  repeat split; apply Ascii.eqb_neq; intros ->;
    first [apply H1; reflexivity | apply H2; reflexivity | apply H3; reflexivity].
Qed.

Lemma all_isalnum_no_newline (s : string) : all_isalnum s = true -> no_newline s = true.
Proof.
  induction s as [| c s IH]; cbn; [reflexivity |].
  intros H. apply andb_true_iff in H as [Hc Hs].
  destruct (isalnum_plain c Hc) as (_ & -> & ->). cbn. exact (IH Hs).
Qed.

Lemma no_newline_app (s t : string) :
  no_newline s = true -> no_newline t = true -> no_newline (s ++ t)%string = true.
Proof.
  intros Hs Ht. induction s as [| c s IH]; cbn in *; [exact Ht |].
  apply andb_true_iff in Hs as [Hc Hs]. rewrite Hc, (IH Hs). reflexivity.
Qed.

Lemma trim_newline_id (s : string) : no_newline s = true -> trim_newline s = s.
Proof.
  induction s as [| c s IH]; cbn; [reflexivity |].
  intros H. apply andb_true_iff in H as [Hc Hs]. rewrite (IH Hs).
  apply negb_true_iff in Hc. rewrite Hc. destruct s; reflexivity.
Qed.

Lemma split_at_sign_alnum (s : string) : all_isalnum s = true -> split_at_sign s = None.
Proof.
  induction s as [| c s IH]; cbn; [reflexivity |].
  intros H. apply andb_true_iff in H as [Hc Hs].
  destruct (isalnum_plain c Hc) as (-> & _). rewrite (IH Hs). reflexivity.
Qed.

Lemma split_at_sign_app (s d : string) :
  all_isalnum s = true -> split_at_sign (s ++ String "@" d)%string = Some (s, d).
Proof.
  induction s as [| c s IH]; cbn; [reflexivity |].
  intros H. apply andb_true_iff in H as [Hc Hs].
  destruct (isalnum_plain c Hc) as (-> & _). rewrite (IH Hs). reflexivity.
Qed.

Lemma string_length_zero (s : string) : (String.length s =? 0)%nat = true <-> s = ""%string.
Proof. destruct s; cbn; split; congruence. Qed.

(** X25: what [validate_and_normalize_upi] accepts it normalizes: with the
    128-byte output buffer the callers pass, an accepted input yields the
    text [local@bvdu] cut to 127 characters, where [local] is not empty,
    made of letters and digits only and all in lower case; and whenever
    [local] has at most 122 characters nothing is cut, so the result ends
    in "@bvdu". *)
Theorem validate_upi_shape (input u : string) :
  validate_and_normalize_upi input 128 = Some u ->
  exists local,
    local <> ""%string /\ all_isalnum local = true /\
    strtolower_inplace local = local /\
    (String.length local <= String.length input)%nat /\
    u = first_chars 127 (local ++ "@bvdu")%string /\
    ((String.length local <= 122)%nat -> u = (local ++ "@bvdu")%string).
Proof.
  unfold validate_and_normalize_upi.
  set (buf := trim_newline (first_chars 127 input)).
  destruct (String.length buf =? 0)%nat eqn:Hlen; [discriminate |].
  assert (Hfin : forall local,
            local <> ""%string -> all_isalnum local = true ->
            strtolower_inplace local = local ->
            (String.length local <= String.length input)%nat ->
            Some (first_chars (128 - 1) (local ++ "@bvdu")%string) = Some u ->
            exists local0,
              local0 <> ""%string /\ all_isalnum local0 = true /\
              strtolower_inplace local0 = local0 /\
              (String.length local0 <= String.length input)%nat /\
              u = first_chars 127 (local0 ++ "@bvdu")%string /\
              ((String.length local0 <= 122)%nat -> u = (local0 ++ "@bvdu")%string)).
  { intros local H1 H2 H3 H4 [= <-]. exists local.
    repeat (split; [assumption |]). split; [reflexivity |].
    intros Hl. apply first_chars_all. rewrite string_length_app. cbn. lia. }
  assert (Hbuf : (String.length buf <= String.length input)%nat).
  { unfold buf. clear.
    assert (Ht : forall s, (String.length (trim_newline s) <= String.length s)%nat).
    { induction s as [| c s IH]; cbn; [lia |].
      destruct (trim_newline s); [destruct (_ || _) |]; cbn in *; lia. }
    assert (Hf : forall s n, (String.length (first_chars n s) <= String.length s)%nat).
    { unfold first_chars. induction s as [| c s IH]; intros [| n]; cbn; try lia.
      specialize (IH n). lia. }
    specialize (Ht (first_chars 127 input)). specialize (Hf input 127%nat). lia. }
  destruct (split_at_sign buf) as [[l0 d0] |] eqn:Hsplit.
  - destruct (split_at_sign d0); [discriminate |].
    destruct (negb (String.eqb (strtolower_inplace d0) "bvdu")); [discriminate |].
    destruct (String.length (strtolower_inplace l0) =? 0)%nat eqn:Hl0; [discriminate |].
    destruct (all_isalnum (strtolower_inplace l0)) eqn:Hal; [| discriminate].
    cbn [negb]. apply Hfin; [| exact Hal | apply strtolower_idem |].
    + intros E. rewrite E in Hl0. discriminate.
    + rewrite strtolower_length.
      assert (Hs : forall s l d, split_at_sign s = Some (l, d) ->
                                 (String.length l <= String.length s)%nat).
      { induction s as [| c s IH]; cbn; [discriminate |]. intros l d.
        destruct (Ascii.eqb c "@"); [intros [= <- _]; cbn; lia |].
        destruct (split_at_sign s) as [[l' d'] |]; [| discriminate].
        intros [= <- _]. cbn. specialize (IH l' d' eq_refl). lia. }
      specialize (Hs buf l0 d0 Hsplit). lia.
  - destruct (all_isalnum (strtolower_inplace buf)) eqn:Hal; [| discriminate].
    cbn [negb]. apply Hfin; [| exact Hal | apply strtolower_idem |].
    + intros E. apply (f_equal String.length) in E.
      rewrite strtolower_length in E. cbn in E. rewrite E in Hlen. discriminate.
    + rewrite strtolower_length. exact Hbuf.
Qed.

Lemma validate_upi_shape_witness :
  exists local,
    local <> ""%string /\ all_isalnum local = true /\
    strtolower_inplace local = local /\
    (String.length local <= String.length "Alice@BVDU")%nat /\
    "alice@bvdu"%string = first_chars 127 (local ++ "@bvdu")%string /\
    ((String.length local <= 122)%nat -> "alice@bvdu"%string = (local ++ "@bvdu")%string).
Proof.
  exact (validate_upi_shape "Alice@BVDU" "alice@bvdu" eq_refl).
Defined.

(** X26: [validate_and_normalize_upi] accepts every non-empty text of at
    most 122 letters and digits, typed alone or followed by "@bvdu", and
    returns its lower-case form followed by "@bvdu"; applied to its own
    result it returns that result again. *)
Theorem validate_upi_accepts (s : string) :
  s <> ""%string -> all_isalnum s = true -> (String.length s <= 122)%nat ->
  let u := (strtolower_inplace s ++ "@bvdu")%string in
  validate_and_normalize_upi s 128 = Some u /\
  validate_and_normalize_upi (s ++ "@bvdu") 128 = Some u /\
  validate_and_normalize_upi u 128 = Some u.
Proof.
  intros Hne Hal Hlen u.
  assert (Hbare : forall t, t <> ""%string -> all_isalnum t = true ->
                            (String.length t <= 122)%nat ->
                            validate_and_normalize_upi t 128 =
                            Some (strtolower_inplace t ++ "@bvdu")%string).
  { intros t Ht Hat Hlt. unfold validate_and_normalize_upi.
    rewrite first_chars_all by lia.
    rewrite trim_newline_id by (apply all_isalnum_no_newline; exact Hat).
    destruct (String.length t =? 0)%nat eqn:E;
      [apply string_length_zero in E; contradiction |].
    rewrite (split_at_sign_alnum t Hat), all_isalnum_tolower, Hat. cbn [negb].
    rewrite first_chars_all; [reflexivity |].
    rewrite string_length_app, strtolower_length. cbn. lia. }
  assert (Hfull : forall t, t <> ""%string -> all_isalnum t = true ->
                            (String.length t <= 122)%nat ->
                            validate_and_normalize_upi (t ++ "@bvdu") 128 =
                            Some (strtolower_inplace t ++ "@bvdu")%string).
  { intros t Ht Hat Hlt. unfold validate_and_normalize_upi.
    rewrite first_chars_all by (rewrite string_length_app; cbn; lia).
    rewrite trim_newline_id
      by (apply no_newline_app; [apply all_isalnum_no_newline; exact Hat | reflexivity]).
    destruct (String.length (t ++ "@bvdu") =? 0)%nat eqn:E.
    { apply string_length_zero in E. apply (f_equal String.length) in E.
      rewrite string_length_app in E. cbn in E. lia. }
    rewrite (split_at_sign_app t "bvdu" Hat).
    cbn [split_at_sign Ascii.eqb Bool.eqb strtolower_inplace].
    change (String.eqb (strtolower_inplace "bvdu") "bvdu") with true. cbn [negb].
    destruct (String.length (strtolower_inplace t) =? 0)%nat eqn:E0.
    { rewrite strtolower_length in E0. apply string_length_zero in E0. contradiction. }
    rewrite all_isalnum_tolower, Hat. cbn [negb].
    rewrite first_chars_all; [reflexivity |].
    rewrite string_length_app, strtolower_length. cbn. lia. }
  split; [exact (Hbare s Hne Hal Hlen) |]. split; [exact (Hfull s Hne Hal Hlen) |].
  unfold u. rewrite <- (strtolower_idem s) at 2. apply Hfull.
  - intros E. apply (f_equal String.length) in E.
    rewrite strtolower_length in E. destruct s; [contradiction | discriminate E].
  - rewrite all_isalnum_tolower. exact Hal.
  - rewrite strtolower_length. exact Hlen.
Qed.

Lemma validate_upi_accepts_witness :
  validate_and_normalize_upi "Bob7" 128 = Some "bob7@bvdu"%string /\
  validate_and_normalize_upi "Bob7@bvdu" 128 = Some "bob7@bvdu"%string /\
  validate_and_normalize_upi "bob7@bvdu" 128 = Some "bob7@bvdu"%string.
Proof.
  apply (validate_upi_accepts "Bob7"); [discriminate | reflexivity | cbn; lia].
Defined.

(** ** Account creation *)

Lemma CreateResult_eq_dec (x y : CreateResult) : {x = y} + {x <> y}.
Proof. decide equality. Defined.

Lemma create_created_inv (ts : string) (name_in type_in : option string)
    (pin_in : option Z) (dep_in : option Q) (upi_in : option string) (st : State) :
  let r := create_account_interactive ts name_in type_in pin_in dep_in upi_in st in
  fst r = Created ->
  exists nm ty p bal candidate,
    pin_in = Some p /\ dep_in = Some bal /\ (1000 <= p <= 9999)%Z /\
    (length (accounts st) < MAX_ACCOUNTS)%nat /\
    is_upi_unique (accounts st) candidate = true /\
    snd r =
      set_accounts st
        (accounts st ++
         [mkAccount (next_account_no (accounts st)) nm ty p bal 0 1 0 0
                    (first_chars 63 candidate) ts]).
Proof.
  unfold create_account_interactive.
  destruct (Nat.leb_spec MAX_ACCOUNTS (length (accounts st))) as [? | Hroom];
    [discriminate |].
  destruct name_in as [nl |]; [| discriminate].
  destruct type_in as [tl |]; [| discriminate].
  destruct pin_in as [p |]; [| discriminate].
  destruct (Z.ltb_spec p 1000) as [? | Hlo]; [discriminate |]. cbn [orb].
  destruct (p >? 9999)%Z eqn:Hhi; [discriminate |].
  destruct dep_in as [bal |]; [| discriminate].
  destruct upi_in as [ul |]; [| discriminate].
  cbv zeta.
  match goal with
  | |- context [match ?c with Some _ => _ | None => (BadUpi, st) end] =>
      destruct c as [candidate |]; [| discriminate]
  end.
  destruct (is_upi_unique (accounts st) candidate) eqn:Hu; [| discriminate].
  cbn [negb fst snd]. intros _.
  eexists _, _, p, bal, candidate.
  repeat split; try eassumption; try reflexivity; lia.
Qed.

Lemma create_not_created (ts : string) (name_in type_in : option string)
    (pin_in : option Z) (dep_in : option Q) (upi_in : option string) (st : State) :
  fst (create_account_interactive ts name_in type_in pin_in dep_in upi_in st) <> Created ->
  snd (create_account_interactive ts name_in type_in pin_in dep_in upi_in st) = st.
Proof.
  unfold create_account_interactive.
  destruct (MAX_ACCOUNTS <=? _)%nat; [reflexivity |].
  destruct name_in; [| reflexivity]. destruct type_in; [| reflexivity].
  destruct pin_in; [| reflexivity]. destruct (_ || _); [reflexivity |].
  destruct dep_in; [| reflexivity]. destruct upi_in; [| reflexivity].
  cbv zeta.
  match goal with
  | |- context [match ?c with Some _ => _ | None => (BadUpi, st) end] =>
      destruct c; [| reflexivity]
  end.
  destruct (negb _); [reflexivity |]. cbn [fst]. congruence.
Qed.

Lemma find_account_index_app_new (accs : list Account) (a : Account) :
  find_account_index accs (acc_no a) = None ->
  find_account_index (accs ++ [a]) (acc_no a) = Some (length accs).
Proof.
  induction accs as [| b accs IH]; cbn [find_account_index app length].
  - rewrite Z.eqb_refl. reflexivity.
  - destruct (acc_no b =? acc_no a)%Z; [discriminate |].
    destruct (find_account_index accs (acc_no a)); [discriminate |].
    intros _. rewrite (IH eq_refl). reflexivity.
Qed.

(** X27: account creation either changes nothing or appends exactly one
    account.  While no account carries the largest [int], the new account
    carries a number no existing account has (so account numbers stay
    pairwise distinct); it carries the 4-digit PIN typed, the deposit
    typed as its balance, no loan, the active flag, no freeze and no
    failed attempt; its UPI is the first 63 characters of a candidate
    that no existing account's UPI matches up to case; the existing
    accounts are kept as they were and the number of accounts stays
    within [MAX_ACCOUNTS]. *)
Theorem create_account_spec (ts : string) (name_in type_in : option string)
    (pin_in : option Z) (dep_in : option Q) (upi_in : option string) (st : State) :
  let r := create_account_interactive ts name_in type_in pin_in dep_in upi_in st in
  Forall (fun a => (acc_no a < INT_MAX)%Z) (accounts st) ->
  (fst r <> Created -> snd r = st) /\
  (fst r = Created ->
   exists a candidate,
     snd r = set_accounts st (accounts st ++ [a]) /\
     acc_no a = next_account_no (accounts st) /\
     find_account_index (accounts st) (acc_no a) = None /\
     pin_in = Some (pin a) /\ (1000 <= pin a <= 9999)%Z /\
     dep_in = Some (balance a) /\ loan a = 0 /\
     active a = 1%Z /\ frozen a = 0%Z /\ failed_attempts a = 0%Z /\
     upi a = first_chars 63 candidate /\
     is_upi_unique (accounts st) candidate = true /\
     (length (accounts (snd r)) <= MAX_ACCOUNTS)%nat /\
     (NoDup (acc_no <$> accounts st) -> NoDup (acc_no <$> accounts (snd r)))).
Proof.
  intros r Hint. split; [apply create_not_created |].
  intros Hc.
  destruct (create_created_inv ts name_in type_in pin_in dep_in upi_in st Hc)
    as (nm & ty & p & bal & candidate & Hp & Hd & Hr & Hroom & Hu & E).
  fold r in E.
  pose proof (proj2 (next_account_no_above (accounts st) Hint)) as Hlt.
  pose proof (next_account_no_not_found (accounts st) Hint) as Hnone.
  eexists _, candidate. split; [exact E |]. cbn [acc_no pin balance loan active frozen
                                                 failed_attempts upi].
  repeat (split; [first [reflexivity | assumption] |]).
  rewrite E. cbn [accounts set_accounts]. split.
  - rewrite length_app. cbn. lia.
  - intros Hnd. rewrite fmap_app. apply NoDup_app.
    split; [exact Hnd |]. split; [| apply NoDup_singleton].
    intros n Hn Hn'. apply list_elem_of_singleton in Hn'. cbn in Hn'. subst n.
    apply list_elem_of_fmap in Hn as (b & Hb & Hin).
    rewrite Forall_forall in Hlt. specialize (Hlt b Hin). lia.
Qed.

(** Bob opens an account with PIN 4321, a deposit of 5 and no UPI typed:
    the account gets number 1004 and the UPI made from the name. *)
Lemma create_account_spec_witness :
  let r := create_account_interactive sample_ts (Some "Bob"%string) (Some ""%string)
             (Some 4321%Z) (Some 5) (Some ""%string) team_state in
  fst r = Created /\
  exists a candidate,
    snd r = set_accounts team_state (accounts team_state ++ [a]) /\
    acc_no a = 1004%Z /\ pin a = 4321%Z /\ balance a = 5 /\
    upi a = first_chars 63 candidate /\ upi a = "bob@bvdu"%string /\
    NoDup (acc_no <$> accounts (snd r)).
Proof.
  intros r. split; [reflexivity |].
  destruct (create_account_spec sample_ts (Some "Bob"%string) (Some ""%string)
              (Some 4321%Z) (Some 5) (Some ""%string) team_state) as [_ Hc].
  { unfold INT_MAX. cbn. repeat constructor. }
  destruct (Hc eq_refl)
    as (a & candidate & E & Hno & _ & Hp & _ & Hd & _ & _ & _ & _ & Hupi & _ & _ & Hnd).
  exists a, candidate. fold r in E, Hnd.
  split; [exact E |]. split; [rewrite Hno; reflexivity |].
  split; [injection Hp as <-; reflexivity |].
  split; [injection Hd as <-; reflexivity |].
  split; [exact Hupi |].
  split.
  - assert (Hsnd : accounts (snd r) !! 3%nat = Some a)
      by (rewrite E; reflexivity).
    vm_compute in Hsnd. injection Hsnd as <-. reflexivity.
  - apply Hnd. apply (bool_decide_unpack _). vm_compute. exact I.
Defined.

(** X28: an account just created can log in: while no account carries the
    largest [int], after a creation that ends "Created"
    [authenticate_prompt] given the number handed out by
    [next_account_no] and the PIN typed at creation returns the index of
    the new account, the last one. *)
Theorem create_then_login (ts ts2 : string) (name_in type_in : option string)
    (p : Z) (dep_in : option Q) (upi_in : option string) (st : State) :
  let r := create_account_interactive ts name_in type_in (Some p) dep_in upi_in st in
  Forall (fun a => (acc_no a < INT_MAX)%Z) (accounts st) ->
  fst r = Created ->
  fst (authenticate_prompt ts2 (Some (next_account_no (accounts st))) (Some p) (snd r)) =
  Some (length (accounts st)).
Proof.
  intros r Hint Hc.
  destruct (create_created_inv ts name_in type_in (Some p) dep_in upi_in st Hc)
    as (nm & ty & p' & bal & candidate & [= <-] & _ & _ & _ & _ & E).
  fold r in E. rewrite E.
  pose proof (next_account_no_not_found (accounts st) Hint) as Hnone.
  set (a := mkAccount (next_account_no (accounts st)) nm ty p bal 0 1 0 0
                      (first_chars 63 candidate) ts) in *.
  pose proof (find_account_index_app_new (accounts st) a Hnone) as Hf.
  change (acc_no a) with (next_account_no (accounts st)) in Hf.
  unfold authenticate_prompt. cbn [accounts set_accounts].
  rewrite Hf, list_lookup_middle by reflexivity.
  cbn [active frozen pin a is_true negb Z.eqb]. rewrite Z.eqb_refl. reflexivity.
Qed.

Lemma create_then_login_witness :
  fst (authenticate_prompt sample_ts (Some (next_account_no (accounts team_state)))
         (Some 4321%Z)
         (snd (create_account_interactive sample_ts (Some "Bob"%string) (Some ""%string)
                 (Some 4321%Z) (Some 5) (Some ""%string) team_state))) =
  Some (length (accounts team_state)).
Proof.
  apply (create_then_login sample_ts sample_ts (Some "Bob"%string) (Some ""%string)
           4321 (Some 5) (Some ""%string) team_state).
  - unfold INT_MAX. cbn. repeat constructor.
  - reflexivity.
Defined.

(** ** Mini statement *)

Lemma tail_is_drop {A : Type} (l : list A) : tail l = drop 1 l.
Proof. destruct l; reflexivity. Qed.

Lemma window_after_length (m : list string) :
  length (window_after m) = MINI_STAT_LIMIT.
Proof.
  unfold window_after. rewrite length_drop, length_app, repeat_length, length_fmap. lia.
Qed.

Lemma shift_in_window (m : list string) (buf : string) :
  shift_in (window_after m) buf = window_after (m ++ [buf]).
Proof.
  unfold shift_in.
  pose proof (window_after_length m) as Hlen.
  assert (Htl : length (tail (window_after m)) = (MINI_STAT_LIMIT - 1)%nat).
  { rewrite tail_is_drop, length_drop, Hlen. reflexivity. }
  rewrite insert_app_r_alt by (rewrite Htl; lia).
  rewrite Htl, Nat.sub_diag. cbn [insert list_insert].
  unfold window_after.
  rewrite tail_is_drop, drop_drop, length_app, fmap_app, app_assoc. cbn [length fmap list_fmap].
  rewrite (drop_app_le (repeat None MINI_STAT_LIMIT ++ (Some <$> m)))
    by (rewrite length_app, repeat_length, length_fmap; unfold MINI_STAT_LIMIT; lia).
  reflexivity.
Qed.

Lemma omap_id_repeat_None {A : Type} (k : nat) :
  omap id (repeat (@None A) k) = [].
Proof. induction k as [| k IH]; [reflexivity | exact IH]. Qed.

Lemma omap_id_Some {A : Type} (l : list A) : omap id (Some <$> l) = l.
Proof. induction l as [| x l IH]; [reflexivity | cbn; rewrite IH; reflexivity]. Qed.

Lemma drop_repeat {A : Type} (x : A) (n k : nat) :
  drop n (repeat x k) = repeat x (k - n).
Proof.
  revert n. induction k as [| k IH]; intros [| n]; cbn; try reflexivity. apply IH.
Qed.

Lemma window_after_printed (m : list string) :
  omap id (window_after m) = drop (length m - MINI_STAT_LIMIT) m.
Proof.
  unfold window_after.
  destruct (Nat.le_gt_cases (length m) MINI_STAT_LIMIT) as [Hle | Hgt].
  - rewrite drop_app_le by (rewrite repeat_length; exact Hle).
    rewrite omap_app, drop_repeat, omap_id_repeat_None, omap_id_Some.
    replace (length m - MINI_STAT_LIMIT)%nat with 0%nat by lia. reflexivity.
  - rewrite drop_app_ge by (rewrite repeat_length; lia).
    rewrite repeat_length, <- fmap_drop, omap_id_Some. reflexivity.
Qed.

(** X29: the mini statement shows the last ten transactions of the
    account and nothing else: the lines printed are the lines of the file
    that are for the account, in file order, with all but the last
    [MINI_STAT_LIMIT] dropped (all of them when there are ten or fewer);
    when the file cannot be opened nothing is printed but "No transactions
    yet.". *)
Theorem mini_statement_last_ten (txn_acc_of : string -> option Z)
    (bufs : list string) (acc : Z) :
  let m := lines_of_account txn_acc_of acc bufs in
  print_mini_statement_for_account txn_acc_of (Some bufs) acc =
    Some (drop (length m - MINI_STAT_LIMIT) m) /\
  print_mini_statement_for_account txn_acc_of None acc = None.
Proof.
  intros m. split; [| reflexivity].
  unfold print_mini_statement_for_account. f_equal.
  rewrite <- window_after_printed.  f_equal.
  change (repeat None MINI_STAT_LIMIT) with (window_after []).
  unfold m. change (lines_of_account txn_acc_of acc bufs)
              with ([] ++ lines_of_account txn_acc_of acc bufs).
  generalize (@nil string) as m0.
  induction bufs as [| buf bufs IH]; intros m0; cbn [fold_left].
  - unfold lines_of_account. cbn. rewrite app_nil_r. reflexivity.
  - unfold lines_of_account in *. cbn [List.filter].
    destruct (txn_acc_of buf) as [n |]; [| apply IH].
    destruct (n =? acc)%Z; cbn [negb]; [| apply IH].
    rewrite shift_in_window, IH, <- app_assoc. reflexivity.
Qed.

(** * The remaining writers of the catalog and of the FX rates *)

Lemma default_prices_positive (ts : string) :
  Forall (fun p => 0 < price p) (default_prices ts).
Proof. unfold default_prices. repeat constructor. Qed.

Lemma ensure_default_prices_positive (ts : string) (st : State) :
  Forall (fun p => 0 < price p) (prices st) ->
  Forall (fun p => 0 < price p) (prices (ensure_default_prices ts st)) /\
  prices (ensure_default_prices ts st) <> [].
Proof.
  intros Hpos. unfold ensure_default_prices.
  destruct (prices st) as [| p ps] eqn:E; cbn [length Nat.ltb Nat.leb].
  - cbn [prices set_prices]. split; [apply default_prices_positive | discriminate].
  - rewrite E. split; [exact Hpos | discriminate].
Qed.

Lemma tick_prices_positive (RAND_MAX hour : Z) (ts : string) (ps : list PriceRec)
    (g : Rng) :
  Forall (fun p => 0 < price p) ps ->
  Forall (fun p => 0 < price p) (fst (tick_prices RAND_MAX hour ts ps g)).
Proof.
  intros Hpos.
  apply (Forall2_Forall_r _ _ _ _ (tick_prices_pointwise RAND_MAX hour ts ps g)).
  eapply Forall_impl; [exact Hpos |].
  intros p Hp p' [gi ->]. cbn beta in Hp.
  destruct (market_is_open hour p) eqn:Hopen.
  - pose proof (tick_one_open_floor RAND_MAX hour ts p gi Hopen). lra.
  - rewrite tick_one_closed by exact Hopen. exact Hp.
Qed.

(** X30: what the writers of the catalog and of the FX rates other than
    the ticks change.  If all prices are positive, they still are after
    [ensure_default_prices] and after [list_market_prices], which also
    never leaves the catalog empty.  The administrator's "set price"
    changes no listing and no record other than the one found under the
    id typed; when it ends done, the price read from that record is the
    number typed and its stamp is the time of the call; a number typed
    that is at most 0 is refused with nothing changed.  The
    administrator's "set FX" either changes nothing or installs the two
    numbers typed, and refuses a pair in which one is at most 0.  None of
    the four touches accounts or holdings. *)
Theorem catalog_writers_spec (RAND_MAX hour : Z) (ts : string) (st : State)
    (g : Rng) (line : option string) (num usd_in eur_in : option Q) :
  let seeded := ensure_default_prices ts st in
  let listed := fst (list_market_prices RAND_MAX hour ts st g) in
  let priced := admin_menu_set_price ts line num st in
  let rated := admin_menu_set_fx ts usd_in eur_in st in
  (Forall (fun p => 0 < price p) (prices st) ->
   Forall (fun p => 0 < price p) (prices seeded) /\
   Forall (fun p => 0 < price p) (prices listed)) /\
  prices listed <> [] /\
  Forall2 same_listing (prices st) (prices (snd priced)) /\
  (fst priced <> AdminDone -> snd priced = st) /\
  (fst priced = AdminDone ->
   exists l idx rec',
     line = Some l /\ find_price_index (prices st) (trim_newline l) = Some idx /\
     prices (snd priced) !! idx = Some rec' /\
     price rec' = safe_read_double num /\ last_update rec' = ts /\
     forall j, j <> idx -> prices (snd priced) !! j = prices st !! j) /\
  (safe_read_double num <= 0 -> fst priced <> AdminDone) /\
  (snd rated = st \/
   fst rated = AdminDone /\
   inr_per_usd (fx (snd rated)) = safe_read_double usd_in /\
   inr_per_eur (fx (snd rated)) = safe_read_double eur_in /\
   fx_last_update (fx (snd rated)) = ts) /\
  (safe_read_double usd_in <= 0 \/ safe_read_double eur_in <= 0 -> snd rated = st) /\
  (accounts seeded, holdings seeded) = (accounts st, holdings st) /\
  (accounts listed, holdings listed) = (accounts st, holdings st) /\
  (accounts (snd priced), holdings (snd priced)) = (accounts st, holdings st) /\
  (accounts (snd rated), holdings (snd rated), prices (snd rated)) =
  (accounts st, holdings st, prices st).
Proof.
  intros seeded listed priced rated.
  assert (Hlisted : prices listed =
                    fst (tick_prices RAND_MAX hour ts (prices seeded) g)).
  { unfold listed, list_market_prices. apply prices_tick_market_once. }
  assert (Hrefl : forall l, Forall2 same_listing l l).
  { intros l. apply Forall_Forall2_diag, Forall_forall. intros p _. repeat split. }
  assert (Hpriced :
            fst priced <> AdminDone /\ snd priced = st \/
            exists l idx rec,
              line = Some l /\ find_price_index (prices st) (trim_newline l) = Some idx /\
              fst priced = AdminDone /\ 0 < safe_read_double num /\
              prices st !! idx = Some rec /\
              snd priced =
                set_prices st
                  (<[idx := set_last_update (set_price rec (safe_read_double num)) ts]>
                     (prices st))).
  { unfold priced, admin_menu_set_price.
    destruct line as [l |]; [| left; split; [discriminate | reflexivity]].
    destruct (find_price_index (prices st) (trim_newline l)) as [idx |] eqn:Hfind;
      [| left; split; [discriminate | reflexivity]].
    cbv zeta. destruct (Qle_bool (safe_read_double num) 0) eqn:Hq;
      [left; split; [discriminate | reflexivity] |].
    destruct (prices st !! idx) as [rec |] eqn:Hrec;
      [| left; split; [discriminate | reflexivity]].
    right. exists l, idx, rec. apply Qle_bool_false in Hq. repeat split; assumption. }
  split; [| split; [| split; [| split; [| split; [| split; [| split; [| split]]]]]]].
  - intros Hpos.
    pose proof (proj1 (ensure_default_prices_positive ts st Hpos)) as Hs.
    split; [exact Hs |].
    rewrite Hlisted. apply tick_prices_positive. exact Hs.
  - rewrite Hlisted.
    pose proof (tick_prices_pointwise RAND_MAX hour ts (prices seeded) g) as HF.
    apply Forall2_length in HF. intros E. rewrite E in HF. cbn in HF.
    assert (Hne : prices seeded <> []).
    { unfold seeded, ensure_default_prices.
      destruct (prices st) as [| p ps] eqn:Ep; cbn; [discriminate |].
      rewrite Ep. discriminate. }
    destruct (prices seeded); [contradiction | discriminate HF].
  - destruct Hpriced as [[_ E] | (l & idx & rec & _ & _ & _ & _ & Hrec & E)]; rewrite E;
      [apply Hrefl |].
    cbn [prices set_prices]. rewrite <- (list_insert_id _ _ _ Hrec) at 1.
    apply Forall2_insert; [apply Hrefl | repeat split].
  - destruct Hpriced as [[_ E] | (l & idx & rec & _ & _ & Hd & _)];
      [intros _; exact E | congruence].
  - destruct Hpriced as [[Hn _] | (l & idx & rec & Hl & Hfind & _ & _ & Hrec & E)];
      [congruence |].
    intros _. exists l, idx, (set_last_update (set_price rec (safe_read_double num)) ts).
    split; [exact Hl |]. split; [exact Hfind |].
    rewrite E. cbn [prices set_prices].
    split; [apply list_lookup_insert_eq; exact (lookup_lt_Some _ _ _ Hrec) |].
    split; [reflexivity |]. split; [reflexivity |].
    intros j Hj. apply list_lookup_insert_ne. congruence.
  - destruct Hpriced as [[Hn _] | (l & idx & rec & _ & _ & _ & Hq & _)];
      [intros _; exact Hn | intros Hle; exfalso; lra].
  - unfold rated, admin_menu_set_fx.
    destruct (Qle_bool (safe_read_double usd_in) 0 || Qle_bool (safe_read_double eur_in) 0);
      [left; reflexivity |].
    right. cbn [fst snd fx inr_per_usd inr_per_eur fx_last_update]. repeat split.
  - intros Hbad. unfold rated, admin_menu_set_fx.
    assert (Ht : Qle_bool (safe_read_double usd_in) 0 ||
                 Qle_bool (safe_read_double eur_in) 0 = true).
    { apply orb_true_iff. destruct Hbad as [H | H]; [left | right];
        apply Qle_bool_iff; exact H. }
    rewrite Ht. reflexivity.
  - destruct (ensure_default_prices_frame ts st) as (Ea & Eh & _).
    split; [unfold seeded; rewrite Ea, Eh; reflexivity |].
    split; [| split].
    + unfold listed, list_market_prices, tick_market_once.
      destruct (tick_prices _ _ _ _ _). cbn [fst accounts holdings set_prices].
      rewrite Ea, Eh. reflexivity.
    + destruct Hpriced as [[_ E] | (l & idx & rec & _ & _ & _ & _ & _ & E)]; rewrite E;
        reflexivity.
    + unfold rated, admin_menu_set_fx. destruct (_ || _); reflexivity.
Qed.

Lemma catalog_writers_spec_witness :
  Forall (fun p => 0 < price p)
         (prices (fst (list_market_prices 32767 10 sample_ts
                         (mkState [] [] [] sample_fx) (constant_rng 0)))) /\
  exists rec',
    prices (snd (admin_menu_set_price sample_ts (Some "INFY"%string) (Some 1600)
                   one_stock_state)) !! 0%nat = Some rec' /\
    price rec' = 1600 /\ last_update rec' = sample_ts.
Proof.
  split.
  - apply (proj1 (catalog_writers_spec 32767 10 sample_ts
                    (mkState [] [] [] sample_fx) (constant_rng 0) None None None None)).
    constructor.
  - destruct (catalog_writers_spec 32767 10 sample_ts one_stock_state (constant_rng 0)
                (Some "INFY"%string) (Some 1600) None None)
      as (_ & _ & _ & _ & Hdone & _).
    destruct (Hdone eq_refl) as (l & idx & rec' & Hl & Hfind & Hrec & Hp & Hu & _).
    injection Hl as <-. vm_compute in Hfind. injection Hfind as <-.
    exists rec'. repeat split; assumption.
Defined.
